(** * Sehat: the query/storage layer and its route handlers

    A shallow embedding of [server/storage.ts] (class [DatabaseStorage]),
    of the route handlers that [registerRoutes] installs (the file beside
    it that imports [./storage]) and of the table and insert-schema
    declarations that both import as [@shared/schema].

    The relational store is a record of tables, each table a list of rows
    in insertion order.  The SQL that the storage layer builds through the
    query builder (WHERE with [eq], [LIKE] and [ILIKE], ORDER BY, LIMIT,
    OFFSET, LEFT JOIN, GROUP BY with [count], INSERT and UPDATE with
    RETURNING) is given its PostgreSQL meaning on those lists.  An [async]
    storage method is a function into [Result]: [Ok] for a resolved
    promise, [Err] for a rejected one.  A store that cannot be reached is
    not modelled: every error of the model is one the query builder raises
    on a statement it is to build, or the database on a statement it has
    received. *)

From Stdlib Require Import ZArith String Ascii DecimalString DecimalNat.
From stdpp Require Import gmap strings list sorting.

Set Warnings "-register-all".
Open Scope string_scope.
Open Scope list_scope.

(** ** Strings *)

(** Case folding of the letters A to Z.  On text that holds ASCII
    characters only this is the folding by which ILIKE compares (in every
    locale but the Turkic ones, which fold [I] otherwise); the database
    also folds letters outside ASCII, which is not modelled: the
    properties of the search filter are stated for ASCII text. *)
Definition is_upper (c : ascii) : bool :=
  (65 <=? nat_of_ascii c)%nat && (nat_of_ascii c <=? 90)%nat.

Definition lower_ascii (c : ascii) : ascii :=
  if is_upper c then ascii_of_nat (nat_of_ascii c + 32) else c.

Fixpoint lower (s : string) : string :=
  match s with
  | EmptyString => EmptyString
  | String c r => String (lower_ascii c) (lower r)
  end.

(** [starts_with f s]: [f] is a prefix of [s]. *)
Fixpoint starts_with (f s : string) : bool :=
  match f, s with
  | EmptyString, _ => true
  | String _ _, EmptyString => false
  | String a f', String b s' => Ascii.eqb a b && starts_with f' s'
  end.

(** [is_substring f s]: [f] occurs in [s] as a contiguous substring.
    This is the reading of "contains" that the filters are compared
    with. *)
Fixpoint is_substring (f s : string) : bool :=
  starts_with f s ||
  match s with
  | EmptyString => false
  | String _ s' => is_substring f s'
  end.

(** JavaScript's [String.prototype.padStart] with a one-character
    filler. *)
Fixpoint repeat_char (c : ascii) (n : nat) : string :=
  match n with
  | O => EmptyString
  | S n' => String c (repeat_char c n')
  end.

Definition padStart (width : nat) (c : ascii) (s : string) : string :=
  repeat_char c (width - String.length s) +:+ s.

(** [Number.prototype.toString] on a non-negative integer. *)
Definition toString (n : nat) : string :=
  NilZero.string_of_uint (Nat.to_uint n).

(** ** SQL pattern matching: LIKE and ILIKE

    In a pattern [%] stands for any sequence of characters, [_] for any
    single character, and a backslash takes the character after it
    literally.  A pattern that ends in a lone backslash is refused by the
    database.  A string is the sequence of the bytes of its UTF-8
    encoding: a character is a byte that is no continuation byte, with
    the continuation bytes that follow it, and [_] stands for one
    character. *)

Inductive LikeTok :=
  | LikeAny
  | LikeOne
  | LikeLit (c : ascii).

Definition like_tok (c : ascii) : LikeTok :=
  if Ascii.eqb c "%" then LikeAny
  else if Ascii.eqb c "_" then LikeOne
  else LikeLit c.

Fixpoint like_compile (pat : string) : option (list LikeTok) :=
  match pat with
  | EmptyString => Some []
  | String c r =>
      if Ascii.eqb c "\" then
        match r with
        | EmptyString => None
        | String d r' => cons (LikeLit d) <$> like_compile r'
        end
      else cons (like_tok c) <$> like_compile r
  end.

Definition is_continuation (c : ascii) : bool :=
  (128 <=? nat_of_ascii c)%nat && (nat_of_ascii c <? 192)%nat.

Fixpoint skip_continuation (s : string) : string :=
  match s with
  | EmptyString => EmptyString
  | String c r => if is_continuation c then skip_continuation r else s
  end.

Fixpoint like_match (toks : list LikeTok) (s : string) : bool :=
  match toks with
  | [] => match s with EmptyString => true | _ => false end
  | LikeLit c :: ts =>
      match s with
      | String d s' => Ascii.eqb c d && like_match ts s'
      | EmptyString => false
      end
  | LikeOne :: ts =>
      match s with
      | String _ s' => like_match ts (skip_continuation s')
      | EmptyString => false
      end
  | LikeAny :: ts =>
      (fix any (s : string) : bool :=
         like_match ts s ||
         match s with
         | EmptyString => false
         | String _ s' => any s'
         end) s
  end.

(** [s LIKE pat]; [None] when the pattern is malformed. *)
Definition sql_like (s pat : string) : option bool :=
  toks ← like_compile pat; Some (like_match toks s).

(** [s ILIKE pat]. *)
Definition sql_ilike (s pat : string) : option bool :=
  sql_like (lower s) (lower pat).

(** A filter string free of the characters LIKE gives a meaning to. *)
Definition like_meta (c : ascii) : bool :=
  Ascii.eqb c "%" || Ascii.eqb c "_" || Ascii.eqb c "\".

Fixpoint like_plain (f : string) : bool :=
  match f with
  | EmptyString => true
  | String c r => negb (like_meta c) && like_plain r
  end.

(** ** Results of asynchronous storage calls *)

Inductive DbError :=
  | UniqueViolation (constraint : string)
  | ForeignKeyViolation (constraint : string)
  | InvalidEnumLabel (enum label : string)
  | InvalidEscapeSequence
  | IntegerOutOfRange
  | NegativeOffset
  | NoValuesToSet.

Inductive Result (A : Type) :=
  | Ok (a : A)
  | Err (e : DbError).
Arguments Ok {A} a.
Arguments Err {A} e.

#[global] Instance Result_ret : MRet Result := λ A a, Ok a.
#[global] Instance Result_bind : MBind Result := λ A B f m,
  match m with
  | Ok a => f a
  | Err e => Err e
  end.

(** ** The schema ([@shared/schema]) *)

Inductive HealthStatus := Healthy | UnderTreatment | Critical | Recovered.
Inductive Gender := Male | Female | Other.
Inductive AlertSeverity := SevLow | SevMedium | SevHigh | SevCritical.
Inductive DiseaseType := Infectious | NonInfectious | Chronic | Acute.

#[global] Instance HealthStatus_eq_dec : EqDecision HealthStatus.
Proof. solve_decision. Defined.
#[global] Instance Gender_eq_dec : EqDecision Gender.
Proof. solve_decision. Defined.

(** The labels of [pgEnum("health_status", ...)] and [pgEnum("gender", ...)]. *)
Definition healthStatusEnum : list (string * HealthStatus) :=
  [("healthy", Healthy); ("under_treatment", UnderTreatment);
   ("critical", Critical); ("recovered", Recovered)].

Definition genderEnum : list (string * Gender) :=
  [("male", Male); ("female", Female); ("other", Other)].

Definition alertSeverityEnum : list (string * AlertSeverity) :=
  [("low", SevLow); ("medium", SevMedium); ("high", SevHigh);
   ("critical", SevCritical)].

Definition diseaseTypeEnum : list (string * DiseaseType) :=
  [("infectious", Infectious); ("non_infectious", NonInfectious);
   ("chronic", Chronic); ("acute", Acute)].

(** The value a label denotes, if it is a label of the enum. *)
Fixpoint enum_of_label {A} (enum : list (string * A)) (label : string)
  : option A :=
  match enum with
  | [] => None
  | (l, v) :: rest => if String.eqb l label then Some v else enum_of_label rest label
  end.

Definition enum_labels {A} (enum : list (string * A)) : list string :=
  enum.*1.

(** Rows.  A [timestamp] is a number of microseconds, a [date] in string
    mode its text; a nullable column is an [option]. *)

Module User.
Record t := mk {
  id : string;
  username : string;
  password : string;
  name : string;
  role : string;
  createdAt : Z;
}.
End User.

Module Patient.
Record t := mk {
  id : string;
  patientId : string;
  name : string;
  age : Z;
  gender : Gender;
  phone : option string;
  address : option string;
  district : string;
  workplace : option string;
  employerName : option string;
  emergencyContact : option string;
  emergencyPhone : option string;
  healthStatus : HealthStatus;
  registeredAt : Z;
  lastCheckup : option string;
  registeredBy : option string;
}.
End Patient.

Module HealthRecord.
Record t := mk {
  id : string;
  patientId : string;
  checkupDate : string;
  symptoms : option string;
  diagnosis : option string;
  treatment : option string;
  medications : option string;
  notes : option string;
  followupRequired : option bool;
  followupDate : option string;
  createdBy : option string;
  createdAt : Z;
}.
End HealthRecord.

Module Disease.
Record t := mk {
  id : string;
  name : string;
  type : DiseaseType;
  description : option string;
  symptoms : option string;
  infectious : option bool;
  reportable : option bool;
}.
End Disease.

Module DiseaseCase.
Record t := mk {
  id : string;
  patientId : string;
  diseaseId : string;
  diagnosisDate : string;
  status : string;
  severity : string;
  notes : option string;
  reportedAt : Z;
  reportedBy : option string;
}.
End DiseaseCase.

Module HealthAlert.
Record t := mk {
  id : string;
  title : string;
  description : string;
  severity : AlertSeverity;
  district : option string;
  diseaseId : option string;
  affectedCount : option Z;
  isActive : option bool;
  createdAt : Z;
  createdBy : option string;
}.
End HealthAlert.

(** The six tables. *)
Record DB := mkDB {
  users : list User.t;
  patients : list Patient.t;
  healthRecords : list HealthRecord.t;
  diseases : list Disease.t;
  diseaseCases : list DiseaseCase.t;
  healthAlerts : list HealthAlert.t;
}.

Definition empty_db : DB := mkDB [] [] [] [] [] [].

Definition with_patients (db : DB) (ps : list Patient.t) : DB :=
  mkDB (users db) ps (healthRecords db) (diseases db) (diseaseCases db)
       (healthAlerts db).

(** ** Query-builder operators *)

(** [desc(col)] on a timestamp or count column: the order ORDER BY
    enforces.  Rows with equal keys may come in any order; the model keeps
    them in table order. *)
Definition desc_by {A} (key : A → Z) : relation A :=
  λ a b, (key b ≤ key a)%Z.

#[global] Instance desc_by_dec {A} (key : A → Z) : RelDecision (desc_by key).
Proof. intros a b. unfold desc_by. apply _. Defined.

Definition orderBy_desc {A} (key : A → Z) (rows : list A) : list A :=
  merge_sort (desc_by key) rows.

(** [and(...conditions)]. *)
Definition sql_and {A} (conditions : list (A → bool)) (row : A) : bool :=
  forallb (λ c, c row) conditions.

(** [.where(and(...conditions))], added only when there is a condition. *)
Definition where_ {A} (conditions : list (A → bool)) (rows : list A) : list A :=
  match conditions with
  | [] => rows
  | _ => List.filter (sql_and conditions) rows
  end.

(** JavaScript truthiness of an optional string and an optional number. *)
Definition truthy_string (o : option string) : option string :=
  match o with
  | Some s => if String.eqb s "" then None else Some s
  | None => None
  end.

Definition truthy_number (o : option Z) : option Z :=
  match o with
  | Some n => if Z.eqb n 0 then None else Some n
  | None => None
  end.

(** [like(col, `%${f}%`)] as a condition on rows. *)
Definition like_condition {A} (col : A → option string) (f : string)
  : Result (A → bool) :=
  match like_compile ("%" +:+ f +:+ "%") with
  | Some toks =>
      Ok (λ row, match col row with
                 | Some s => like_match toks s
                 | None => false
                 end)
  | None => Err InvalidEscapeSequence
  end.

(** [(c1 ILIKE `%${f}%` OR c2 ILIKE `%${f}%`)]. *)
Definition ilike_either_condition {A} (c1 c2 : A → string) (f : string)
  : Result (A → bool) :=
  match like_compile (lower ("%" +:+ f +:+ "%")) with
  | Some toks =>
      Ok (λ row, like_match toks (lower (c1 row))
                 || like_match toks (lower (c2 row)))
  | None => Err InvalidEscapeSequence
  end.

(** [.limit(n)] and [.offset(n)], added only for a truthy [n].  The query
    builder writes LIMIT into the statement only when [n >= 0], and OFFSET
    for every [n] it is given; the database refuses a negative OFFSET.  In
    the statement OFFSET rows are skipped before LIMIT rows are kept. *)
Definition limit_ {A} (n : option Z) (rows : list A) : Result (list A) :=
  match truthy_number n with
  | None => Ok rows
  | Some n =>
      if (n <? 0)%Z then Ok rows
      else Ok (take (Z.to_nat n) rows)
  end.

Definition offset_ {A} (n : option Z) (rows : list A) : Result (list A) :=
  match truthy_number n with
  | None => Ok rows
  | Some n =>
      if (n <? 0)%Z then Err NegativeOffset
      else Ok (drop (Z.to_nat n) rows)
  end.

(** [.leftJoin(right, on)]: every left row with each right row it matches,
    or once with no right row when it matches none. *)
Definition leftJoin_row {A B} (on : A → B → bool) (right : list B) (a : A)
  : list (A * option B) :=
  match List.filter (on a) right with
  | [] => [(a, None)]
  | bs => (λ b, (a, Some b)) <$> bs
  end.

Definition leftJoin {A B} (on : A → B → bool) (left : list A) (right : list B)
  : list (A * option B) :=
  flat_map (leftJoin_row on right) left.

(** [.groupBy(key)]: one group per distinct key, holding the rows of that
    key. *)
Definition groupBy {A K} `{EqDecision K} (key : A → K) (rows : list A)
  : list (K * list A) :=
  (λ k, (k, List.filter (λ r, bool_decide (key r = k)) rows))
    <$> remove_dups (key <$> rows).

(** [count(col)]: the number of rows in which [col] is not null. *)
Definition count_col {A B} (col : A → option B) (rows : list A) : nat :=
  length (List.filter (λ r, bool_decide (is_Some (col r))) rows).

(** [const [row] = rows]: the first row, or [undefined]. *)
Definition first_row {A} (rows : list A) : option A := head rows.

(** Whether a value occurs twice in a list: the test behind a UNIQUE or
    PRIMARY KEY constraint. *)
Fixpoint has_duplicate (l : list string) : bool :=
  match l with
  | [] => false
  | x :: r => bool_decide (x ∈ r) || has_duplicate r
  end.

(** The values an [integer] column holds.  The database refuses a
    statement with a value outside them, whether or not a row is
    concerned. *)
Definition int4 (n : Z) : bool :=
  (-2147483648 <=? n)%Z && (n <=? 2147483647)%Z.

(** What the database supplies for a row being inserted: the value of
    [gen_random_uuid()] and of [now()]. *)
Record Defaults := mkDefaults {
  gen_random_uuid : string;
  now : Z;
}.

(** ** The storage layer ([server/storage.ts])

    A [date] column holds the text it is given.  The database reads a
    text written [YYYY-MM-DD] as the date it names and gives the same text
    back; what it makes of another text (some it refuses, some it
    rewrites) is not modelled.  The stores the model reaches include those
    the database reaches, and the properties that depend on the text of a
    date are stated for dates so written. *)

(** [InsertPatient]: the type inferred from [insertPatientSchema].  An
    optional nullable field is [None] when absent or null. *)
Module InsertPatient.
Record t := mk {
  name : string;
  age : Z;
  gender : Gender;
  phone : option string;
  address : option string;
  district : string;
  workplace : option string;
  employerName : option string;
  emergencyContact : option string;
  emergencyPhone : option string;
  healthStatus : option HealthStatus;
  lastCheckup : option string;
  registeredBy : option string;
}.
End InsertPatient.

(** [Partial<Patient>]: a field is [None] when the object does not have
    it. *)
Module PartialPatient.
Record t := mk {
  id : option string;
  patientId : option string;
  name : option string;
  age : option Z;
  gender : option Gender;
  phone : option (option string);
  address : option (option string);
  district : option string;
  workplace : option (option string);
  employerName : option (option string);
  emergencyContact : option (option string);
  emergencyPhone : option (option string);
  healthStatus : option HealthStatus;
  registeredAt : option Z;
  lastCheckup : option (option string);
  registeredBy : option (option string);
}.

Definition empty : t :=
  mk None None None None None None None None None None None None None None
     None None.

(** No own property with a defined value. *)
Definition is_empty (u : t) : bool :=
  bool_decide (id u = None) && bool_decide (patientId u = None)
  && bool_decide (name u = None) && bool_decide (age u = None)
  && bool_decide (gender u = None) && bool_decide (phone u = None)
  && bool_decide (address u = None) && bool_decide (district u = None)
  && bool_decide (workplace u = None) && bool_decide (employerName u = None)
  && bool_decide (emergencyContact u = None)
  && bool_decide (emergencyPhone u = None)
  && bool_decide (healthStatus u = None)
  && bool_decide (registeredAt u = None)
  && bool_decide (lastCheckup u = None)
  && bool_decide (registeredBy u = None).

(** [SET] of the fields present, the others keep their value. *)
Definition apply (u : t) (p : Patient.t) : Patient.t :=
  Patient.mk
    (default (Patient.id p) (id u))
    (default (Patient.patientId p) (patientId u))
    (default (Patient.name p) (name u))
    (default (Patient.age p) (age u))
    (default (Patient.gender p) (gender u))
    (default (Patient.phone p) (phone u))
    (default (Patient.address p) (address u))
    (default (Patient.district p) (district u))
    (default (Patient.workplace p) (workplace u))
    (default (Patient.employerName p) (employerName u))
    (default (Patient.emergencyContact p) (emergencyContact u))
    (default (Patient.emergencyPhone p) (emergencyPhone u))
    (default (Patient.healthStatus p) (healthStatus u))
    (default (Patient.registeredAt p) (registeredAt u))
    (default (Patient.lastCheckup p) (lastCheckup u))
    (default (Patient.registeredBy p) (registeredBy u)).
End PartialPatient.

Definition getUser (db : DB) (id : string) : Result (option User.t) :=
  Ok (first_row (List.filter (λ u, String.eqb (User.id u) id) (users db))).

Definition getUserByUsername (db : DB) (username : string)
  : Result (option User.t) :=
  Ok (first_row
        (List.filter (λ u, String.eqb (User.username u) username) (users db))).

Record PatientFilters := mkPatientFilters {
  pf_district : option string;
  pf_healthStatus : option string;
  pf_search : option string;
  pf_limit : option Z;
  pf_offset : option Z;
}.

(** [eq(patients.healthStatus, label)]: the label is read as a value of the
    enum, and the statement is refused when it is not one. *)
Definition eq_healthStatus (label : string) : Result (Patient.t → bool) :=
  match enum_of_label healthStatusEnum label with
  | Some v => Ok (λ p, bool_decide (Patient.healthStatus p = v))
  | None => Err (InvalidEnumLabel "health_status" label)
  end.

(** The conditions one optional filter contributes. *)
Definition condition_if {A} (filter : option string)
    (cond : string → Result (A → bool)) : Result (list (A → bool)) :=
  match truthy_string filter with
  | Some f => c ← cond f; Ok [c]
  | None => Ok []
  end.

Definition getPatients (db : DB) (filters : PatientFilters)
  : Result (list Patient.t) :=
  c1 ← condition_if (pf_district filters)
         (like_condition (λ p, Some (Patient.district p)));
  c2 ← condition_if (pf_healthStatus filters) eq_healthStatus;
  c3 ← condition_if (pf_search filters)
         (ilike_either_condition Patient.name Patient.patientId);
  let conditions := (c1 ++ c2 ++ c3) in
  let query := where_ conditions (patients db) in
  let query := orderBy_desc Patient.registeredAt query in
  rows ← offset_ (pf_offset filters) query;
  limit_ (pf_limit filters) rows.

Definition getPatientsCount (db : DB) : Result nat :=
  Ok (length (patients db)).

Definition getPatientById (db : DB) (id : string) : Result (option Patient.t) :=
  Ok (first_row
        (List.filter (λ p, String.eqb (Patient.id p) id) (patients db))).

(** The row INSERT builds from [{ ...insertPatient, patientId }], with the
    column defaults for [id], [healthStatus] and [registeredAt]. *)
Definition patient_row (d : Defaults) (insertPatient : InsertPatient.t)
    (patientId : string) : Patient.t :=
  Patient.mk
    (gen_random_uuid d)
    patientId
    (InsertPatient.name insertPatient)
    (InsertPatient.age insertPatient)
    (InsertPatient.gender insertPatient)
    (InsertPatient.phone insertPatient)
    (InsertPatient.address insertPatient)
    (InsertPatient.district insertPatient)
    (InsertPatient.workplace insertPatient)
    (InsertPatient.employerName insertPatient)
    (InsertPatient.emergencyContact insertPatient)
    (InsertPatient.emergencyPhone insertPatient)
    (default Healthy (InsertPatient.healthStatus insertPatient))
    (now d)
    (InsertPatient.lastCheckup insertPatient)
    (InsertPatient.registeredBy insertPatient).

(** The constraints of the [patients] table: primary key on [id], UNIQUE on
    [patient_id], [registered_by] references [users.id]. *)
Definition references_user (db : DB) (u : option string) : bool :=
  match u with
  | None => true
  | Some u => bool_decide (u ∈ User.id <$> users db)
  end.

(** The checks on a row being inserted: the range of [age], then the
    constraints. *)
Definition check_insert_patient (db : DB) (row : Patient.t) : Result unit :=
  if negb (int4 (Patient.age row))
  then Err IntegerOutOfRange
  else if bool_decide (Patient.id row ∈ Patient.id <$> patients db)
  then Err (UniqueViolation "patients_pkey")
  else if bool_decide
            (Patient.patientId row ∈ Patient.patientId <$> patients db)
  then Err (UniqueViolation "patients_patient_id_unique")
  else if references_user db (Patient.registeredBy row)
  then Ok ()
  else Err (ForeignKeyViolation "patients_registered_by_users_id_fk").

(** The constraints on the table [rows] that an UPDATE leaves, [changed]
    being the rows it has written. *)
Definition check_update_patients (db : DB) (rows : list Patient.t)
    (changed : list Patient.t) : Result unit :=
  if has_duplicate (Patient.id <$> rows)
  then Err (UniqueViolation "patients_pkey")
  else if has_duplicate (Patient.patientId <$> rows)
  then Err (UniqueViolation "patients_patient_id_unique")
  else if forallb (λ p, references_user db (Patient.registeredBy p)) changed
  then Ok ()
  else Err (ForeignKeyViolation "patients_registered_by_users_id_fk").

Definition generatePatientId (patientCount : nat) : string :=
  "MW" +:+ padStart 6 "0" (toString (patientCount + 1)).

Definition createPatient (db : DB) (d : Defaults)
    (insertPatient : InsertPatient.t) : Result (Patient.t * DB) :=
  patientCount ← getPatientsCount db;
  let patientId := generatePatientId patientCount in
  let patient := patient_row d insertPatient patientId in
  _ ← check_insert_patient db patient;
  Ok (patient, with_patients db (patients db ++ [patient])).

(** Whether a row of another table refers to the patient [id]. *)
Definition patient_referenced (db : DB) (id : string) : bool :=
  existsb (λ r, String.eqb (HealthRecord.patientId r) id) (healthRecords db)
  || existsb (λ c, String.eqb (DiseaseCase.patientId c) id) (diseaseCases db).

(** The foreign key that a patient referred to is held by: that of the
    health records when one of them refers to the patient, else that of
    the disease cases. *)
Definition referencing_constraint (db : DB) (id : string) : string :=
  if existsb (λ r, String.eqb (HealthRecord.patientId r) id) (healthRecords db)
  then "health_records_patient_id_patients_id_fk"
  else "disease_cases_patient_id_patients_id_fk".

(** [updatePatient]: the query builder refuses an update without values,
    the database a value of [age] outside the range of the column; then
    the rows of the id are updated and the constraints checked. *)
Definition updatePatient (db : DB) (id : string) (updates : PartialPatient.t)
  : Result (option Patient.t * DB) :=
  if PartialPatient.is_empty updates then Err NoValuesToSet else
  if negb (from_option int4 true (PartialPatient.age updates))
  then Err IntegerOutOfRange else
  let matches := λ p, String.eqb (Patient.id p) id in
  let returning :=
    PartialPatient.apply updates <$> List.filter matches (patients db) in
  match returning with
  | [] => Ok (first_row returning, db)
  | _ =>
      let rows :=
        (λ p, if matches p then PartialPatient.apply updates p else p)
          <$> patients db in
      _ ← check_update_patients db rows returning;
      if bool_decide (default id (PartialPatient.id updates) ≠ id)
         && patient_referenced db id
      then Err (ForeignKeyViolation (referencing_constraint db id))
      else Ok (first_row returning, with_patients db rows)
  end.

Definition getHealthRecordById (db : DB) (id : string)
  : Result (option HealthRecord.t) :=
  Ok (first_row
        (List.filter (λ r, String.eqb (HealthRecord.id r) id)
           (healthRecords db))).

(** A row of [getDiseaseCases]: the case with the name and district of its
    patient and the name of its disease, null when the join found none. *)
Module DiseaseCaseRow.
Record t := mk {
  id : string;
  patientId : string;
  diseaseId : string;
  diagnosisDate : string;
  status : string;
  severity : string;
  notes : option string;
  reportedAt : Z;
  patientName : option string;
  patientDistrict : option string;
  diseaseName : option string;
}.
End DiseaseCaseRow.

Record DiseaseCaseFilters := mkDiseaseCaseFilters {
  cf_patientId : option string;
  cf_diseaseId : option string;
  cf_district : option string;
  cf_status : option string;
}.

(** A row of [diseaseCases LEFT JOIN patients LEFT JOIN diseases]. *)
Definition JoinedCase : Type :=
  DiseaseCase.t * option Patient.t * option Disease.t.

Definition joined_case (j : JoinedCase) : DiseaseCase.t := j.1.1.
Definition joined_patient (j : JoinedCase) : option Patient.t := j.1.2.
Definition joined_disease (j : JoinedCase) : option Disease.t := j.2.

Definition join_cases (db : DB) : list JoinedCase :=
  leftJoin (λ cp d, String.eqb (DiseaseCase.diseaseId cp.1) (Disease.id d))
    (leftJoin (λ c p, String.eqb (DiseaseCase.patientId c) (Patient.id p))
       (diseaseCases db) (patients db))
    (diseases db).

Definition select_case (j : JoinedCase) : DiseaseCaseRow.t :=
  let c := joined_case j in
  DiseaseCaseRow.mk
    (DiseaseCase.id c) (DiseaseCase.patientId c) (DiseaseCase.diseaseId c)
    (DiseaseCase.diagnosisDate c) (DiseaseCase.status c)
    (DiseaseCase.severity c) (DiseaseCase.notes c) (DiseaseCase.reportedAt c)
    (Patient.name <$> joined_patient j)
    (Patient.district <$> joined_patient j)
    (Disease.name <$> joined_disease j).

(** [eq(col, f)] on a text column. *)
Definition eq_condition {A} (col : A → string) (f : string)
  : Result (A → bool) :=
  Ok (λ row, String.eqb (col row) f).

Definition getDiseaseCases (db : DB) (filters : DiseaseCaseFilters)
  : Result (list DiseaseCaseRow.t) :=
  let query := join_cases db in
  c1 ← condition_if (cf_patientId filters)
         (eq_condition (λ j, DiseaseCase.patientId (joined_case j)));
  c2 ← condition_if (cf_diseaseId filters)
         (eq_condition (λ j, DiseaseCase.diseaseId (joined_case j)));
  c3 ← condition_if (cf_district filters)
         (like_condition (λ j, Patient.district <$> joined_patient j));
  c4 ← condition_if (cf_status filters)
         (eq_condition (λ j, DiseaseCase.status (joined_case j)));
  let conditions := (c1 ++ c2 ++ c3 ++ c4) in
  let query := where_ conditions query in
  Ok (select_case
        <$> orderBy_desc (λ j, DiseaseCase.reportedAt (joined_case j)) query).

Record DiseaseStat := mkDiseaseStat {
  stat_name : string;
  stat_count : nat;
}.

(** The join condition, the grouping key and the counted column of
    [getDiseaseStats]. *)
Definition refers_to (d : Disease.t) (c : DiseaseCase.t) : bool :=
  String.eqb (Disease.id d) (DiseaseCase.diseaseId c).

Definition disease_key (j : Disease.t * option DiseaseCase.t)
  : string * string :=
  (Disease.id j.1, Disease.name j.1).

Definition case_id (j : Disease.t * option DiseaseCase.t) : option string :=
  DiseaseCase.id <$> j.2.

Definition getDiseaseStats (db : DB) : Result (list DiseaseStat) :=
  let joined := leftJoin refers_to (diseases db) (diseaseCases db) in
  let groups := groupBy disease_key joined in
  let select := (λ g, mkDiseaseStat g.1.2 (count_col case_id g.2)) <$> groups in
  Ok (orderBy_desc (λ s, Z.of_nat (stat_count s)) select).

(** [getHealthAlerts(activeOnly = false)]: the argument is [None] when the
    caller passes none. *)
Definition getHealthAlerts (db : DB) (activeOnly : option bool)
  : Result (list HealthAlert.t) :=
  let activeOnly := default false activeOnly in
  let query :=
    if activeOnly
    then List.filter (λ a, bool_decide (HealthAlert.isActive a = Some true))
           (healthAlerts db)
    else healthAlerts db in
  Ok (orderBy_desc HealthAlert.createdAt query).

(** ** Validation: the insert schemas

    JSON values as a request body holds them.  Numbers are integers: a
    number with a fraction is not modelled. *)

Inductive Json :=
  | JNull
  | JBool (b : bool)
  | JNum (n : Z)
  | JStr (s : string)
  | JArr (l : list Json)
  | JObj (o : gmap string Json).

(** The type name the validator reports for a value ([None]: the key is
    missing, the value [undefined]). *)
Definition parsed_type (v : option Json) : string :=
  match v with
  | None => "undefined"
  | Some JNull => "null"
  | Some (JBool _) => "boolean"
  | Some (JNum _) => "number"
  | Some (JStr _) => "string"
  | Some (JArr _) => "array"
  | Some (JObj _) => "object"
  end.

(** The schemas [createInsertSchema] makes of the columns: [ZInt4] is the
    one of an [integer] column, a number that is an integer within the
    range of the column. *)
Inductive ZodType :=
  | ZString
  | ZInt4
  | ZBoolean
  | ZDate
  | ZEnum (labels : list string).

(** A field of an object schema: [.optional()] admits a missing key,
    [.nullable()] admits null. *)
Record ZodField := mkZodField {
  zf_type : ZodType;
  zf_optional : bool;
  zf_nullable : bool;
}.

#[global] Instance ZodType_eq_dec : EqDecision ZodType.
Proof. solve_decision. Defined.
#[global] Instance ZodField_eq_dec : EqDecision ZodField.
Proof. solve_decision. Defined.

Definition ZodShape : Type := list (string * ZodField).

(** The issues of the validator: a value of another type than expected,
    with the names of the type expected and of the one received; a string
    that is none of the labels of an enum, with the string received; a
    number below or above the bounds, with the bound. *)
Inductive IssueCode :=
  | invalid_type (expected received : string)
  | invalid_enum_value (received : string)
  | too_small (minimum : Z)
  | too_big (maximum : Z).

Record ZodIssue := mkZodIssue {
  issue_code : IssueCode;
  issue_path : list string;
}.

Inductive ZodResult (A : Type) :=
  | ZodOk (data : A)
  | ZodError (errors : list ZodIssue).
Arguments ZodOk {A} data.
Arguments ZodError {A} errors.

(** The labels of an enum as an issue names them: ['a' | 'b']. *)
Fixpoint join_values (labels : list string) : string :=
  match labels with
  | [] => ""
  | l :: rest =>
      match rest with
      | [] => "'" +:+ l +:+ "'"
      | _ => "'" +:+ l +:+ "' | " +:+ join_values rest
      end
  end.

(** The type a schema expects, as an issue names it. *)
Definition expected_type (t : ZodType) : string :=
  match t with
  | ZString => "string"
  | ZInt4 => "number"
  | ZBoolean => "boolean"
  | ZDate => "date"
  | ZEnum labels => join_values labels
  end.

(** The issue a value raises against a schema, if any.  No JSON value is a
    [Date]. *)
Definition check_type (t : ZodType) (v : Json) : option IssueCode :=
  match t, v with
  | ZString, JStr _ => None
  | ZInt4, JNum n =>
      if (n <? -2147483648)%Z then Some (too_small (-2147483648))
      else if (2147483647 <? n)%Z then Some (too_big 2147483647)
      else None
  | ZBoolean, JBool _ => None
  | ZEnum labels, JStr s =>
      if bool_decide (s ∈ labels) then None else Some (invalid_enum_value s)
  | _, _ => Some (invalid_type (expected_type t) (parsed_type (Some v)))
  end.

Definition check_field (f : ZodField) (v : option Json) : option IssueCode :=
  match v with
  | None =>
      if zf_optional f then None
      else Some (invalid_type (expected_type (zf_type f)) (parsed_type None))
  | Some JNull =>
      if zf_nullable f then None
      else Some (invalid_type (expected_type (zf_type f))
                   (parsed_type (Some JNull)))
  | Some v => check_type (zf_type f) v
  end.

Definition field_issue (o : gmap string Json) (kf : string * ZodField)
  : option ZodIssue :=
  code ← check_field kf.2 (o !! kf.1);
  Some (mkZodIssue code [kf.1]).

(** Unknown keys are stripped: the validated object keeps the keys of the
    shape only. *)
Definition strip (shape : ZodShape) (o : gmap string Json) : gmap string Json :=
  filter (λ kv, kv.1 ∈ shape.*1) o.

(** [schema.parse(body)] for an object schema: every field is checked and
    every issue reported. *)
Definition zod_object_parse (shape : ZodShape) (body : Json)
  : ZodResult (gmap string Json) :=
  match body with
  | JObj o =>
      match omap (field_issue o) shape with
      | [] => ZodOk (strip shape o)
      | errors => ZodError errors
      end
  | _ => ZodError [mkZodIssue (invalid_type "object" (parsed_type (Some body)))
                     []]
  end.

(** Columns as [createInsertSchema] turns them into fields: a NOT NULL
    column without default is required, one with a default optional, a
    nullable column optional and nullable. *)
Definition required (t : ZodType) : ZodField := mkZodField t false false.
Definition defaulted (t : ZodType) : ZodField := mkZodField t true false.
Definition nullable (t : ZodType) : ZodField := mkZodField t true true.

(** [createInsertSchema(patients).omit({ id, patientId, registeredAt })]. *)
Definition patients_columns : ZodShape :=
  [("id", defaulted ZString);
   ("patientId", required ZString);
   ("name", required ZString);
   ("age", required ZInt4);
   ("gender", required (ZEnum (enum_labels genderEnum)));
   ("phone", nullable ZString);
   ("address", nullable ZString);
   ("district", required ZString);
   ("workplace", nullable ZString);
   ("employerName", nullable ZString);
   ("emergencyContact", nullable ZString);
   ("emergencyPhone", nullable ZString);
   ("healthStatus", defaulted (ZEnum (enum_labels healthStatusEnum)));
   ("registeredAt", defaulted ZDate);
   ("lastCheckup", nullable ZString);
   ("registeredBy", nullable ZString)].

Definition omit (keys : list string) (shape : ZodShape) : ZodShape :=
  List.filter (λ kf, negb (bool_decide (kf.1 ∈ keys))) shape.

Definition insertPatientSchema : ZodShape :=
  omit ["id"; "patientId"; "registeredAt"] patients_columns.

(** The validated object at its inferred type [InsertPatient]. *)
Definition field_string (o : gmap string Json) (k : string) : option string :=
  match o !! k with
  | Some (JStr s) => Some s
  | _ => None
  end.

Definition field_number (o : gmap string Json) (k : string) : option Z :=
  match o !! k with
  | Some (JNum n) => Some n
  | _ => None
  end.

Definition as_InsertPatient (o : gmap string Json) : option InsertPatient.t :=
  name ← field_string o "name";
  age ← field_number o "age";
  gender ← field_string o "gender" ≫= enum_of_label genderEnum;
  district ← field_string o "district";
  healthStatus ← match o !! "healthStatus" with
                 | None => Some None
                 | Some (JStr s) => Some <$> enum_of_label healthStatusEnum s
                 | Some _ => None
                 end;
  Some (InsertPatient.mk name age gender
          (field_string o "phone") (field_string o "address") district
          (field_string o "workplace") (field_string o "employerName")
          (field_string o "emergencyContact") (field_string o "emergencyPhone")
          healthStatus
          (field_string o "lastCheckup") (field_string o "registeredBy")).

(** [schema.parse(body)] at the type inferred from the schema.  The
    validated object always has that type; the last case never arises. *)
Definition zod_parse {V} (shape : ZodShape)
    (as_type : gmap string Json → option V) (body : Json) : ZodResult V :=
  match zod_object_parse shape body with
  | ZodError errors => ZodError errors
  | ZodOk o =>
      match as_type o with
      | Some data => ZodOk data
      | None => ZodError []
      end
  end.

Definition insertPatientSchema_parse : Json → ZodResult InsertPatient.t :=
  zod_parse insertPatientSchema as_InsertPatient.

(** ** The route handlers ([registerRoutes]) *)

(** What [res.json] is given. *)
Inductive Body :=
  | BodyMessage (message : string)
  | BodyInvalid (message : string) (errors : list ZodIssue)
  | BodyPatient (patient : Patient.t)
  | BodyAlerts (alerts : list HealthAlert.t)
  | BodyUndefined.

Record Response := mkResponse {
  status : nat;
  body : Body;
}.

(** A value of [req.query]. *)
Inductive QueryValue :=
  | QString (s : string)
  | QArray (l : list string)
  | QObject (o : list (string * string)).

#[global] Instance QueryValue_eq_dec : EqDecision QueryValue.
Proof. solve_decision. Defined.

(** [app.get("/api/patients/:id")]. *)
Definition get_patient (db : DB) (id : string) : Response :=
  match getPatientById db id with
  | Ok None => mkResponse 404 (BodyMessage "Patient not found")
  | Ok (Some patient) => mkResponse 200 (BodyPatient patient)
  | Err _ => mkResponse 500 (BodyMessage "Failed to fetch patient")
  end.

(** The shape the five POST handlers share: validate, then create; a
    validation error answers 400, any other error 500. *)
Section post_route.
Context {V R : Type}.
Variable parse : Json → ZodResult V.
Variable create : DB → Defaults → V → Result (R * DB).
Variable to_body : R → Body.
Variables invalid failed : string.

Definition post_route (db : DB) (d : Defaults) (req_body : Json)
  : Response * DB :=
  match parse req_body with
  | ZodError errors => (mkResponse 400 (BodyInvalid invalid errors), db)
  | ZodOk data =>
      match create db d data with
      | Ok (created, db') => (mkResponse 201 (to_body created), db')
      | Err _ => (mkResponse 500 (BodyMessage failed), db)
      end
  end.
End post_route.

(** [app.post("/api/patients")]. *)
Definition post_patient : DB → Defaults → Json → Response * DB :=
  post_route insertPatientSchema_parse createPatient BodyPatient
    "Invalid patient data" "Failed to create patient".

(** [app.put("/api/patients/:id")]: the body goes to the storage layer as
    it is.  A request body is JSON and holds no [Date]: on a
    [registeredAt] that it gives, the query builder throws (it asks the
    value for its [toISOString]) and the handler answers 500.
    [res.json(undefined)] sends the answer with the status left at 200. *)
Definition put_patient (db : DB) (id : string) (req_body : PartialPatient.t)
  : Response * DB :=
  match PartialPatient.registeredAt req_body with
  | Some _ => (mkResponse 500 (BodyMessage "Failed to update patient"), db)
  | None =>
      match updatePatient db id req_body with
      | Ok (Some patient, db') => (mkResponse 200 (BodyPatient patient), db')
      | Ok (None, db') => (mkResponse 200 BodyUndefined, db')
      | Err _ => (mkResponse 500 (BodyMessage "Failed to update patient"), db)
      end
  end.

(** [activeOnly === 'true']. *)
Definition is_true_literal (q : option QueryValue) : bool :=
  match q with
  | Some (QString s) => String.eqb s "true"
  | _ => false
  end.

(** [app.get("/api/health-alerts")]. *)
Definition get_health_alerts (db : DB) (activeOnly : option QueryValue)
  : Response :=
  match getHealthAlerts db (Some (is_true_literal activeOnly)) with
  | Ok alerts => mkResponse 200 (BodyAlerts alerts)
  | Err _ => mkResponse 500 (BodyMessage "Failed to fetch health alerts")
  end.

(** ** The rest of the storage layer ([server/storage.ts]) *)

Definition with_users (db : DB) (us : list User.t) : DB :=
  mkDB us (patients db) (healthRecords db) (diseases db) (diseaseCases db)
       (healthAlerts db).

Definition with_healthRecords (db : DB) (rs : list HealthRecord.t) : DB :=
  mkDB (users db) (patients db) rs (diseases db) (diseaseCases db)
       (healthAlerts db).

Definition with_diseases (db : DB) (ds : list Disease.t) : DB :=
  mkDB (users db) (patients db) (healthRecords db) ds (diseaseCases db)
       (healthAlerts db).

Definition with_diseaseCases (db : DB) (cs : list DiseaseCase.t) : DB :=
  mkDB (users db) (patients db) (healthRecords db) (diseases db) cs
       (healthAlerts db).

Definition with_healthAlerts (db : DB) (alerts : list HealthAlert.t) : DB :=
  mkDB (users db) (patients db) (healthRecords db) (diseases db)
       (diseaseCases db) alerts.

(** A nullable reference to [diseases.id]. *)
Definition references_disease (db : DB) (d : option string) : bool :=
  match d with
  | None => true
  | Some d => bool_decide (d ∈ Disease.id <$> diseases db)
  end.

(** The insert types.  A field of a NOT NULL column with a default is
    [None] when absent; a field of a nullable column with a default is
    [None] when absent and [Some None] when null. *)
Module InsertUser.
Record t := mk {
  username : string;
  password : string;
  name : string;
  role : option string;
}.
End InsertUser.

Module InsertHealthRecord.
Record t := mk {
  patientId : string;
  checkupDate : string;
  symptoms : option string;
  diagnosis : option string;
  treatment : option string;
  medications : option string;
  notes : option string;
  followupRequired : option (option bool);
  followupDate : option string;
  createdBy : option string;
}.
End InsertHealthRecord.

Module InsertDisease.
Record t := mk {
  name : string;
  type : DiseaseType;
  description : option string;
  symptoms : option string;
  infectious : option (option bool);
  reportable : option (option bool);
}.
End InsertDisease.

Module InsertDiseaseCase.
Record t := mk {
  patientId : string;
  diseaseId : string;
  diagnosisDate : string;
  status : option string;
  severity : option string;
  notes : option string;
  reportedBy : option string;
}.
End InsertDiseaseCase.

Module InsertHealthAlert.
Record t := mk {
  title : string;
  description : string;
  severity : AlertSeverity;
  district : option string;
  diseaseId : option string;
  affectedCount : option (option Z);
  isActive : option (option bool);
  createdBy : option string;
}.
End InsertHealthAlert.

(** [createUser]: [role] defaults to [health_worker]; [id] is the primary
    key and [username] is UNIQUE. *)
Definition user_row (d : Defaults) (insertUser : InsertUser.t) : User.t :=
  User.mk (gen_random_uuid d)
    (InsertUser.username insertUser) (InsertUser.password insertUser)
    (InsertUser.name insertUser)
    (default "health_worker" (InsertUser.role insertUser))
    (now d).

Definition createUser (db : DB) (d : Defaults) (insertUser : InsertUser.t)
  : Result (User.t * DB) :=
  let user := user_row d insertUser in
  if bool_decide (User.id user ∈ User.id <$> users db)
  then Err (UniqueViolation "users_pkey")
  else if bool_decide (User.username user ∈ User.username <$> users db)
  then Err (UniqueViolation "users_username_unique")
  else Ok (user, with_users db (users db ++ [user])).

(** [getDashboardStats]: four counts. *)
Record DashboardStats := mkDashboardStats {
  totalPatients : nat;
  activeAlerts : nat;
  totalScreenings : nat;
  totalDiseaseCases : nat;
}.

Definition getDashboardStats (db : DB) : Result DashboardStats :=
  let patientsCount := length (patients db) in
  let alertsCount :=
    length (List.filter
              (λ a, bool_decide (HealthAlert.isActive a = Some true))
              (healthAlerts db)) in
  let recordsCount := length (healthRecords db) in
  let casesCount := length (diseaseCases db) in
  Ok (mkDashboardStats patientsCount alertsCount recordsCount casesCount).

(** [createHealthRecord]: [patient_id] references [patients.id],
    [created_by] references [users.id]; [followup_required] defaults to
    false. *)
Definition healthRecord_row (d : Defaults) (insertRecord : InsertHealthRecord.t)
  : HealthRecord.t :=
  HealthRecord.mk (gen_random_uuid d)
    (InsertHealthRecord.patientId insertRecord)
    (InsertHealthRecord.checkupDate insertRecord)
    (InsertHealthRecord.symptoms insertRecord)
    (InsertHealthRecord.diagnosis insertRecord)
    (InsertHealthRecord.treatment insertRecord)
    (InsertHealthRecord.medications insertRecord)
    (InsertHealthRecord.notes insertRecord)
    (default (Some false) (InsertHealthRecord.followupRequired insertRecord))
    (InsertHealthRecord.followupDate insertRecord)
    (InsertHealthRecord.createdBy insertRecord)
    (now d).

Definition createHealthRecord (db : DB) (d : Defaults)
    (insertRecord : InsertHealthRecord.t) : Result (HealthRecord.t * DB) :=
  let record := healthRecord_row d insertRecord in
  if bool_decide (HealthRecord.id record ∈ HealthRecord.id <$> healthRecords db)
  then Err (UniqueViolation "health_records_pkey")
  else if negb (bool_decide
                  (HealthRecord.patientId record ∈ Patient.id <$> patients db))
  then Err (ForeignKeyViolation "health_records_patient_id_patients_id_fk")
  else if negb (references_user db (HealthRecord.createdBy record))
  then Err (ForeignKeyViolation "health_records_created_by_users_id_fk")
  else Ok (record, with_healthRecords db (healthRecords db ++ [record])).

(** [createDisease]: [name] is UNIQUE; [infectious] and [reportable]
    default to false. *)
Definition disease_row (d : Defaults) (insertDisease : InsertDisease.t)
  : Disease.t :=
  Disease.mk (gen_random_uuid d)
    (InsertDisease.name insertDisease) (InsertDisease.type insertDisease)
    (InsertDisease.description insertDisease)
    (InsertDisease.symptoms insertDisease)
    (default (Some false) (InsertDisease.infectious insertDisease))
    (default (Some false) (InsertDisease.reportable insertDisease)).

Definition createDisease (db : DB) (d : Defaults)
    (insertDisease : InsertDisease.t) : Result (Disease.t * DB) :=
  let disease := disease_row d insertDisease in
  if bool_decide (Disease.id disease ∈ Disease.id <$> diseases db)
  then Err (UniqueViolation "diseases_pkey")
  else if bool_decide (Disease.name disease ∈ Disease.name <$> diseases db)
  then Err (UniqueViolation "diseases_name_unique")
  else Ok (disease, with_diseases db (diseases db ++ [disease])).

(** [createDiseaseCase]: [patient_id] references [patients.id],
    [disease_id] references [diseases.id], [reported_by] references
    [users.id]; [status] defaults to [active], [severity] to [mild]. *)
Definition diseaseCase_row (d : Defaults) (insertCase : InsertDiseaseCase.t)
  : DiseaseCase.t :=
  DiseaseCase.mk (gen_random_uuid d)
    (InsertDiseaseCase.patientId insertCase)
    (InsertDiseaseCase.diseaseId insertCase)
    (InsertDiseaseCase.diagnosisDate insertCase)
    (default "active" (InsertDiseaseCase.status insertCase))
    (default "mild" (InsertDiseaseCase.severity insertCase))
    (InsertDiseaseCase.notes insertCase)
    (now d)
    (InsertDiseaseCase.reportedBy insertCase).

Definition createDiseaseCase (db : DB) (d : Defaults)
    (insertCase : InsertDiseaseCase.t) : Result (DiseaseCase.t * DB) :=
  let diseaseCase := diseaseCase_row d insertCase in
  if bool_decide (DiseaseCase.id diseaseCase ∈ DiseaseCase.id <$> diseaseCases db)
  then Err (UniqueViolation "disease_cases_pkey")
  else if negb (bool_decide (DiseaseCase.patientId diseaseCase
                             ∈ Patient.id <$> patients db))
  then Err (ForeignKeyViolation "disease_cases_patient_id_patients_id_fk")
  else if negb (bool_decide (DiseaseCase.diseaseId diseaseCase
                             ∈ Disease.id <$> diseases db))
  then Err (ForeignKeyViolation "disease_cases_disease_id_diseases_id_fk")
  else if negb (references_user db (DiseaseCase.reportedBy diseaseCase))
  then Err (ForeignKeyViolation "disease_cases_reported_by_users_id_fk")
  else Ok (diseaseCase, with_diseaseCases db (diseaseCases db ++ [diseaseCase])).

(** [createHealthAlert]: [disease_id] references [diseases.id],
    [created_by] references [users.id]; [affected_count] defaults to 0 and
    [is_active] to true.  An [affected_count] outside the range of the
    column is refused. *)
Definition healthAlert_row (d : Defaults) (insertAlert : InsertHealthAlert.t)
  : HealthAlert.t :=
  HealthAlert.mk (gen_random_uuid d)
    (InsertHealthAlert.title insertAlert)
    (InsertHealthAlert.description insertAlert)
    (InsertHealthAlert.severity insertAlert)
    (InsertHealthAlert.district insertAlert)
    (InsertHealthAlert.diseaseId insertAlert)
    (default (Some 0%Z) (InsertHealthAlert.affectedCount insertAlert))
    (default (Some true) (InsertHealthAlert.isActive insertAlert))
    (now d)
    (InsertHealthAlert.createdBy insertAlert).

Definition check_healthAlert (db : DB) (alert : HealthAlert.t) : Result unit :=
  if negb (references_disease db (HealthAlert.diseaseId alert))
  then Err (ForeignKeyViolation "health_alerts_disease_id_diseases_id_fk")
  else if negb (references_user db (HealthAlert.createdBy alert))
  then Err (ForeignKeyViolation "health_alerts_created_by_users_id_fk")
  else Ok ().

(** A check on every row a statement has written: the first failure is
    the error of the statement. *)
Fixpoint check_all {A} (check : A → Result unit) (rows : list A)
  : Result unit :=
  match rows with
  | [] => Ok ()
  | a :: rest => _ ← check a; check_all check rest
  end.

Definition createHealthAlert (db : DB) (d : Defaults)
    (insertAlert : InsertHealthAlert.t) : Result (HealthAlert.t * DB) :=
  let alert := healthAlert_row d insertAlert in
  if negb (from_option int4 true (HealthAlert.affectedCount alert))
  then Err IntegerOutOfRange
  else if bool_decide (HealthAlert.id alert ∈ HealthAlert.id <$> healthAlerts db)
  then Err (UniqueViolation "health_alerts_pkey")
  else
    _ ← check_healthAlert db alert;
    Ok (alert, with_healthAlerts db (healthAlerts db ++ [alert])).

(** [Partial<HealthAlert>]. *)
Module PartialHealthAlert.
Record t := mk {
  id : option string;
  title : option string;
  description : option string;
  severity : option AlertSeverity;
  district : option (option string);
  diseaseId : option (option string);
  affectedCount : option (option Z);
  isActive : option (option bool);
  createdAt : option Z;
  createdBy : option (option string);
}.

Definition is_empty (u : t) : bool :=
  match u with
  | mk None None None None None None None None None None => true
  | _ => false
  end.

Definition apply (u : t) (a : HealthAlert.t) : HealthAlert.t :=
  HealthAlert.mk
    (default (HealthAlert.id a) (id u))
    (default (HealthAlert.title a) (title u))
    (default (HealthAlert.description a) (description u))
    (default (HealthAlert.severity a) (severity u))
    (default (HealthAlert.district a) (district u))
    (default (HealthAlert.diseaseId a) (diseaseId u))
    (default (HealthAlert.affectedCount a) (affectedCount u))
    (default (HealthAlert.isActive a) (isActive u))
    (default (HealthAlert.createdAt a) (createdAt u))
    (default (HealthAlert.createdBy a) (createdBy u)).
End PartialHealthAlert.

(** [updateHealthAlert]: as [updatePatient], the first row RETURNING
    yields, or [undefined] when the id matches no row; an
    [affectedCount] outside the range of the column is refused whether or
    not a row matches. *)
Definition updateHealthAlert (db : DB) (id : string)
    (updates : PartialHealthAlert.t) : Result (option HealthAlert.t * DB) :=
  if PartialHealthAlert.is_empty updates then Err NoValuesToSet else
  if negb (from_option (from_option int4 true) true
             (PartialHealthAlert.affectedCount updates))
  then Err IntegerOutOfRange else
  let matches := λ a, String.eqb (HealthAlert.id a) id in
  let returning :=
    PartialHealthAlert.apply updates <$> List.filter matches (healthAlerts db) in
  match returning with
  | [] => Ok (first_row returning, db)
  | _ =>
      let rows :=
        (λ a, if matches a then PartialHealthAlert.apply updates a else a)
          <$> healthAlerts db in
      if has_duplicate (HealthAlert.id <$> rows)
      then Err (UniqueViolation "health_alerts_pkey")
      else
        _ ← check_all (check_healthAlert db) returning;
        Ok (first_row returning, with_healthAlerts db rows)
  end.

(** The calls that write to the store, and the stores they lead to from
    the empty one.  A call that fails leaves the store as it was. *)
Inductive Mutation :=
  | CreateUser (d : Defaults) (data : InsertUser.t)
  | CreatePatient (d : Defaults) (data : InsertPatient.t)
  | UpdatePatient (id : string) (updates : PartialPatient.t)
  | CreateHealthRecord (d : Defaults) (data : InsertHealthRecord.t)
  | CreateDisease (d : Defaults) (data : InsertDisease.t)
  | CreateDiseaseCase (d : Defaults) (data : InsertDiseaseCase.t)
  | CreateHealthAlert (d : Defaults) (data : InsertHealthAlert.t)
  | UpdateHealthAlert (id : string) (updates : PartialHealthAlert.t).

Definition committed {A} (r : Result (A * DB)) : Result DB :=
  match r with
  | Ok (_, db) => Ok db
  | Err e => Err e
  end.

Definition run (db : DB) (m : Mutation) : Result DB :=
  match m with
  | CreateUser d data => committed (createUser db d data)
  | CreatePatient d data => committed (createPatient db d data)
  | UpdatePatient id updates => committed (updatePatient db id updates)
  | CreateHealthRecord d data => committed (createHealthRecord db d data)
  | CreateDisease d data => committed (createDisease db d data)
  | CreateDiseaseCase d data => committed (createDiseaseCase db d data)
  | CreateHealthAlert d data => committed (createHealthAlert db d data)
  | UpdateHealthAlert id updates => committed (updateHealthAlert db id updates)
  end.

Inductive reachable : DB → Prop :=
  | reachable_empty : reachable empty_db
  | reachable_run db m db' :
      reachable db → run db m = Ok db' → reachable db'.

(** The constraints the schema declares: primary keys, UNIQUE columns and
    foreign keys. *)
Record consistent (db : DB) : Prop := mkConsistent {
  users_pkey : NoDup (User.id <$> users db);
  users_username_unique : NoDup (User.username <$> users db);
  patients_pkey : NoDup (Patient.id <$> patients db);
  patients_patient_id_unique : NoDup (Patient.patientId <$> patients db);
  patients_registered_by_fk :
    Forall (λ p, references_user db (Patient.registeredBy p) = true)
      (patients db);
  health_records_pkey : NoDup (HealthRecord.id <$> healthRecords db);
  health_records_fk :
    Forall (λ r, HealthRecord.patientId r ∈ Patient.id <$> patients db
                 ∧ references_user db (HealthRecord.createdBy r) = true)
      (healthRecords db);
  diseases_pkey : NoDup (Disease.id <$> diseases db);
  diseases_name_unique : NoDup (Disease.name <$> diseases db);
  disease_cases_pkey : NoDup (DiseaseCase.id <$> diseaseCases db);
  disease_cases_fk :
    Forall (λ c, DiseaseCase.patientId c ∈ Patient.id <$> patients db
                 ∧ DiseaseCase.diseaseId c ∈ Disease.id <$> diseases db
                 ∧ references_user db (DiseaseCase.reportedBy c) = true)
      (diseaseCases db);
  health_alerts_pkey : NoDup (HealthAlert.id <$> healthAlerts db);
  health_alerts_fk :
    Forall (λ a, references_disease db (HealthAlert.diseaseId a) = true
                 ∧ references_user db (HealthAlert.createdBy a) = true)
      (healthAlerts db);
}.

(** [getHealthRecords(patientId?)].  [checkup_date] is a [date] column,
    which the driver hands over as text; ORDER BY compares the dates, and
    [date_ordinal] is the place of a date on the calendar. *)
Section health_records.
Variable date_ordinal : string → Z.

Definition getHealthRecords (db : DB) (patientId : option string)
  : Result (list HealthRecord.t) :=
  let query :=
    match truthy_string patientId with
    | Some patientId =>
        List.filter (λ r, String.eqb (HealthRecord.patientId r) patientId)
          (healthRecords db)
    | None => healthRecords db
    end in
  Ok (orderBy_desc (λ r, date_ordinal (HealthRecord.checkupDate r)) query).
End health_records.

(** ** The other route handlers ([registerRoutes]) *)

(** What a handler sends: the value the storage method resolved to,
    [undefined], or a message. *)
Inductive Sent (A : Type) :=
  | SentValue (value : A)
  | SentUndefined
  | SentMessage (message : string).

Arguments SentValue {A} value.
Arguments SentUndefined {A}.
Arguments SentMessage {A} message.

Record Answer (A : Type) := mkAnswer {
  answer_status : nat;
  answer_body : Sent A;
}.

Arguments mkAnswer {A} answer_status answer_body.
Arguments answer_status {A} _.
Arguments answer_body {A} _.

(** [app.get("/api/dashboard/stats")]. *)
Definition get_dashboard_stats (db : DB) : Answer DashboardStats :=
  match getDashboardStats db with
  | Ok stats => mkAnswer 200 (SentValue stats)
  | Err _ => mkAnswer 500 (SentMessage "Failed to fetch dashboard stats")
  end.

(** [app.get("/api/health-records/:id")]. *)
Definition get_health_record (db : DB) (id : string) : Answer HealthRecord.t :=
  match getHealthRecordById db id with
  | Ok None => mkAnswer 404 (SentMessage "Health record not found")
  | Ok (Some record) => mkAnswer 200 (SentValue record)
  | Err _ => mkAnswer 500 (SentMessage "Failed to fetch health record")
  end.

(** [app.get("/api/disease-cases/stats")]. *)
Definition get_disease_stats (db : DB) : Answer (list DiseaseStat) :=
  match getDiseaseStats db with
  | Ok stats => mkAnswer 200 (SentValue stats)
  | Err _ => mkAnswer 500 (SentMessage "Failed to fetch disease stats")
  end.

(** [app.put("/api/health-alerts/:id")]: as the PUT handler of patients,
    the body goes to the storage layer as it is, and a [createdAt] that it
    gives makes the query builder throw. *)
Definition put_health_alert (db : DB) (id : string)
    (req_body : PartialHealthAlert.t) : Answer HealthAlert.t * DB :=
  match PartialHealthAlert.createdAt req_body with
  | Some _ =>
      (mkAnswer 500 (SentMessage "Failed to update health alert"), db)
  | None =>
      match updateHealthAlert db id req_body with
      | Ok (Some alert, db') => (mkAnswer 200 (SentValue alert), db')
      | Ok (None, db') => (mkAnswer 200 SentUndefined, db')
      | Err _ =>
          (mkAnswer 500 (SentMessage "Failed to update health alert"), db)
      end
  end.

(** ** The client ([HealthRecords], [Reports]) *)

(** [getPatientInfo]: [patients] is [undefined] until the list of patients
    has been fetched. *)
Definition getPatientInfo (patients : option (list Patient.t))
    (patientId : string) : option Patient.t :=
  ps ← patients; List.find (λ p, String.eqb (Patient.id p) patientId) ps.

(** [handleDistrictToggle]: the state update it passes to
    [setSelectedDistricts]. *)
Definition handleDistrictToggle (district : string) (prev : list string)
  : list string :=
  if bool_decide (district ∈ prev)
  then List.filter (λ d, negb (String.eqb d district)) prev
  else prev ++ [district].

(** ** Notions the properties are stated with *)

(** Reading a decimal numeral, leading zeros allowed. *)
Definition parse_decimal (s : string) : option nat :=
  Nat.of_uint <$> NilEmpty.uint_of_string s.

(** The count a patient identifier was generated from. *)
Definition decodePatientId (s : string) : option nat :=
  match s with
  | String "M" (String "W" digits) => parse_decimal digits
  | _ => None
  end.

(** The rows carry, in insertion order, the identifiers generated for the
    counts 0, 1, 2, ...: the state of a table that [createPatient] alone
    has filled. *)
Definition sequential_ids (rows : list Patient.t) : Prop :=
  ∀ i p, rows !! i = Some p → Patient.patientId p = generatePatientId i.

(** The pattern of a plain string is the string itself, character by
    character. *)
Fixpoint literals (f : string) : list LikeTok :=
  match f with
  | EmptyString => []
  | String c r => LikeLit c :: literals r
  end.

(** The label of a health status. *)
Definition healthStatus_label (h : HealthStatus) : string :=
  match h with
  | Healthy => "healthy"
  | UnderTreatment => "under_treatment"
  | Critical => "critical"
  | Recovered => "recovered"
  end.

(** What a filter that is given asks of a row; a filter that is not given
    asks nothing. *)
Definition constrains {A} (filter : option A) (test : A → bool) : bool :=
  match filter with
  | Some f => test f
  | None => true
  end.


(** A filter without the characters [%], [_] and backslash. *)
Definition plain_filter (filter : option string) : Prop :=
  match filter with
  | Some f => like_plain f = true
  | None => True
  end.


(** A filter that, when given, is not the empty string. *)
Definition given_filter (filter : option string) : Prop :=
  filter ≠ Some "".



(** A calendar date written [YYYY-MM-DD], from the year 0001 on: the form
    in which the database prints a date, so that it reads such a text as
    the date it names and gives the same text back. *)
Definition digit (c : ascii) : option nat :=
  let n := nat_of_ascii c in
  if (48 <=? n)%nat && (n <=? 57)%nat then Some (n - 48)%nat else None.

Definition leap_year (y : nat) : bool :=
  ((y mod 4 =? 0)%nat && negb (y mod 100 =? 0)%nat) || (y mod 400 =? 0)%nat.

Definition days_in_month (y m : nat) : nat :=
  match m with
  | 1 | 3 | 5 | 7 | 8 | 10 | 12 => 31
  | 4 | 6 | 9 | 11 => 30
  | 2 => if leap_year y then 29 else 28
  | _ => 0
  end.

Definition iso_date (s : string) : bool :=
  match s with
  | String y1 (String y2 (String y3 (String y4 (String s1
      (String m1 (String m2 (String s2
        (String d1 (String d2 EmptyString))))))))) =>
      match digit y1, digit y2, digit y3, digit y4,
            digit m1, digit m2, digit d1, digit d2 with
      | Some a, Some b, Some c, Some e, Some f, Some g, Some h, Some i =>
          let y := (1000 * a + 100 * b + 10 * c + e)%nat in
          let d := (10 * h + i)%nat in
          Ascii.eqb s1 "-" && Ascii.eqb s2 "-"
          && (1 <=? y)%nat && (1 <=? d)%nat
          && (d <=? days_in_month y (10 * f + g))%nat
      | _, _, _, _, _, _, _, _ => false
      end
  | _ => false
  end.

(** The text of a [date] column, when one is given, is such a date. *)
Definition date_text (text : option string) : Prop :=
  match text with
  | Some s => iso_date s = true
  | None => True
  end.

(** An update of a patient that a request body can hold and the database
    takes: the age, when given, is in the range of its column; the last
    checkup, when given and not null, is a date written [YYYY-MM-DD]; and
    no [registeredAt] is given. *)
Definition accepted_update (updates : PartialPatient.t) : Prop :=
  from_option int4 true (PartialPatient.age updates) = true
  ∧ date_text (default None (PartialPatient.lastCheckup updates))
  ∧ PartialPatient.registeredAt updates = None.

(** The same for an update of a health alert: the affected count, when
    given and not null, is in the range of its column, and no [createdAt]
    is given. *)
Definition accepted_alert_update (updates : PartialHealthAlert.t) : Prop :=
  from_option (from_option int4 true) true
    (PartialHealthAlert.affectedCount updates) = true
  ∧ PartialHealthAlert.createdAt updates = None.

(** The joined rows the filters of [getDiseaseCases] select, as the
    specification words it: [patientId], [diseaseId] and [status] are
    compared for equality, and the district of the joined patient contains
    the district filter. *)
Definition case_matches (filters : DiseaseCaseFilters) (j : JoinedCase) : bool :=
  constrains (cf_patientId filters)
    (λ f, String.eqb (DiseaseCase.patientId (joined_case j)) f)
  && constrains (cf_diseaseId filters)
       (λ f, String.eqb (DiseaseCase.diseaseId (joined_case j)) f)
  && constrains (cf_district filters)
       (λ f, from_option (is_substring f) false
               (Patient.district <$> joined_patient j))
  && constrains (cf_status filters)
       (λ f, String.eqb (DiseaseCase.status (joined_case j)) f).

(** The filters on the columns of the case itself. *)
Definition case_selected (filters : DiseaseCaseFilters) (c : DiseaseCase.t)
  : bool :=
  constrains (cf_patientId filters) (String.eqb (DiseaseCase.patientId c))
  && constrains (cf_diseaseId filters) (String.eqb (DiseaseCase.diseaseId c))
  && constrains (cf_status filters) (String.eqb (DiseaseCase.status c)).

(** The number of disease cases that refer to a disease. *)
Definition cases_of (db : DB) (d : Disease.t) : nat :=
  length (List.filter
            (λ c, String.eqb (DiseaseCase.diseaseId c) (Disease.id d))
            (diseaseCases db)).

(** A body that violates an object schema: it is not an object, or one of
    the fields of the schema raises an issue. *)
Definition violates (shape : ZodShape) (body : Json) : Prop :=
  match body with
  | JObj o => ∃ k f, (k, f) ∈ shape ∧ check_field f (o !! k) ≠ None
  | _ => True
  end.

(** A patient payload without the required [name]. *)
Definition nameless : Json :=
  JObj (list_to_map [("age", JNum 30); ("gender", JStr "female");
                     ("district", JStr "Kerala")]).

(** A patient payload whose [age] is beyond the range of the column. *)
Definition overage : Json :=
  JObj (list_to_map [("name", JStr "Asha"); ("age", JNum 2147483648);
                     ("gender", JStr "female");
                     ("district", JStr "Kerala")]).

(** A patient payload that also sets the fields the server assigns. *)
Definition forged : gmap string Json :=
  list_to_map [("name", JStr "Asha"); ("age", JNum 30);
               ("gender", JStr "female"); ("district", JStr "Kerala");
               ("id", JStr "chosen"); ("patientId", JStr "MW999999");
               ("registeredAt", JStr "1999-01-01T00:00:00Z")].

(** A payload with the fields the server assigns set by the client. *)
Definition with_server_fields (id patientId registeredAt : Json)
    (o : gmap string Json) : gmap string Json :=
  <["id" := id]> (<["patientId" := patientId]>
    (<["registeredAt" := registeredAt]> o)).

(** What [count] makes of the group of key [k]. *)
Definition group_count (k : string * string)
    (rows : list (Disease.t * option DiseaseCase.t)) : nat :=
  count_col case_id (List.filter (λ j, bool_decide (disease_key j = k)) rows).

(** Requests used as examples. *)
Definition asha : Json :=
  JObj (list_to_map [("name", JStr "Asha"); ("age", JNum 30);
                     ("gender", JStr "female"); ("district", JStr "Kerala")]).

Definition asha_data : InsertPatient.t :=
  InsertPatient.mk "Asha" 30 Female None None "Kerala" None None None None
    None None None.

Definition rename_to (name : string) : PartialPatient.t :=
  PartialPatient.mk None None (Some name) None None None None None None None
    None None None None None None.


Definition renumber_to (patientId : string) : PartialPatient.t :=
  PartialPatient.mk None (Some patientId) None None None None None None None
    None None None None None None None.

(** A store used as an example: one health worker, two patients, a health
    record, two diseases, three disease cases of which the second refers
    to a patient and a disease that no row holds, and three alerts. *)
Definition asha_row : Patient.t :=
  Patient.mk "u1" "MW000001" "Asha" 30 Female None None "Kerala" None None
    None None Healthy 100 None None.

Definition babu_row : Patient.t :=
  Patient.mk "u2" "MW000002" "Babu" 41 Male None None "Ernakulam" None None
    None None UnderTreatment 200 None (Some "w1").

Definition dangling_case : DiseaseCase.t :=
  DiseaseCase.mk "c2" "gone" "lost" "2024-02-01" "active" "mild" None 500 None.

Definition clinic_db : DB :=
  mkDB
    [User.mk "w1" "meera" "secret" "Meera" "health_worker" 10]
    [asha_row; babu_row]
    [HealthRecord.mk "h1" "u1" "2024-01-05" None None None None None
       (Some false) None None 300]
    [Disease.mk "d1" "Dengue" Infectious None None (Some true) (Some true);
     Disease.mk "d2" "Malaria" Infectious None None (Some true) (Some true)]
    [DiseaseCase.mk "c1" "u1" "d1" "2024-01-10" "active" "mild" None 400 None;
     dangling_case;
     DiseaseCase.mk "c3" "u2" "d1" "2024-03-01" "recovered" "severe" None 600
       None]
    [HealthAlert.mk "a1" "Dengue" "Cases rising" SevHigh (Some "Kerala")
       (Some "d1") (Some 12%Z) (Some true) 700 None;
     HealthAlert.mk "a2" "Heat" "Heat wave" SevLow None None None
       (Some false) 800 None;
     HealthAlert.mk "a3" "Flood" "Flooding" SevMedium None None None
       None 900 None].

(** A sequence of calls, stopped by the first that fails. *)
Fixpoint run_all (db : DB) (ms : list Mutation) : Result DB :=
  match ms with
  | [] => Ok db
  | m :: rest => db' ← run db m; run_all db' rest
  end.

(** A second example store, built by the storage layer itself: a health
    worker registers a patient, a disease is catalogued, a case of it is
    reported for the patient, an alert is raised and a checkup recorded. *)
Definition ward_calls : list Mutation :=
  [CreateUser (mkDefaults "w1" 10)
     (InsertUser.mk "meera" "secret" "Meera" None);
   CreatePatient (mkDefaults "u1" 100) asha_data;
   CreateDisease (mkDefaults "d1" 150)
     (InsertDisease.mk "Dengue" Infectious None None (Some (Some true)) None);
   CreateDiseaseCase (mkDefaults "c1" 400)
     (InsertDiseaseCase.mk "u1" "d1" "2024-01-10" None None None (Some "w1"));
   CreateHealthAlert (mkDefaults "a1" 700)
     (InsertHealthAlert.mk "Dengue" "Cases rising" SevHigh (Some "Kerala")
        (Some "d1") None None None);
   CreateHealthRecord (mkDefaults "h1" 300)
     (InsertHealthRecord.mk "u1" "2024-01-05" None (Some "Fever") None None
        None None None (Some "w1"))].

Definition ward_db : DB :=
  match run_all empty_db ward_calls with
  | Ok db => db
  | Err _ => empty_db
  end.

(** An update that only withdraws an alert. *)
Definition deactivate : PartialHealthAlert.t :=
  PartialHealthAlert.mk None None None None None None None
    (Some (Some false)) None None.

(** A third example store, built by the storage layer: a health worker,
    two patients, two diseases, a case of the first disease for each
    patient, an alert that is active and one that is not, and a
    checkup. *)
Definition babu_data : InsertPatient.t :=
  InsertPatient.mk "Babu" 41 Male None None "Ernakulam" None None None None
    (Some UnderTreatment) None (Some "w1").

Definition camp_calls : list Mutation :=
  [CreateUser (mkDefaults "w1" 10)
     (InsertUser.mk "meera" "secret" "Meera" None);
   CreatePatient (mkDefaults "u1" 100) asha_data;
   CreatePatient (mkDefaults "u2" 200) babu_data;
   CreateDisease (mkDefaults "d1" 150)
     (InsertDisease.mk "Dengue" Infectious None None (Some (Some true)) None);
   CreateDisease (mkDefaults "d2" 160)
     (InsertDisease.mk "Malaria" Infectious None None None None);
   CreateDiseaseCase (mkDefaults "c1" 400)
     (InsertDiseaseCase.mk "u1" "d1" "2024-01-10" None None None (Some "w1"));
   CreateDiseaseCase (mkDefaults "c3" 600)
     (InsertDiseaseCase.mk "u2" "d1" "2024-03-01" (Some "recovered")
        (Some "severe") None None);
   CreateHealthAlert (mkDefaults "a1" 700)
     (InsertHealthAlert.mk "Dengue" "Cases rising" SevHigh (Some "Kerala")
        (Some "d1") (Some (Some 12%Z)) None None);
   CreateHealthAlert (mkDefaults "a2" 800)
     (InsertHealthAlert.mk "Heat" "Heat wave" SevLow None None None
        (Some (Some false)) None);
   CreateHealthRecord (mkDefaults "h1" 300)
     (InsertHealthRecord.mk "u1" "2024-01-05" None (Some "Fever") None None
        None None None (Some "w1"))].

Definition camp_db : DB :=
  match run_all empty_db camp_calls with
  | Ok db => db
  | Err _ => empty_db
  end.

(** Rows and payloads of the examples. *)
Definition meera : InsertUser.t :=
  InsertUser.mk "meera" "secret" "Meera" None.

Definition meera_row : User.t :=
  User.mk "w1" "meera" "secret" "Meera" "health_worker" 10.

Definition checkup : InsertHealthRecord.t :=
  InsertHealthRecord.mk "u1" "2024-01-05" None (Some "Fever") None None None
    None None (Some "w1").

Definition checkup_row : HealthRecord.t :=
  HealthRecord.mk "h1" "u1" "2024-01-05" None (Some "Fever") None None None
    (Some false) None (Some "w1") 300.

(** * Properties *)

(** Membership in a list of concrete strings, by evaluation. *)
Ltac by_evaluation := apply (bool_decide_unpack _); vm_compute; exact I.

(** ** Strings and patterns *)

Lemma starts_with_spec f s :
  starts_with f s = true ↔ ∃ b, s = f +:+ b.
Proof.
  revert s. induction f as [|a f IH]; intros s; simpl.
  - split; [intros _; by exists s | done].
  - destruct s as [|b s]; simpl.
    + split; [done | intros [? ?]; done].
    + rewrite andb_true_iff, IH. split.
      * intros [Hab [t ->]]. apply Ascii.eqb_eq in Hab as ->. by exists t.
      * intros [t Ht]. injection Ht as -> ->.
        split; [apply Ascii.eqb_refl | by exists t].
Qed.

Lemma is_substring_spec f s :
  is_substring f s = true ↔ ∃ a b, s = a +:+ f +:+ b.
Proof.
  induction s as [|c s IH]; simpl.
  - rewrite orb_false_r, starts_with_spec. split.
    + intros [b Hb]. by exists "", b.
    + intros [a [b Hab]]. destruct a; [by exists b | done].
  - rewrite orb_true_iff, IH, starts_with_spec. split.
    + intros [[b Hb] | [a [b Hab]]].
      * by exists "", b.
      * exists (String c a), b. simpl. by rewrite Hab.
    + intros [a [b Hab]]. destruct a as [|c' a]; simpl in Hab.
      * left. by exists b.
      * right. injection Hab as _ ->. by exists a, b.
Qed.





Lemma append_nil s : "" +:+ s = s.
Proof. reflexivity. Qed.

Lemma append_cons c a b : String c a +:+ b = String c (a +:+ b).
Proof. reflexivity. Qed.

Lemma like_compile_plain f rest :
  like_plain f = true →
  like_compile (f +:+ rest) = (literals f ++.) <$> like_compile rest.
Proof.
  induction f as [|c f IH].
  - intros _. rewrite append_nil. destruct (like_compile rest); reflexivity.
  - simpl like_plain. rewrite andb_true_iff, negb_true_iff. intros [Hc Hf].
    unfold like_meta in Hc. apply orb_false_iff in Hc as [Hc Hbs].
    apply orb_false_iff in Hc as [Hpc Hus].
    rewrite append_cons. simpl like_compile.
    rewrite Hbs, (IH Hf). unfold like_tok. rewrite Hpc, Hus.
    destruct (like_compile rest); reflexivity.
Qed.

Lemma like_compile_contains f :
  like_plain f = true →
  like_compile ("%" +:+ f +:+ "%") = Some (LikeAny :: literals f ++ [LikeAny]).
Proof.
  intros Hf. rewrite append_cons, append_nil. simpl like_compile.
  unfold like_tok. simpl. by rewrite (like_compile_plain _ _ Hf).
Qed.

Lemma like_match_any ts s :
  like_match (LikeAny :: ts) s =
  like_match ts s ||
  match s with
  | EmptyString => false
  | String _ s' => like_match (LikeAny :: ts) s'
  end.
Proof. by destruct s. Qed.

Lemma like_match_prefix f s :
  like_match (literals f ++ [LikeAny]) s = starts_with f s.
Proof.
  revert s. induction f as [|c f IH]; intros s.
  - change (like_match [LikeAny] s = true).
    induction s as [|d s IHs]; [done|].
    rewrite like_match_any, IHs. by rewrite orb_true_r.
  - destruct s as [|d s]; simpl; [done|]. by rewrite <- IH.
Qed.

Lemma like_match_contains f s :
  like_match (LikeAny :: literals f ++ [LikeAny]) s = is_substring f s.
Proof.
  induction s as [|d s IH].
  - rewrite like_match_any, like_match_prefix. by simpl.
  - rewrite like_match_any, like_match_prefix, IH. by simpl.
Qed.

(** On a plain filter, [LIKE '%f%'] is the substring test. *)
Lemma sql_like_contains f s :
  like_plain f = true →
  sql_like s ("%" +:+ f +:+ "%") = Some (is_substring f s).
Proof.
  intros Hf. unfold sql_like.
  rewrite (like_compile_contains _ Hf). simpl option_bind.
  by rewrite <- like_match_contains.
Qed.

(** A pattern that ends in [%] is well formed whatever stands before: the
    patterns the storage layer builds are never refused. *)
Lemma like_compile_closed f :
  is_Some (like_compile (f +:+ "%"))
  ∧ ∀ c, is_Some (like_compile (String c (f +:+ "%"))).
Proof.
  induction f as [|a f [IH1 IH2]].
  - split; [by eexists|]. intros c. rewrite append_nil. simpl.
    destruct (Ascii.eqb c "\"); by eexists.
  - split; [rewrite append_cons; apply IH2|].
    intros c. rewrite append_cons. simpl like_compile.
    destruct (Ascii.eqb c "\").
    + destruct IH1 as [ts ->]. by eexists.
    + specialize (IH2 a). simpl in IH2. destruct IH2 as [ts ->]. by eexists.
Qed.

Lemma like_compile_wrapped f : is_Some (like_compile ("%" +:+ f +:+ "%")).
Proof.
  rewrite append_cons, append_nil.
  apply (proj2 (like_compile_closed f) "%"%char).
Qed.

Lemma sql_like_contains_witness :
  sql_like "Ernakulam" ("%" +:+ "kul" +:+ "%")
  = Some (is_substring "kul" "Ernakulam").
Proof. apply (sql_like_contains "kul" "Ernakulam"). reflexivity. Defined.

(** The wildcards make LIKE differ from the substring test. *)
Example sql_like_underscore :
  sql_like "Kerala" "%_%" = Some true ∧ is_substring "_" "Kerala" = false.
Proof. split; reflexivity. Qed.

(** ** Patient identifiers *)

Lemma length_repeat_char c n : String.length (repeat_char c n) = n.
Proof. induction n; simpl; congruence. Qed.

Lemma length_append a b :
  String.length (a +:+ b) = String.length a + String.length b.
Proof. induction a as [|c a IH]; [done|]. rewrite append_cons. simpl. by rewrite IH. Qed.

(** [padStart] fills up to the width and never truncates. *)
Lemma length_padStart w c s :
  String.length (padStart w c s) = w `max` String.length s.
Proof. unfold padStart. rewrite length_append, length_repeat_char. lia. Qed.

Lemma parse_decimal_zeros k s :
  parse_decimal (repeat_char "0" k +:+ s) = parse_decimal s.
Proof.
  induction k as [|k IH]; [done|].
  simpl repeat_char. rewrite append_cons.
  unfold parse_decimal in *. simpl NilEmpty.uint_of_string.
  destruct (NilEmpty.uint_of_string (repeat_char "0" k +:+ s)) as [d|];
    destruct (NilEmpty.uint_of_string s) as [d'|]; simpl in *; try done.
Qed.

Lemma parse_decimal_toString n : parse_decimal (toString n) = Some n.
Proof.
  unfold parse_decimal, toString, NilZero.string_of_uint.
  pose proof (Unsigned.of_to n) as Hn.
  destruct (Nat.to_uint n) eqn:Hd;
    [by rewrite <- Hn
    |rewrite <- Hd, NilEmpty.usu; simpl; by rewrite Unsigned.of_to ..].
Qed.

Lemma decode_generatePatientId n :
  decodePatientId (generatePatientId n) = Some (n + 1).
Proof.
  unfold generatePatientId, padStart. rewrite !append_cons, append_nil.
  simpl decodePatientId. by rewrite parse_decimal_zeros, parse_decimal_toString.
Qed.

(** Distinct counts give distinct identifiers. *)
Lemma generatePatientId_inj n m :
  generatePatientId n = generatePatientId m → n = m.
Proof.
  intros H. apply (f_equal decodePatientId) in H.
  rewrite !decode_generatePatientId in H. injection H. lia.
Qed.

(** The identifier is [MW] followed by at least six characters. *)
Lemma generatePatientId_format n :
  ∃ digits, generatePatientId n = "MW" +:+ digits
            ∧ (6 ≤ String.length digits)%nat
            ∧ parse_decimal digits = Some (n + 1).
Proof.
  exists (padStart 6 "0" (toString (n + 1))). split; [done|].
  split; [rewrite length_padStart; lia|].
  unfold padStart. by rewrite parse_decimal_zeros, parse_decimal_toString.
Qed.

Example generatePatientId_41 : generatePatientId 41 = "MW000042".
Proof. reflexivity. Qed.

(** ** Lists *)

Lemma filter_nil_iff {A} (f : A → bool) l :
  List.filter f l = [] ↔ ∀ x, x ∈ l → f x = false.
Proof.
  induction l as [|a l IH]; simpl.
  - split; [intros _ x Hx; by apply elem_of_nil in Hx | done].
  - destruct (f a) eqn:Hfa.
    + split; [done|]. intros H. specialize (H a (list_elem_of_here _ _)).
      congruence.
    + rewrite IH. split.
      * intros H x. rewrite elem_of_cons. intros [->|Hx]; [done|by apply H].
      * intros H x Hx. apply H. by apply list_elem_of_further.
Qed.

(** ** [createPatient] *)

Lemma has_duplicate_NoDup l : has_duplicate l = false ↔ NoDup l.
Proof.
  induction l as [|x l IH]; simpl.
  - split; [constructor | done].
  - rewrite orb_false_iff, bool_decide_eq_false, IH, NoDup_cons. tauto.
Qed.

(** What a successful [createPatient] has done: the returned row is the
    supplied data with the identifier generated from the row count, the
    generated primary key and the current time, and it is the one row added
    to the table. *)
Lemma createPatient_inserts db d data p db' :
  createPatient db d data = Ok (p, db') →
  p = patient_row d data (generatePatientId (length (patients db)))
  ∧ db' = with_patients db (patients db ++ [p]).
Proof.
  unfold createPatient, getPatientsCount. simpl.
  destruct (check_insert_patient _ _); simpl; [|done].
  by intros [= <- <-].
Qed.

(** In a table filled by [createPatient] alone the next identifier is
    new. *)
Lemma generatePatientId_fresh rows :
  sequential_ids rows →
  generatePatientId (length rows) ∉ (Patient.patientId <$> rows).
Proof.
  intros Hseq Hin. apply list_elem_of_fmap in Hin as [p [Hid Hp]].
  apply list_elem_of_lookup in Hp as [i Hi].
  pose proof (lookup_lt_Some _ _ _ Hi) as Hlt.
  rewrite (Hseq _ _ Hi) in Hid. apply generatePatientId_inj in Hid. lia.
Qed.

(** Such a table stays so, and [createPatient] succeeds on it whenever the
    generated primary key is new, the registering user exists, the age is
    in the range of its column and the last checkup, when given, is a date
    written [YYYY-MM-DD]. *)
Lemma createPatient_sequential db d data :
  sequential_ids (patients db) →
  gen_random_uuid d ∉ (Patient.id <$> patients db) →
  references_user db (InsertPatient.registeredBy data) = true →
  int4 (InsertPatient.age data) = true →
  date_text (InsertPatient.lastCheckup data) →
  ∃ p db',
    createPatient db d data = Ok (p, db')
    ∧ Patient.patientId p = generatePatientId (length (patients db))
    ∧ (Patient.patientId p ∉ Patient.patientId <$> patients db)
    ∧ patients db' = patients db ++ [p]
    ∧ sequential_ids (patients db').
Proof.
  intros Hseq Huuid Hfk Hage _.
  set (p := patient_row d data (generatePatientId (length (patients db)))).
  exists p, (with_patients db (patients db ++ [p])).
  pose proof (generatePatientId_fresh _ Hseq) as Hfresh.
  split; [|split; [done|split; [done|split; [done|]]]].
  - unfold createPatient, getPatientsCount. simpl. fold p.
    unfold check_insert_patient.
    replace (int4 (Patient.age p)) with true by done. cbn [negb].
    rewrite (bool_decide_eq_false_2 _ Huuid).
    rewrite (bool_decide_eq_false_2 _ Hfresh). simpl. by rewrite Hfk.
  - intros i q. simpl. intros Hi.
    destruct (decide (i < length (patients db))) as [Hlt|Hge].
    + rewrite lookup_app_l in Hi by done. by apply Hseq.
    + rewrite lookup_app_r in Hi by lia.
      destruct (i - length (patients db)) as [|k] eqn:Hk; [|done].
      injection Hi as <-. simpl. f_equal. lia.
Qed.

Lemma sequential_ids_camp : sequential_ids (patients camp_db).
Proof.
  intros [|[|i]] p; vm_compute; intros H; [..|discriminate H];
    injection H as <-; reflexivity.
Qed.

Lemma createPatient_sequential_witness :
  ∃ p db',
    createPatient camp_db (mkDefaults "u3" 250) asha_data = Ok (p, db')
    ∧ Patient.patientId p = generatePatientId (length (patients camp_db))
    ∧ (Patient.patientId p ∉ Patient.patientId <$> patients camp_db)
    ∧ patients db' = patients camp_db ++ [p]
    ∧ sequential_ids (patients db').
Proof.
  apply (createPatient_sequential camp_db (mkDefaults "u3" 250) asha_data).
  - exact sequential_ids_camp.
  - by_evaluation.
  - reflexivity.
  - reflexivity.
  - exact I.
Defined.

(** C1.  [createPatient] derives the identifier from the row count alone,
    so the identifier it generates need not be new.  From the empty store:
    a first patient is created as [MW000001]; an update through
    [PUT /api/patients/u1] sets its [patientId] to [MW000002]; the next
    [createPatient] counts one row, generates [MW000002] again, which the
    table already holds, and the insert is refused by the UNIQUE
    constraint: no row is added and the POST answers 500. *)
Theorem createPatient_identifier_not_unique :
  ∃ db1 db2 p1 p2,
    post_patient empty_db (mkDefaults "u1" 100) asha
      = (mkResponse 201 (BodyPatient p1), db1)
    ∧ Patient.patientId p1 = "MW000001"
    ∧ put_patient db1 "u1" (renumber_to "MW000002")
      = (mkResponse 200 (BodyPatient p2), db2)
    ∧ generatePatientId (length (patients db2)) = "MW000002"
    ∧ generatePatientId (length (patients db2))
        ∈ (Patient.patientId <$> patients db2)
    ∧ createPatient db2 (mkDefaults "u2" 200) asha_data
      = Err (UniqueViolation "patients_patient_id_unique")
    ∧ post_patient db2 (mkDefaults "u2" 200) asha
      = (mkResponse 500 (BodyMessage "Failed to create patient"), db2).
Proof.
  eexists _, _, _, _.
  split; [vm_compute; reflexivity|].
  split; [reflexivity|].
  split; [vm_compute; reflexivity|].
  split; [reflexivity|].
  split; [vm_compute; apply list_elem_of_here|].
  split; vm_compute; reflexivity.
Qed.

(** ** [updatePatient] *)

Lemma filter_id_missing (rows : list Patient.t) id :
  id ∉ (Patient.id <$> rows) →
  List.filter (λ p, String.eqb (Patient.id p) id) rows = [].
Proof.
  induction rows as [|p rows IH]; [done|]. simpl.
  rewrite not_elem_of_cons. intros [Hne Hrest].
  destruct (String.eqb_spec (Patient.id p) id) as [Heq|_]; [by subst|].
  by apply IH.
Qed.

(** An update that names no existing row, gives some field, and whose
    values the database takes, changes nothing and resolves to
    [undefined]; the PUT handler answers it with status 200. *)
Lemma updatePatient_missing db id updates :
  id ∉ (Patient.id <$> patients db) →
  PartialPatient.is_empty updates = false →
  accepted_update updates →
  updatePatient db id updates = Ok (None, db)
  ∧ put_patient db id updates = (mkResponse 200 BodyUndefined, db).
Proof.
  intros Hid Hne (Hage & _ & Hat). unfold put_patient, updatePatient.
  rewrite Hat, Hne, Hage, (filter_id_missing _ _ Hid). by simpl.
Qed.


Lemma filter_key_unique {A} (key : A → string) (rows : list A) r :
  NoDup (key <$> rows) → r ∈ rows →
  List.filter (λ x, String.eqb (key x) (key r)) rows = [r].
Proof.
  induction rows as [|a rows IH]; [by intros _ ?%elem_of_nil|].
  rewrite fmap_cons, NoDup_cons, elem_of_cons. intros [Ha Hnd] Hin. simpl.
  destruct (String.eqb_spec (key a) (key r)) as [Heq|Hne].
  - assert (r = a) as ->.
    { destruct Hin as [->|Hin]; [done|]. destruct Ha. rewrite Heq.
      apply list_elem_of_fmap. by exists r. }
    f_equal. apply filter_nil_iff. intros x Hx. apply String.eqb_neq.
    intros Hx'. apply Ha. rewrite <- Hx'. apply list_elem_of_fmap. by exists x.
  - destruct Hin as [->|Hin]; [done|]. by apply IH.
Qed.

(** An update of a row that exists, that gives some field, whose values
    the database takes, that leaves [id] and [patientId] alone and names a
    registering user that exists, succeeds: it returns the row with the
    fields merged into it. *)
Lemma updatePatient_existing db updates p :
  NoDup (Patient.id <$> patients db) →
  NoDup (Patient.patientId <$> patients db) →
  p ∈ patients db →
  PartialPatient.is_empty updates = false →
  accepted_update updates →
  PartialPatient.id updates = None →
  PartialPatient.patientId updates = None →
  references_user db
    (default (Patient.registeredBy p) (PartialPatient.registeredBy updates))
    = true →
  ∃ db',
    updatePatient db (Patient.id p) updates
      = Ok (Some (PartialPatient.apply updates p), db')
    ∧ put_patient db (Patient.id p) updates
      = (mkResponse 200 (BodyPatient (PartialPatient.apply updates p)), db').
Proof.
  intros Hpk Huniq Hp Hne (Hage & _ & Hat) Hid Hpid Hfk.
  unfold put_patient, updatePatient.
  rewrite Hat, Hne, Hage, (filter_key_unique Patient.id _ _ Hpk Hp).
  cbn [negb]. simpl fmap.
  cbv iota. unfold check_update_patients.
  set (rows := (λ q, if String.eqb (Patient.id q) (Patient.id p)
                     then PartialPatient.apply updates q else q)
                 <$> patients db).
  assert (Hids : Patient.id <$> rows = Patient.id <$> patients db).
  { unfold rows. rewrite <- list_fmap_compose. apply list_fmap_ext.
    intros i q _. simpl. destruct (String.eqb _ _); [|done].
    unfold PartialPatient.apply. simpl. by rewrite Hid. }
  assert (Hpids : Patient.patientId <$> rows
                  = Patient.patientId <$> patients db).
  { unfold rows. rewrite <- list_fmap_compose. apply list_fmap_ext.
    intros i q _. simpl. destruct (String.eqb _ _); [|done].
    unfold PartialPatient.apply. simpl. by rewrite Hpid. }
  rewrite Hids, Hpids.
  rewrite (proj2 (has_duplicate_NoDup _) Hpk).
  rewrite (proj2 (has_duplicate_NoDup _) Huniq).
  simpl forallb. unfold PartialPatient.apply at 1. simpl Patient.registeredBy.
  rewrite Hfk. simpl.
  destruct (bool_decide _) eqn:Hmoved.
  - apply bool_decide_eq_true in Hmoved. rewrite Hid in Hmoved. done.
  - simpl. eexists. split; reflexivity.
Qed.

Lemma updatePatient_existing_witness :
  ∃ db',
    updatePatient camp_db (Patient.id asha_row) (rename_to "Bina")
      = Ok (Some (PartialPatient.apply (rename_to "Bina") asha_row), db')
    ∧ put_patient camp_db (Patient.id asha_row) (rename_to "Bina")
      = (mkResponse 200
           (BodyPatient (PartialPatient.apply (rename_to "Bina") asha_row)),
         db').
Proof.
  apply (updatePatient_existing camp_db (rename_to "Bina") asha_row).
  - apply (bool_decide_unpack _). vm_compute. exact I.
  - apply (bool_decide_unpack _). vm_compute. exact I.
  - vm_compute. apply list_elem_of_here.
  - reflexivity.
  - repeat split.
  - reflexivity.
  - reflexivity.
  - reflexivity.
Defined.

(** C3.  An update directed at an id no row has does not fail:
    [updatePatient] resolves to [undefined] and the store is unchanged, and
    [PUT /api/patients/:id] answers 200, not 500.  Shown on the store that
    holds one patient, of id [u1], and a request for the id [u9]. *)
Theorem put_patient_missing_id_not_500 :
  ∃ db1 p1,
    post_patient empty_db (mkDefaults "u1" 100) asha
      = (mkResponse 201 (BodyPatient p1), db1)
    ∧ Patient.id <$> patients db1 = ["u1"]
    ∧ updatePatient db1 "u9" (rename_to "Bina") = Ok (None, db1)
    ∧ put_patient db1 "u9" (rename_to "Bina")
      = (mkResponse 200 BodyUndefined, db1).
Proof.
  eexists _, _.
  split; [vm_compute; reflexivity|].
  split; [reflexivity|].
  split; vm_compute; reflexivity.
Qed.

Lemma updatePatient_missing_witness :
  updatePatient camp_db "u9" (rename_to "Bina") = Ok (None, camp_db)
  ∧ put_patient camp_db "u9" (rename_to "Bina")
    = (mkResponse 200 BodyUndefined, camp_db).
Proof.
  apply (updatePatient_missing camp_db "u9" (rename_to "Bina")).
  - by_evaluation.
  - reflexivity.
  - repeat split.
Defined.


(** ** Single-row lookups *)

Section lookup.
Context {A : Type} (key : A → string).

Lemma lookup_missing (rows : list A) k :
  k ∉ (key <$> rows) →
  first_row (List.filter (λ r, String.eqb (key r) k) rows) = None.
Proof.
  induction rows as [|r rows IH]; [done|]. simpl.
  rewrite not_elem_of_cons. intros [Hne Hrest].
  destruct (String.eqb_spec (key r) k) as [Heq|_]; [by subst|].
  by apply IH.
Qed.

Lemma lookup_present (rows : list A) k :
  k ∈ (key <$> rows) →
  ∃ r, r ∈ rows ∧ key r = k
       ∧ first_row (List.filter (λ r, String.eqb (key r) k) rows) = Some r.
Proof.
  induction rows as [|r rows IH]; simpl.
  - intros H. by apply elem_of_nil in H.
  - rewrite elem_of_cons. intros Hin.
    destruct (String.eqb_spec (key r) k) as [Heq|Hne].
    + exists r. split; [apply list_elem_of_here|done].
    + destruct Hin as [Heq|Hin]; [done|].
      destruct (IH Hin) as (r' & Hr' & Hk & Hf).
      exists r'. split; [by apply list_elem_of_further|done].
Qed.
End lookup.

(** C7.  A lookup by an id (or username) that no row has resolves to the
    absent value, it is not an error; [GET /api/patients/:id] then answers
    404 with a message body, and 200 with the patient when a row has the
    id. *)
Theorem lookups_absent_not_error db id :
  (id ∉ (User.id <$> users db) → getUser db id = Ok None)
  ∧ (id ∉ (User.username <$> users db) → getUserByUsername db id = Ok None)
  ∧ (id ∉ (HealthRecord.id <$> healthRecords db) →
     getHealthRecordById db id = Ok None)
  ∧ (id ∉ (Patient.id <$> patients db) →
     getPatientById db id = Ok None
     ∧ get_patient db id = mkResponse 404 (BodyMessage "Patient not found"))
  ∧ (id ∈ (Patient.id <$> patients db) →
     ∃ p, p ∈ patients db ∧ Patient.id p = id
          ∧ getPatientById db id = Ok (Some p)
          ∧ get_patient db id = mkResponse 200 (BodyPatient p)).
Proof.
  unfold getUser, getUserByUsername, getHealthRecordById, get_patient,
    getPatientById.
  repeat split.
  - intros H. by rewrite (lookup_missing User.id).
  - intros H. by rewrite (lookup_missing User.username).
  - intros H. by rewrite (lookup_missing HealthRecord.id).
  - by rewrite (lookup_missing Patient.id).
  - by rewrite (lookup_missing Patient.id).
  - intros H. destruct (lookup_present Patient.id _ _ H) as (p & Hp & Hk & Hf).
    exists p. by rewrite Hf.
Qed.

Lemma lookups_absent_witness :
  getUser clinic_db "u9" = Ok None
  ∧ getUserByUsername clinic_db "u9" = Ok None
  ∧ getHealthRecordById clinic_db "u9" = Ok None
  ∧ (getPatientById clinic_db "u9" = Ok None
     ∧ get_patient clinic_db "u9"
       = mkResponse 404 (BodyMessage "Patient not found"))
  ∧ (∃ p, p ∈ patients clinic_db ∧ Patient.id p = "u1"
          ∧ getPatientById clinic_db "u1" = Ok (Some p)
          ∧ get_patient clinic_db "u1" = mkResponse 200 (BodyPatient p)).
Proof.
  destruct (lookups_absent_not_error clinic_db "u9") as (H1 & H2 & H3 & H4 & _).
  destruct (lookups_absent_not_error clinic_db "u1") as (_ & _ & _ & _ & H5).
  split; [apply H1; by_evaluation|].
  split; [apply H2; by_evaluation|].
  split; [apply H3; by_evaluation|].
  split; [apply H4; by_evaluation|].
  apply H5; by_evaluation.
Defined.

(** ** Ordering *)

Section ordering.
Context {A : Type} (key : A → Z).

#[local] Instance desc_by_trans : Transitive (desc_by key).
Proof. intros a b c. unfold desc_by. lia. Qed.

#[local] Instance desc_by_total : Total (desc_by key).
Proof. intros a b. unfold desc_by. lia. Qed.

Lemma orderBy_desc_sorted rows :
  StronglySorted (desc_by key) (orderBy_desc key rows).
Proof. apply StronglySorted_merge_sort; apply _. Qed.

Lemma orderBy_desc_perm rows : orderBy_desc key rows ≡ₚ rows.
Proof. apply merge_sort_Permutation. Qed.
End ordering.

(** ** [getHealthAlerts] *)

Lemma is_true_literal_iff q :
  is_true_literal q = true ↔ q = Some (QString "true").
Proof.
  destruct q as [[s| |]|]; simpl; try (split; done).
  rewrite String.eqb_eq. split; [by intros -> | by intros [= ->]].
Qed.

(** C8.  With [activeOnly] true the result is the alerts whose [isActive]
    is true, with [activeOnly] false or not given it is all alerts, in both
    cases latest [createdAt] first; the route asks for the active alerts
    exactly when the query parameter is the string [true]. *)
Theorem getHealthAlerts_active_only db :
  (∃ rows, getHealthAlerts db (Some true) = Ok rows
     ∧ rows ≡ₚ List.filter
                 (λ a, bool_decide (HealthAlert.isActive a = Some true))
                 (healthAlerts db)
     ∧ StronglySorted (desc_by HealthAlert.createdAt) rows)
  ∧ (∃ rows, getHealthAlerts db None = Ok rows
       ∧ getHealthAlerts db (Some false) = Ok rows
       ∧ rows ≡ₚ healthAlerts db
       ∧ StronglySorted (desc_by HealthAlert.createdAt) rows)
  ∧ (∀ q, ∃ rows,
       getHealthAlerts db (Some (bool_decide (q = Some (QString "true"))))
         = Ok rows
       ∧ get_health_alerts db q = mkResponse 200 (BodyAlerts rows)).
Proof.
  split; [|split].
  - eexists. split; [reflexivity|]. simpl.
    split; [apply orderBy_desc_perm | apply orderBy_desc_sorted].
  - eexists. split; [reflexivity|]. split; [reflexivity|]. simpl.
    split; [apply orderBy_desc_perm | apply orderBy_desc_sorted].
  - intros q. eexists. split; [reflexivity|].
    unfold get_health_alerts.
    replace (is_true_literal q) with (bool_decide (q = Some (QString "true")));
      [reflexivity|].
    destruct (is_true_literal q) eqn:Hq.
    + by apply bool_decide_eq_true, is_true_literal_iff.
    + apply bool_decide_eq_false. intros Hq'.
      apply is_true_literal_iff in Hq'. congruence.
Qed.

(** ** [getPatients] *)

(** C9.  A filter whose value is falsy is as good as absent: the empty
    string for [district], [healthStatus] or [search], and zero for [limit]
    or [offset], give the result of the call without that filter.  With
    all five so, the result is every patient, latest [registeredAt] first;
    and beside a health status that is asked for, it is every patient of
    that status: no further constraint, no row limit, no row skipped. *)
Theorem getPatients_falsy_filter_is_absent db district healthStatus search
    limit offset :
  getPatients db (mkPatientFilters (Some "") healthStatus search limit offset)
    = getPatients db (mkPatientFilters None healthStatus search limit offset)
  ∧ getPatients db (mkPatientFilters district healthStatus (Some "") limit offset)
    = getPatients db (mkPatientFilters district healthStatus None limit offset)
  ∧ getPatients db (mkPatientFilters district (Some "") search limit offset)
    = getPatients db (mkPatientFilters district None search limit offset)
  ∧ getPatients db (mkPatientFilters district healthStatus search (Some 0%Z) offset)
    = getPatients db (mkPatientFilters district healthStatus search None offset)
  ∧ getPatients db (mkPatientFilters district healthStatus search limit (Some 0%Z))
    = getPatients db (mkPatientFilters district healthStatus search limit None)
  ∧ (∃ rows,
       getPatients db
         (mkPatientFilters (Some "") (Some "") (Some "") (Some 0%Z) (Some 0%Z))
       = Ok rows
       ∧ rows ≡ₚ patients db
       ∧ StronglySorted (desc_by Patient.registeredAt) rows)
  ∧ (∀ h, ∃ rows,
       getPatients db
         (mkPatientFilters (Some "") (Some (healthStatus_label h)) (Some "")
            (Some 0%Z) (Some 0%Z))
       = Ok rows
       ∧ rows ≡ₚ List.filter
                   (λ p, bool_decide (Patient.healthStatus p = h))
                   (patients db)
       ∧ StronglySorted (desc_by Patient.registeredAt) rows).
Proof.
  do 5 (split; [reflexivity|]). split.
  - eexists. split; [reflexivity|].
    split; [apply orderBy_desc_perm|apply orderBy_desc_sorted].
  - intros h. eexists. split; [by destruct h|].
    split; [|apply orderBy_desc_sorted].
    rewrite orderBy_desc_perm. destruct h; simpl;
      (erewrite List.filter_ext; [reflexivity|]); intros p;
      unfold sql_and; simpl; apply andb_true_r.
Qed.

Lemma where_filter {A} (conditions : list (A → bool)) rows :
  where_ conditions rows = List.filter (sql_and conditions) rows.
Proof.
  destruct conditions as [|c cs]; [|done]. simpl.
  induction rows as [|r rows IH]; [done|]. simpl. by rewrite <- IH.
Qed.

Lemma sql_and_app {A} (c1 c2 : list (A → bool)) row :
  sql_and (c1 ++ c2) row = sql_and c1 row && sql_and c2 row.
Proof. unfold sql_and. apply forallb_app. Qed.

Lemma truthy_string_cases o :
  (truthy_string o = None ∧ (o = None ∨ o = Some ""))
  ∨ (∃ f, truthy_string o = Some f ∧ o = Some f ∧ f ≠ "").
Proof.
  destruct o as [f|]; simpl; [|left; auto].
  destruct (String.eqb_spec f "") as [->|Hne]; [left; auto|right; eauto].
Qed.

(** The condition a plain substring filter contributes. *)
Lemma like_condition_plain {A} (col : A → option string) o :
  plain_filter o →
  ∃ cs, condition_if o (like_condition col) = Ok cs
        ∧ ∀ row, sql_and cs row =
                 match truthy_string o with
                 | Some f => from_option (is_substring f) false (col row)
                 | None => true
                 end.
Proof.
  intros Hplain. unfold condition_if.
  destruct (truthy_string_cases o) as [[-> _]|(f & -> & -> & Hne)].
  - by exists [].
  - simpl in Hplain. unfold like_condition.
    rewrite (like_compile_contains _ Hplain). simpl.
    eexists. split; [reflexivity|]. intros row. unfold sql_and. simpl.
    rewrite andb_true_r. destruct (col row) as [s|]; [|done].
    apply like_match_contains.
Qed.







(** ** Left joins and [getDiseaseCases] *)

(** A left row is joined with each right row it matches, and with none
    exactly when it matches none. *)
Lemma elem_of_leftJoin {A B} (on : A → B → bool) left right a ob :
  (a, ob) ∈ leftJoin on left right ↔
  a ∈ left ∧ match ob with
             | Some b => b ∈ right ∧ on a b = true
             | None => List.filter (on a) right = []
             end.
Proof.
  unfold leftJoin, leftJoin_row. rewrite list_elem_of_In, in_flat_map. split.
  - intros (x & Hx & Hin). apply list_elem_of_In in Hx.
    destruct (List.filter (on x) right) as [|b bs] eqn:Hf.
    + destruct Hin as [[= <- <-]|[]]. by split.
    + apply list_elem_of_In, list_elem_of_fmap in Hin as (b' & [= -> ->] & Hb').
      split; [done|]. rewrite <- Hf in Hb'.
      apply list_elem_of_In, filter_In in Hb' as [Hb' Hon].
      by rewrite list_elem_of_In.
  - intros [Ha Hob]. exists a. split; [by apply list_elem_of_In|].
    destruct ob as [b|].
    + destruct Hob as [Hb Hon].
      assert (Hin : b ∈ List.filter (on a) right)
        by (apply list_elem_of_In, filter_In; by rewrite <- list_elem_of_In).
      destruct (List.filter (on a) right) as [|b0 bs] eqn:Hf.
      * by apply elem_of_nil in Hin.
      * apply list_elem_of_In, list_elem_of_fmap. by exists b.
    + rewrite Hob. by left.
Qed.

Lemma leftJoin_cons {A B} (on : A → B → bool) a left right :
  leftJoin on (a :: left) right
  = leftJoin_row on right a ++ leftJoin on left right.
Proof. reflexivity. Qed.

(** No left row is lost. *)
Lemma leftJoin_keeps {A B} (on : A → B → bool) left right a :
  a ∈ left →
  ∃ ob, (a, ob) ∈ leftJoin on left right
        ∧ ((∀ b, b ∈ right → on a b = false) → ob = None).
Proof.
  intros Ha. destruct (List.filter (on a) right) as [|b bs] eqn:Hf.
  - exists None. split; [by apply elem_of_leftJoin|done].
  - exists (Some b). split.
    + apply elem_of_leftJoin. split; [done|].
      assert (Hb : In b (List.filter (on a) right)) by (rewrite Hf; by left).
      apply filter_In in Hb as [Hb Hon]. by rewrite list_elem_of_In.
    + intros Hnone. apply filter_nil_iff in Hnone. congruence.
Qed.

Lemma eqb_missing {A} (key : A → string) (rows : list A) k :
  k ∉ (key <$> rows) → ∀ r, r ∈ rows → String.eqb k (key r) = false.
Proof.
  intros Hk r Hr. apply String.eqb_neq. intros ->.
  apply Hk, list_elem_of_fmap. by exists r.
Qed.

(** Every case has a joined row, with no patient when no patient has the
    id the case names and no disease when no disease has. *)
Lemma join_cases_keeps db c :
  c ∈ diseaseCases db →
  ∃ j, j ∈ join_cases db ∧ joined_case j = c
       ∧ (DiseaseCase.patientId c ∉ (Patient.id <$> patients db) →
          joined_patient j = None)
       ∧ (DiseaseCase.diseaseId c ∉ (Disease.id <$> diseases db) →
          joined_disease j = None).
Proof.
  intros Hc. unfold join_cases.
  destruct (leftJoin_keeps
              (λ c p, String.eqb (DiseaseCase.patientId c) (Patient.id p))
              _ (patients db) c Hc) as (op & Hop & Hnone).
  destruct (leftJoin_keeps
              (λ cp d, String.eqb (DiseaseCase.diseaseId cp.1) (Disease.id d))
              _ (diseases db) (c, op) Hop) as (od & Hod & Hnone').
  exists ((c, op), od). split; [done|]. split; [done|]. split.
  - intros Hdangling. apply Hnone. by apply eqb_missing.
  - intros Hdangling. apply Hnone'. simpl. by apply eqb_missing.
Qed.

Lemma truthy_given o : given_filter o → truthy_string o = o.
Proof.
  destruct o as [f|]; simpl; [|done]. intros Hne.
  destruct (String.eqb_spec f "") as [->|_]; [by destruct Hne|done].
Qed.

(** The condition an equality filter contributes, whatever the filter. *)
Lemma eq_condition_truthy {A} (col : A → string) o :
  ∃ cs, condition_if o (eq_condition col) = Ok cs
        ∧ ∀ row, sql_and cs row
                 = constrains (truthy_string o) (λ f, String.eqb (col row) f).
Proof.
  unfold condition_if. destruct (truthy_string o) as [f|]; [|by exists []].
  eexists. split; [reflexivity|]. intros row. unfold sql_and. simpl.
  by rewrite andb_true_r.
Qed.

(** The pattern of a district filter is never refused, and a filter that
    is not given, or empty, contributes no condition. *)
Lemma like_condition_any {A} (col : A → option string) o :
  ∃ cs, condition_if o (like_condition col) = Ok cs
        ∧ (truthy_string o = None → cs = []).
Proof.
  unfold condition_if. destruct (truthy_string o) as [f|]; [|by exists []].
  unfold like_condition.
  assert (Hpattern : is_Some (like_compile ("%" +:+ f +:+ "%"))).
  { rewrite append_cons, append_nil.
    apply (proj2 (like_compile_closed f) "%"%char). }
  destruct Hpattern as [toks ->]. simpl. eexists. by split.
Qed.

Lemma constrains_truthy_true o (test : string → bool) :
  constrains o test = true → constrains (truthy_string o) test = true.
Proof.
  destruct o as [f|]; simpl; [|done]. by destruct (String.eqb f "").
Qed.

(** C5, as the code has it.  Whatever the filters, [getDiseaseCases]
    succeeds and its rows come latest [reportedAt] first; a case that the
    filters on its own columns select is among them when no district is
    asked for, its patient name and district null when no patient has its
    [patientId], its disease name null when no disease has its
    [diseaseId].  When moreover every filter that is given is not empty
    and the district filter holds none of [%], [_] and backslash, the rows
    are exactly the joined rows that satisfy the filters. *)
Theorem getDiseaseCases_left_join db filters :
  ∃ rows,
    getDiseaseCases db filters = Ok rows
    ∧ StronglySorted (desc_by DiseaseCaseRow.reportedAt) rows
    ∧ (∀ c, c ∈ diseaseCases db →
            case_selected filters c = true →
            truthy_string (cf_district filters) = None →
            ∃ j, joined_case j = c
                 ∧ select_case j ∈ rows
                 ∧ (DiseaseCase.patientId c ∉ (Patient.id <$> patients db) →
                    DiseaseCaseRow.patientName (select_case j) = None
                    ∧ DiseaseCaseRow.patientDistrict (select_case j) = None)
                 ∧ (DiseaseCase.diseaseId c ∉ (Disease.id <$> diseases db) →
                    DiseaseCaseRow.diseaseName (select_case j) = None))
    ∧ (given_filter (cf_patientId filters) →
       given_filter (cf_diseaseId filters) →
       given_filter (cf_status filters) →
       given_filter (cf_district filters) →
       plain_filter (cf_district filters) →
       rows ≡ₚ select_case
                 <$> List.filter (case_matches filters) (join_cases db)).
Proof.
  destruct (eq_condition_truthy
              (λ j : JoinedCase, DiseaseCase.patientId (joined_case j))
              (cf_patientId filters)) as (c1 & Hc1 & H1).
  destruct (eq_condition_truthy
              (λ j : JoinedCase, DiseaseCase.diseaseId (joined_case j))
              (cf_diseaseId filters)) as (c2 & Hc2 & H2).
  destruct (like_condition_any
              (λ j : JoinedCase, Patient.district <$> joined_patient j)
              (cf_district filters)) as (c3 & Hc3 & H3).
  destruct (eq_condition_truthy
              (λ j : JoinedCase, DiseaseCase.status (joined_case j))
              (cf_status filters)) as (c4 & Hc4 & H4).
  exists (select_case
            <$> orderBy_desc (λ j, DiseaseCase.reportedAt (joined_case j))
                  (List.filter (sql_and (c1 ++ c2 ++ c3 ++ c4))
                     (join_cases db))).
  split.
  { unfold getDiseaseCases. rewrite Hc1, Hc2, Hc3, Hc4. simpl.
    by rewrite where_filter. }
  split.
  { apply (StronglySorted_fmap _
             (desc_by (λ j, DiseaseCase.reportedAt (joined_case j))));
      [done|apply orderBy_desc_sorted]. }
  split.
  - intros c Hc Hsel Hnodistrict.
    destruct (join_cases_keeps db c Hc) as (j & Hj & Hjc & Hp & Hd).
    exists j. split; [done|]. split; [|split].
    + apply list_elem_of_fmap. exists j. split; [done|].
      rewrite orderBy_desc_perm. apply list_elem_of_In, filter_In.
      split; [by apply list_elem_of_In|].
      rewrite !sql_and_app, H1, H2, H4, (H3 Hnodistrict), Hjc.
      unfold case_selected in Hsel.
      apply andb_true_iff in Hsel as [Hsel Hstatus].
      apply andb_true_iff in Hsel as [Hpid Hdid].
      change (sql_and [] j) with true. rewrite andb_true_l.
      apply andb_true_iff.
      split; [exact (constrains_truthy_true _ _ Hpid)|].
      apply andb_true_iff.
      split; [exact (constrains_truthy_true _ _ Hdid)|].
      exact (constrains_truthy_true _ _ Hstatus).
    + intros Hdangling. unfold select_case. simpl.
      by rewrite (Hp Hdangling).
    + intros Hdangling. unfold select_case. simpl.
      by rewrite (Hd Hdangling).
  - intros Hpid Hdid Hstatus Hgiven Hplain.
    destruct (like_condition_plain
                (λ j : JoinedCase, Patient.district <$> joined_patient j)
                _ Hplain) as (c3' & Hc3' & H3').
    rewrite Hc3 in Hc3'. injection Hc3' as <-.
    rewrite orderBy_desc_perm.
    erewrite List.filter_ext; [reflexivity|]. intros j.
    rewrite !sql_and_app, H1, H2, H3', H4.
    rewrite !truthy_given by done. unfold case_matches.
    rewrite !andb_assoc. by destruct (cf_district filters).
Qed.

(** The case of the example store that names a patient and a disease no
    row holds: a store whose foreign keys are not enforced, the stores the
    storage layer builds having no such case. *)
Lemma getDiseaseCases_left_join_witness :
  ∃ rows j,
    getDiseaseCases clinic_db (mkDiseaseCaseFilters None None None (Some "active"))
      = Ok rows
    ∧ joined_case j = dangling_case
    ∧ select_case j ∈ rows
    ∧ DiseaseCaseRow.patientName (select_case j) = None
    ∧ DiseaseCaseRow.patientDistrict (select_case j) = None
    ∧ DiseaseCaseRow.diseaseName (select_case j) = None.
Proof.
  destruct (getDiseaseCases_left_join clinic_db
              (mkDiseaseCaseFilters None None None (Some "active")))
    as (rows & Hrows & _ & Hkept & _).
  destruct (Hkept dangling_case) as (j & Hj & Hin & Hpatient & Hdisease);
    [apply list_elem_of_further, list_elem_of_here
    | reflexivity | reflexivity |].
  exists rows, j.
  destruct Hpatient as [Hname Hdistrict]; [by_evaluation|].
  split; [exact Hrows|]. split; [exact Hj|]. split; [exact Hin|].
  split; [exact Hname|]. split; [exact Hdistrict|].
  apply Hdisease. by_evaluation.
Defined.

(** C5 fails as stated, on a store the storage layer has built.  The
    district filter [_] selects both cases although the district of no
    patient contains an underscore; and the empty status filter selects
    both cases although no case has the empty status. *)
Lemma getDiseaseCases_not_substring_or_equality :
  (∃ rows,
     getDiseaseCases camp_db (mkDiseaseCaseFilters None None (Some "_") None)
       = Ok rows
     ∧ DiseaseCaseRow.id <$> rows = ["c3"; "c1"])
  ∧ List.filter
      (case_matches (mkDiseaseCaseFilters None None (Some "_") None))
      (join_cases camp_db) = []
  ∧ (∃ rows,
       getDiseaseCases camp_db (mkDiseaseCaseFilters None None None (Some ""))
         = Ok rows
       ∧ DiseaseCaseRow.id <$> rows = ["c3"; "c1"])
  ∧ List.filter
      (case_matches (mkDiseaseCaseFilters None None None (Some "")))
      (join_cases camp_db) = [].
Proof.
  split; [eexists; split; vm_compute; reflexivity|].
  split; [vm_compute; reflexivity|].
  split; [eexists; split; vm_compute; reflexivity|].
  vm_compute; reflexivity.
Qed.

(** ** Grouping and [getDiseaseStats] *)

Section disease_stats.
Context (cases : list DiseaseCase.t).

Lemma counted_app k rows1 rows2 :
  group_count k (rows1 ++ rows2) = group_count k rows1 + group_count k rows2.
Proof.
  unfold group_count, count_col. by rewrite !List.filter_app, length_app.
Qed.

Lemma leftJoin_row_left d j :
  j ∈ leftJoin_row refers_to cases d → j.1 = d.
Proof.
  unfold leftJoin_row. destruct (List.filter (refers_to d) cases) as [|c cs].
  - by intros ->%list_elem_of_singleton.
  - by intros (c' & -> & _)%list_elem_of_fmap.
Qed.

Lemma count_col_joined (d : Disease.t) (l : list DiseaseCase.t) :
  count_col case_id ((λ c, (d, Some c)) <$> l) = length l.
Proof.
  unfold count_col. induction l as [|x l IH]; [done|].
  rewrite fmap_cons. cbn. f_equal. exact IH.
Qed.

(** The rows of another disease are not counted. *)
Lemma counted_other d d' :
  Disease.id d' ≠ Disease.id d →
  group_count (Disease.id d, Disease.name d) (leftJoin_row refers_to cases d') = 0.
Proof.
  intros Hne. unfold group_count.
  replace (List.filter _ (leftJoin_row refers_to cases d')) with
    (@nil (Disease.t * option DiseaseCase.t)); [done|].
  symmetry. apply filter_nil_iff. intros j Hj.
  apply leftJoin_row_left in Hj. apply bool_decide_eq_false.
  unfold disease_key. rewrite Hj. by intros [= ? ?].
Qed.

(** The rows of the disease itself count its cases. *)
Lemma counted_self d :
  group_count (Disease.id d, Disease.name d) (leftJoin_row refers_to cases d)
  = length (List.filter (refers_to d) cases).
Proof.
  unfold group_count.
  assert (Hall : List.filter
                   (λ j, bool_decide (disease_key j = (Disease.id d, Disease.name d)))
                   (leftJoin_row refers_to cases d) = leftJoin_row refers_to cases d).
  { apply forallb_filter_id, forallb_forall. intros j Hj%list_elem_of_In.
    apply leftJoin_row_left in Hj. apply bool_decide_eq_true.
    unfold disease_key. by rewrite Hj. }
  rewrite Hall. unfold leftJoin_row.
  destruct (List.filter (refers_to d) cases) as [|c cs]; [done|].
  apply count_col_joined.
Qed.

Lemma counted_absent d diseases :
  Disease.id d ∉ (Disease.id <$> diseases) →
  group_count (Disease.id d, Disease.name d) (leftJoin refers_to diseases cases) = 0.
Proof.
  induction diseases as [|d' ds IH]; [done|].
  rewrite fmap_cons, not_elem_of_cons. intros [Hne Hrest].
  rewrite leftJoin_cons, counted_app.
  rewrite counted_other by done. by apply IH.
Qed.

(** Under the primary key, the group of a disease counts the cases that
    refer to it. *)
Lemma counted_present d diseases :
  NoDup (Disease.id <$> diseases) →
  d ∈ diseases →
  group_count (Disease.id d, Disease.name d) (leftJoin refers_to diseases cases)
  = length (List.filter (refers_to d) cases).
Proof.
  induction diseases as [|d' ds IH]; [by intros _ ?%elem_of_nil|].
  rewrite fmap_cons, NoDup_cons, elem_of_cons. intros [Hd' Hnd] Hin.
  rewrite leftJoin_cons, counted_app.
  destruct Hin as [->|Hin].
  - by rewrite counted_self, counted_absent.
  - rewrite counted_other, IH; [done..|].
    intros Heq. apply Hd'. rewrite Heq. apply list_elem_of_fmap. by exists d.
Qed.

(** Under the primary key, the keys of the joined rows are the diseases. *)
Lemma group_keys diseases :
  NoDup (Disease.id <$> diseases) →
  remove_dups (disease_key <$> leftJoin refers_to diseases cases)
  ≡ₚ (λ d, (Disease.id d, Disease.name d)) <$> diseases.
Proof.
  intros Hnd. apply NoDup_Permutation.
  - apply NoDup_remove_dups.
  - apply (NoDup_fmap_1 fst). by rewrite <- list_fmap_compose.
  - intros k. rewrite elem_of_remove_dups, !list_elem_of_fmap. split.
    + intros ([d oc] & -> & Hj). apply elem_of_leftJoin in Hj as [Hd _].
      by exists d.
    + intros (d & -> & Hd).
      destruct (leftJoin_keeps refers_to diseases cases d Hd) as (oc & Hj & _).
      by exists (d, oc).
Qed.
End disease_stats.

(** C6.  The rows of [diseases] have distinct ids, [id] being the primary
    key.  [getDiseaseStats] then returns one pair per disease: its name
    with the number of cases that refer to it, zero when none does, largest
    count first. *)
Theorem getDiseaseStats_one_per_disease db :
  NoDup (Disease.id <$> diseases db) →
  ∃ stats,
    getDiseaseStats db = Ok stats
    ∧ stats ≡ₚ (λ d, mkDiseaseStat (Disease.name d) (cases_of db d))
                 <$> diseases db
    ∧ StronglySorted (desc_by (λ s, Z.of_nat (stat_count s))) stats.
Proof.
  intros Hnd. unfold getDiseaseStats. eexists. split; [reflexivity|].
  split; [|apply orderBy_desc_sorted].
  rewrite orderBy_desc_perm. unfold groupBy.
  rewrite <- list_fmap_compose.
  rewrite (group_keys (diseaseCases db) (diseases db) Hnd).
  rewrite <- list_fmap_compose.
  erewrite Forall_fmap_ext_1; [reflexivity|]. apply Forall_forall.
  intros d Hd. simpl. f_equal.
  etrans; [exact (counted_present (diseaseCases db) d (diseases db) Hnd Hd)|].
  unfold cases_of. f_equal. apply List.filter_ext. intros c.
  apply String.eqb_sym.
Qed.

Lemma getDiseaseStats_witness :
  ∃ stats,
    getDiseaseStats clinic_db = Ok stats
    ∧ stats ≡ₚ (λ d, mkDiseaseStat (Disease.name d) (cases_of clinic_db d))
                 <$> diseases clinic_db
    ∧ StronglySorted (desc_by (λ s, Z.of_nat (stat_count s))) stats.
Proof.
  apply (getDiseaseStats_one_per_disease clinic_db).
  apply (bool_decide_unpack _). vm_compute. exact I.
Defined.

Example getDiseaseStats_clinic :
  getDiseaseStats clinic_db
  = Ok [mkDiseaseStat "Dengue" 2; mkDiseaseStat "Malaria" 0].
Proof. vm_compute. reflexivity. Qed.

(** ** Validation and the POST handlers *)

Lemma field_issue_path o kf e :
  field_issue o kf = Some e →
  issue_path e = [kf.1] ∧ check_field kf.2 (o !! kf.1) = Some (issue_code e).
Proof.
  unfold field_issue. destruct (check_field kf.2 (o !! kf.1)) as [code|];
    simpl; [|done]. by intros [= <-].
Qed.

(** What the validator reports on a body that violates the schema: at
    least one issue, one for every violated field, and none for any other
    field. *)
Lemma zod_object_parse_violation shape body :
  violates shape body →
  ∃ errors,
    zod_object_parse shape body = ZodError errors
    ∧ errors ≠ []
    ∧ ∀ o, body = JObj o →
        (∀ k f, (k, f) ∈ shape → check_field f (o !! k) ≠ None →
                ∃ e, e ∈ errors ∧ issue_path e = [k])
        ∧ (∀ e, e ∈ errors →
                ∃ k f, (k, f) ∈ shape ∧ issue_path e = [k]
                       ∧ check_field f (o !! k) = Some (issue_code e)).
Proof.
  destruct body as [| | | | |o]; simpl;
    try (intros _; eexists; split; [reflexivity|]; split; [done|];
         intros o' [=]).
  intros (k & f & Hkf & Hbad).
  assert (Hissue : ∃ e, field_issue o (k, f) = Some e).
  { unfold field_issue. simpl.
    destruct (check_field f (o !! k)) as [code|]; [|done]. by eexists. }
  destruct Hissue as [e He].
  assert (Hin : e ∈ omap (field_issue o) shape)
    by (apply list_elem_of_omap; by exists (k, f)).
  destruct (omap (field_issue o) shape) as [|e0 es] eqn:Herrors;
    [by apply elem_of_nil in Hin|].
  eexists. split; [reflexivity|]. split; [done|].
  intros o' [= <-]. rewrite <- Herrors. split.
  - intros k' f' Hkf' Hbad'.
    destruct (check_field f' (o !! k')) as [code|] eqn:Hcheck; [|done].
    eexists. split.
    + apply list_elem_of_omap. exists (k', f'). split; [done|].
      unfold field_issue. simpl. by rewrite Hcheck.
    + done.
  - intros e' (kf & Hkf' & He')%list_elem_of_omap.
    apply field_issue_path in He' as [Hpath Hcode].
    exists kf.1, kf.2. by destruct kf.
Qed.

(** C4.  A POST handler validates the body against its insert schema and
    then calls its storage method.  On a body that violates the schema it
    answers 400 with the issues of the validator, which name every
    violated field; the store is left as it was, and the answer does not
    depend on the storage method, which is not called. *)
Theorem post_invalid_body_rejected {V R} (shape : ZodShape)
    (as_type : gmap string Json → option V)
    (create : DB → Defaults → V → Result (R * DB)) (to_body : R → Body)
    (invalid failed : string) (db : DB) (d : Defaults) (body : Json) :
  violates shape body →
  ∃ errors,
    post_route (zod_parse shape as_type) create to_body invalid failed db d body
      = (mkResponse 400 (BodyInvalid invalid errors), db)
    ∧ (∀ create', post_route (zod_parse shape as_type) create' to_body
                    invalid failed db d body
                  = (mkResponse 400 (BodyInvalid invalid errors), db))
    ∧ errors ≠ []
    ∧ ∀ o, body = JObj o →
        ∀ k f, (k, f) ∈ shape → check_field f (o !! k) ≠ None →
               ∃ e, e ∈ errors ∧ issue_path e = [k].
Proof.
  intros Hbad.
  destruct (zod_object_parse_violation shape body Hbad)
    as (errors & Hparse & Hne & Hfields).
  exists errors. unfold post_route, zod_parse. rewrite Hparse.
  split; [done|]. split; [done|]. split; [done|].
  intros o Ho. by apply Hfields.
Qed.

Lemma post_invalid_body_witness :
  ∃ errors,
    post_patient camp_db (mkDefaults "u3" 1000) nameless
      = (mkResponse 400 (BodyInvalid "Invalid patient data" errors), camp_db)
    ∧ getPatientsCount camp_db = Ok 2
    ∧ ∃ e, e ∈ errors ∧ issue_path e = ["name"].
Proof.
  destruct (post_invalid_body_rejected insertPatientSchema as_InsertPatient
              createPatient BodyPatient "Invalid patient data"
              "Failed to create patient" camp_db (mkDefaults "u3" 1000)
              nameless)
    as (errors & Hpost & _ & _ & Hfields).
  - exists "name", (required ZString). split; [by_evaluation|].
    vm_compute. discriminate.
  - exists errors. split; [exact Hpost|]. split; [reflexivity|].
    apply (Hfields _ eq_refl "name" (required ZString)); [by_evaluation|].
    vm_compute. discriminate.
Defined.

(** An age beyond the range of the column violates the schema: the issue
    names the field and the bound. *)
Example post_patient_age_out_of_range :
  violates insertPatientSchema overage
  ∧ post_patient camp_db (mkDefaults "u3" 1000) overage
    = (mkResponse 400
         (BodyInvalid "Invalid patient data"
            [mkZodIssue (too_big 2147483647) ["age"]]), camp_db).
Proof.
  split; [|vm_compute; reflexivity].
  exists "age", (required ZInt4). split; [by_evaluation|].
  vm_compute. discriminate.
Qed.

(** ** Stripping of unknown keys *)

Lemma strip_lookup shape (o : gmap string Json) k :
  strip shape o !! k = if decide (k ∈ shape.*1) then o !! k else None.
Proof.
  unfold strip. rewrite map_lookup_filter.
  destruct (o !! k) as [v|]; simpl; [|by destruct (decide _)].
  destruct (decide (k ∈ shape.*1)) as [Hin|Hout].
  - by rewrite option_guard_True.
  - by rewrite option_guard_False.
Qed.

Lemma omap_ext_in {A B} (f g : A → option B) (l : list A) :
  (∀ x, x ∈ l → f x = g x) → omap f l = omap g l.
Proof.
  induction l as [|a l IH]; [done|]. intros Hfg.
  assert (IH' := IH (λ x Hx, Hfg x (list_elem_of_further _ _ _ Hx))).
  assert (Ha := Hfg a (list_elem_of_here _ _)).
  simpl. rewrite Ha. destruct (g a); [f_equal|]; exact IH'.
Qed.

(** The validator looks at the keys of the schema only. *)
Lemma zod_object_parse_agree shape (o1 o2 : gmap string Json) :
  (∀ k, k ∈ shape.*1 → o1 !! k = o2 !! k) →
  zod_object_parse shape (JObj o1) = zod_object_parse shape (JObj o2).
Proof.
  intros Hagree. unfold zod_object_parse.
  assert (Hissues : omap (field_issue o1) shape = omap (field_issue o2) shape).
  { apply omap_ext_in. intros [k f] Hkf. unfold field_issue. simpl.
    rewrite Hagree; [done|]. apply list_elem_of_fmap. by exists (k, f). }
  assert (Hstrip : strip shape o1 = strip shape o2).
  { apply map_eq. intros k. rewrite !strip_lookup.
    destruct (decide (k ∈ shape.*1)); [by apply Hagree|done]. }
  by rewrite Hissues, Hstrip.
Qed.

Lemma insertPatientSchema_keys :
  insertPatientSchema.*1
  = ["name"; "age"; "gender"; "phone"; "address"; "district"; "workplace";
     "employerName"; "emergencyContact"; "emergencyPhone"; "healthStatus";
     "lastCheckup"; "registeredBy"].
Proof. reflexivity. Qed.

Lemma with_server_fields_agree v1 v2 v3 o k :
  k ∈ insertPatientSchema.*1 →
  with_server_fields v1 v2 v3 o !! k = o !! k.
Proof.
  rewrite insertPatientSchema_keys. intros Hk. unfold with_server_fields.
  rewrite !lookup_insert_ne; [done|..]; intros <-; revert Hk;
    apply (bool_decide_unpack _); vm_compute; exact I.
Qed.

(** The validated object holds no key outside the schema. *)
Lemma zod_object_parse_stripped shape body validated k :
  zod_object_parse shape body = ZodOk validated →
  k ∉ shape.*1 → validated !! k = None.
Proof.
  unfold zod_object_parse. destruct body as [| | | | |o]; try done.
  destruct (omap (field_issue o) shape); [|done].
  intros [= <-] Hk. rewrite strip_lookup. by destruct (decide _).
Qed.

(** C10.  The insert schema of patients has no field [id], [patientId] or
    [registeredAt].  A payload that sets them is validated as the payload
    without them, so it is accepted whenever that one is; the validated
    object holds none of the three keys; and the patient a POST creates
    has the generated primary key, the identifier generated from the row
    count and the current time of the server. *)
Theorem insertPatientSchema_strips_server_fields (o : gmap string Json)
    (id patientId registeredAt : Json) :
  zod_object_parse insertPatientSchema
    (JObj (with_server_fields id patientId registeredAt o))
    = zod_object_parse insertPatientSchema (JObj o)
  ∧ insertPatientSchema_parse
      (JObj (with_server_fields id patientId registeredAt o))
    = insertPatientSchema_parse (JObj o)
  ∧ (∀ db d,
       post_patient db d (JObj (with_server_fields id patientId registeredAt o))
       = post_patient db d (JObj o))
  ∧ (∀ body validated,
       zod_object_parse insertPatientSchema body = ZodOk validated →
       validated !! "id" = None ∧ validated !! "patientId" = None
       ∧ validated !! "registeredAt" = None)
  ∧ (∀ db d body p db',
       post_patient db d body = (mkResponse 201 (BodyPatient p), db') →
       Patient.id p = gen_random_uuid d
       ∧ Patient.patientId p = generatePatientId (length (patients db))
       ∧ Patient.registeredAt p = now d).
Proof.
  assert (Hparse : zod_object_parse insertPatientSchema
                     (JObj (with_server_fields id patientId registeredAt o))
                   = zod_object_parse insertPatientSchema (JObj o)).
  { apply zod_object_parse_agree. intros k Hk.
    by apply with_server_fields_agree. }
  split; [done|].
  split; [unfold insertPatientSchema_parse, zod_parse; by rewrite Hparse|].
  split; [intros db d; unfold post_patient, post_route,
            insertPatientSchema_parse, zod_parse; by rewrite Hparse|].
  split.
  - intros body validated Hok.
    repeat split; apply (zod_object_parse_stripped _ _ _ _ Hok);
      rewrite insertPatientSchema_keys;
      apply (bool_decide_unpack _); vm_compute; exact I.
  - intros db d body p db'. unfold post_patient, post_route.
    destruct (insertPatientSchema_parse body) as [data|errors]; [|done].
    destruct (createPatient db d data) as [[p' db'']|e] eqn:Hcreate; [|done].
    intros [= <- <-]. apply createPatient_inserts in Hcreate as [-> _].
    done.
Qed.

Lemma insertPatientSchema_strips_witness :
  ∃ p db',
    post_patient empty_db (mkDefaults "u1" 100) (JObj forged)
      = (mkResponse 201 (BodyPatient p), db')
    ∧ Patient.id p = "u1"
    ∧ Patient.patientId p = "MW000001"
    ∧ Patient.registeredAt p = 100%Z.
Proof.
  destruct (post_patient empty_db (mkDefaults "u1" 100) (JObj forged))
    as [[status body] db'] eqn:Hpost.
  assert (Hshape : status = 201 ∧ ∃ p, body = BodyPatient p).
  { vm_compute in Hpost. injection Hpost as <- <- <-. split; [done|by eexists]. }
  destruct Hshape as [-> [p ->]]. exists p, db'. split; [reflexivity|].
  destruct (insertPatientSchema_strips_server_fields ∅ JNull JNull JNull)
    as (_ & _ & _ & _ & Hassigned).
  exact (Hassigned _ _ _ _ _ Hpost).
Defined.

(** ** The validated object at its inferred type *)

Lemma zod_object_parse_ok shape body validated :
  zod_object_parse shape body = ZodOk validated →
  ∃ o, body = JObj o ∧ validated = strip shape o
       ∧ ∀ k f, (k, f) ∈ shape → check_field f (o !! k) = None.
Proof.
  unfold zod_object_parse. destruct body as [| | | | |o]; try done.
  destruct (omap (field_issue o) shape) as [|e es] eqn:Hissues; [|done].
  intros [= <-]. exists o. split; [done|]. split; [done|].
  intros k f Hkf. destruct (check_field f (o !! k)) as [code|] eqn:Hc; [|done].
  assert (Hin : mkZodIssue code [k] ∈ omap (field_issue o) shape).
  { apply list_elem_of_omap. exists (k, f). split; [done|].
    unfold field_issue. simpl. by rewrite Hc. }
  rewrite Hissues in Hin. by apply elem_of_nil in Hin.
Qed.

Lemma check_required_string o k :
  check_field (required ZString) (o !! k) = None →
  ∃ s, (o : gmap string Json) !! k = Some (JStr s).
Proof. destruct (o !! k) as [[]|]; try done. by eexists. Qed.

Lemma enum_label_known {A} (enum : list (string * A)) s :
  check_type (ZEnum (enum_labels enum)) (JStr s) = None →
  ∃ v, enum_of_label enum s = Some v.
Proof.
  simpl. case_bool_decide as Hs; [|done]. intros _.
  induction enum as [|[l v] enum IH]; [by apply elem_of_nil in Hs|].
  simpl. destruct (String.eqb_spec l s) as [->|Hne]; [by eauto|].
  unfold enum_labels in Hs. rewrite fmap_cons, elem_of_cons in Hs.
  destruct Hs as [->|Hs]; [done|]. by apply IH.
Qed.

Lemma check_required_enum {A} (enum : list (string * A)) o k :
  check_field (required (ZEnum (enum_labels enum))) (o !! k) = None →
  ∃ s v, (o : gmap string Json) !! k = Some (JStr s)
         ∧ enum_of_label enum s = Some v.
Proof.
  destruct (o !! k) as [[| | |s| |]|]; try done. intros Hs.
  destruct (enum_label_known enum s Hs) as [v Hv]. by eauto.
Qed.

(** A validated patient payload has the type [InsertPatient]. *)
Lemma insertPatientSchema_typed body validated :
  zod_object_parse insertPatientSchema body = ZodOk validated →
  is_Some (as_InsertPatient validated).
Proof.
  intros (o & -> & -> & Hfields)%zod_object_parse_ok.
  assert (Hin : ∀ k f, bool_decide ((k, f) ∈ insertPatientSchema) = true →
                       check_field f (o !! k) = None).
  { intros k f Hkf. apply Hfields. by apply bool_decide_eq_true in Hkf. }
  destruct (check_required_string o "name"
              (Hin "name" (required ZString) eq_refl)) as [name Hname].
  destruct (check_required_string o "district"
              (Hin "district" (required ZString) eq_refl))
    as [district Hdistrict].
  destruct (check_required_enum genderEnum o "gender"
              (Hin "gender" (required (ZEnum (enum_labels genderEnum)))
                 eq_refl))
    as (g & gender & Hg & Hgender).
  assert (Hage : ∃ n, o !! "age" = Some (JNum n)).
  { pose proof (Hin "age" (required ZInt4) eq_refl) as H.
    destruct (o !! "age") as [[]|]; try done. by eexists. }
  destruct Hage as [age Hage].
  assert (Hstatus : o !! "healthStatus" = None
                    ∨ ∃ s v, o !! "healthStatus" = Some (JStr s)
                             ∧ enum_of_label healthStatusEnum s = Some v).
  { pose proof (Hin "healthStatus"
                  (defaulted (ZEnum (enum_labels healthStatusEnum))) eq_refl)
      as H.
    destruct (o !! "healthStatus") as [[| | |s| |]|]; try done; [right|by left].
    destruct (enum_label_known healthStatusEnum s H) as [v Hv]. by eauto. }
  unfold as_InsertPatient, field_string, field_number.
  rewrite !strip_lookup. rewrite insertPatientSchema_keys.
  repeat (rewrite decide_True by (apply (bool_decide_unpack _); vm_compute; exact I)).
  rewrite Hname, Hage, Hg, Hdistrict.
  change (Some g ≫= enum_of_label genderEnum)
    with (enum_of_label genderEnum g).
  rewrite Hgender.
  destruct Hstatus as [->|(s & v & -> & ->)]; eexists; reflexivity.
Qed.




(** ** The constraints of the schema are kept *)

Lemma NoDup_snoc_fresh {A} (l : list A) x : NoDup l → x ∉ l → NoDup (l ++ [x]).
Proof.
  intros Hl Hx. apply NoDup_app. split; [done|]. split; [|apply NoDup_singleton].
  intros y Hy ->%list_elem_of_singleton. done.
Qed.

Lemma elem_of_snoc_l {A} (l : list A) x y : x ∈ l → x ∈ l ++ [y].
Proof. intros Hx. apply elem_of_app. by left. Qed.

Lemma references_user_more db (more : list User.t) u :
  references_user db u = true →
  references_user (with_users db (users db ++ more)) u = true.
Proof.
  destruct u as [u|]; [|done]. simpl. rewrite !bool_decide_eq_true, fmap_app.
  intros Hu. apply elem_of_app. by left.
Qed.

Lemma references_disease_more db (more : list Disease.t) x :
  references_disease db x = true →
  references_disease (with_diseases db (diseases db ++ more)) x = true.
Proof.
  destruct x as [x|]; [|done]. simpl. rewrite !bool_decide_eq_true, fmap_app.
  intros Hx. apply elem_of_app. by left.
Qed.

(** What a successful insert has checked. *)
Lemma createUser_ok db d data u db' :
  createUser db d data = Ok (u, db') →
  u = user_row d data
  ∧ (User.id u ∉ User.id <$> users db)
  ∧ (User.username u ∉ User.username <$> users db)
  ∧ db' = with_users db (users db ++ [u]).
Proof.
  unfold createUser. cbv zeta.
  case_bool_decide as Hid; [done|]. case_bool_decide as Hname; [done|].
  by intros [= <- <-].
Qed.

Lemma createPatient_ok db d data p db' :
  createPatient db d data = Ok (p, db') →
  p = patient_row d data (generatePatientId (length (patients db)))
  ∧ (Patient.id p ∉ Patient.id <$> patients db)
  ∧ (Patient.patientId p ∉ Patient.patientId <$> patients db)
  ∧ references_user db (Patient.registeredBy p) = true
  ∧ db' = with_patients db (patients db ++ [p]).
Proof.
  unfold createPatient, getPatientsCount, check_insert_patient. simpl.
  destruct (int4 _); [|done]. cbn [negb].
  case_bool_decide as Hid; [done|]. case_bool_decide as Hpid; [done|].
  destruct (references_user db _) eqn:Hfk; [|done]. simpl.
  by intros [= <- <-].
Qed.

Lemma createHealthRecord_ok db d data r db' :
  createHealthRecord db d data = Ok (r, db') →
  r = healthRecord_row d data
  ∧ (HealthRecord.id r ∉ HealthRecord.id <$> healthRecords db)
  ∧ HealthRecord.patientId r ∈ Patient.id <$> patients db
  ∧ references_user db (HealthRecord.createdBy r) = true
  ∧ db' = with_healthRecords db (healthRecords db ++ [r]).
Proof.
  unfold createHealthRecord. cbv zeta.
  case_bool_decide as Hid; [done|]. case_bool_decide as Hp; [|done].
  destruct (references_user db _) eqn:Hfk; [|done]. simpl.
  by intros [= <- <-].
Qed.

Lemma createDisease_ok db d data x db' :
  createDisease db d data = Ok (x, db') →
  x = disease_row d data
  ∧ (Disease.id x ∉ Disease.id <$> diseases db)
  ∧ (Disease.name x ∉ Disease.name <$> diseases db)
  ∧ db' = with_diseases db (diseases db ++ [x]).
Proof.
  unfold createDisease. cbv zeta.
  case_bool_decide as Hid; [done|]. case_bool_decide as Hname; [done|].
  by intros [= <- <-].
Qed.

Lemma createDiseaseCase_ok db d data c db' :
  createDiseaseCase db d data = Ok (c, db') →
  c = diseaseCase_row d data
  ∧ (DiseaseCase.id c ∉ DiseaseCase.id <$> diseaseCases db)
  ∧ DiseaseCase.patientId c ∈ Patient.id <$> patients db
  ∧ DiseaseCase.diseaseId c ∈ Disease.id <$> diseases db
  ∧ references_user db (DiseaseCase.reportedBy c) = true
  ∧ db' = with_diseaseCases db (diseaseCases db ++ [c]).
Proof.
  unfold createDiseaseCase. cbv zeta.
  case_bool_decide as Hid; [done|]. case_bool_decide as Hp; [|done].
  case_bool_decide as Hd; [|done].
  destruct (references_user db _) eqn:Hfk; [|done]. simpl.
  by intros [= <- <-].
Qed.

Lemma check_healthAlert_ok db a :
  check_healthAlert db a = Ok () ↔
  references_disease db (HealthAlert.diseaseId a) = true
  ∧ references_user db (HealthAlert.createdBy a) = true.
Proof.
  unfold check_healthAlert.
  destruct (references_disease db _), (references_user db _); simpl;
    split; try done; by intros [? ?].
Qed.

Lemma createHealthAlert_ok db d data a db' :
  createHealthAlert db d data = Ok (a, db') →
  a = healthAlert_row d data
  ∧ (HealthAlert.id a ∉ HealthAlert.id <$> healthAlerts db)
  ∧ references_disease db (HealthAlert.diseaseId a) = true
  ∧ references_user db (HealthAlert.createdBy a) = true
  ∧ db' = with_healthAlerts db (healthAlerts db ++ [a]).
Proof.
  unfold createHealthAlert. cbv zeta.
  destruct (negb _); [done|].
  case_bool_decide as Hid; [done|].
  destruct (check_healthAlert db _) as [[]|e] eqn:Hcheck; [|done]. simpl.
  apply check_healthAlert_ok in Hcheck as [Hd Hu].
  by intros [= <- <-].
Qed.

Lemma createUser_consistent db d data u db' :
  consistent db → createUser db d data = Ok (u, db') → consistent db'.
Proof.
  intros [] (_ & Hid & Hname & ->)%createUser_ok.
  constructor; simpl; try done.
  - rewrite fmap_app. by apply NoDup_snoc_fresh.
  - rewrite fmap_app. by apply NoDup_snoc_fresh.
  - eapply Forall_impl; [eassumption|]. intros p. apply references_user_more.
  - eapply Forall_impl; [eassumption|]. intros r [? ?]. split; [done|].
    by apply references_user_more.
  - eapply Forall_impl; [eassumption|]. intros c (? & ? & ?).
    split; [done|]. split; [done|]. by apply references_user_more.
  - eapply Forall_impl; [eassumption|]. intros a [? ?]. split; [done|].
    by apply references_user_more.
Qed.

Lemma createPatient_consistent db d data p db' :
  consistent db → createPatient db d data = Ok (p, db') → consistent db'.
Proof.
  intros [] (_ & Hid & Hpid & Hfk & ->)%createPatient_ok.
  constructor; simpl; try done.
  - rewrite fmap_app. by apply NoDup_snoc_fresh.
  - rewrite fmap_app. by apply NoDup_snoc_fresh.
  - apply Forall_app. split; [done|]. by apply Forall_singleton.
  - eapply Forall_impl; [eassumption|]. intros r [? ?]. split; [|done].
    rewrite fmap_app. by apply elem_of_snoc_l.
  - eapply Forall_impl; [eassumption|]. intros c (? & ? & ?).
    split; [|done]. rewrite fmap_app. by apply elem_of_snoc_l.
Qed.

Lemma createHealthRecord_consistent db d data r db' :
  consistent db → createHealthRecord db d data = Ok (r, db') → consistent db'.
Proof.
  intros [] (_ & Hid & Hp & Hfk & ->)%createHealthRecord_ok.
  constructor; simpl; try done.
  - rewrite fmap_app. by apply NoDup_snoc_fresh.
  - apply Forall_app. split; [done|]. by apply Forall_singleton.
Qed.

Lemma createDisease_consistent db d data x db' :
  consistent db → createDisease db d data = Ok (x, db') → consistent db'.
Proof.
  intros [] (_ & Hid & Hname & ->)%createDisease_ok.
  constructor; simpl; try done.
  - rewrite fmap_app. by apply NoDup_snoc_fresh.
  - rewrite fmap_app. by apply NoDup_snoc_fresh.
  - eapply Forall_impl; [eassumption|]. intros c (? & ? & ?).
    split; [done|]. split; [|done]. rewrite fmap_app. by apply elem_of_snoc_l.
  - eapply Forall_impl; [eassumption|]. intros a [? ?]. split; [|done].
    by apply references_disease_more.
Qed.

Lemma createDiseaseCase_consistent db d data c db' :
  consistent db → createDiseaseCase db d data = Ok (c, db') → consistent db'.
Proof.
  intros [] (_ & Hid & Hp & Hd & Hfk & ->)%createDiseaseCase_ok.
  constructor; simpl; try done.
  - rewrite fmap_app. by apply NoDup_snoc_fresh.
  - apply Forall_app. split; [done|]. by apply Forall_singleton.
Qed.

Lemma createHealthAlert_consistent db d data a db' :
  consistent db → createHealthAlert db d data = Ok (a, db') → consistent db'.
Proof.
  intros [] (_ & Hid & Hd & Hfk & ->)%createHealthAlert_ok.
  constructor; simpl; try done.
  - rewrite fmap_app. by apply NoDup_snoc_fresh.
  - apply Forall_app. split; [done|]. by apply Forall_singleton.
Qed.

(** What a successful [updatePatient] has written and checked. *)
Lemma updatePatient_ok db id updates o db' :
  updatePatient db id updates = Ok (o, db') →
  (o = None ∧ db' = db)
  ∨ (db' = with_patients db
             ((λ p, if String.eqb (Patient.id p) id
                    then PartialPatient.apply updates p else p)
                <$> patients db)
     ∧ NoDup (Patient.id <$> patients db')
     ∧ NoDup (Patient.patientId <$> patients db')
     ∧ (∀ p, p ∈ patients db → Patient.id p = id →
             references_user db
               (Patient.registeredBy (PartialPatient.apply updates p)) = true)
     ∧ (default id (PartialPatient.id updates) = id
        ∨ patient_referenced db id = false)).
Proof.
  unfold updatePatient.
  destruct (PartialPatient.is_empty updates); [done|].
  destruct (negb _); [done|].
  destruct (PartialPatient.apply updates <$> List.filter _ (patients db))
    as [|q qs] eqn:Hreturning; [intros [= <- <-]; by left|].
  unfold check_update_patients.
  destruct (has_duplicate (Patient.id <$> _)) eqn:Hpk; [done|].
  destruct (has_duplicate (Patient.patientId <$> _)) eqn:Huniq; [done|].
  destruct (forallb _ (q :: qs)) eqn:Hfk; [|done]. simpl.
  destruct (bool_decide _ && _) eqn:Hmoved; [done|].
  intros [= <- <-]. right. split; [done|]. simpl.
  split; [by apply has_duplicate_NoDup|].
  split; [by apply has_duplicate_NoDup|]. split.
  - intros p Hp Hid. rewrite <- Hreturning in Hfk.
    rewrite forallb_forall in Hfk.
    apply (Hfk (PartialPatient.apply updates p)).
    apply list_elem_of_In, list_elem_of_fmap. exists p. split; [done|].
    apply list_elem_of_In, filter_In. split; [by apply list_elem_of_In|].
    by apply String.eqb_eq.
  - apply andb_false_iff in Hmoved as [Hsame|Hfree]; [left|by right].
    apply bool_decide_eq_false in Hsame.
    destruct (decide (default id (PartialPatient.id updates) = id)); [done|].
    by destruct Hsame.
Qed.

Lemma patient_referenced_false db id :
  patient_referenced db id = false →
  (∀ r, r ∈ healthRecords db → HealthRecord.patientId r ≠ id)
  ∧ (∀ c, c ∈ diseaseCases db → DiseaseCase.patientId c ≠ id).
Proof.
  unfold patient_referenced. rewrite orb_false_iff. intros [Hr Hc]. split.
  - intros r Hin Heq. apply not_true_iff_false in Hr. apply Hr.
    apply existsb_exists. exists r. split; [by apply list_elem_of_In|].
    by apply String.eqb_eq.
  - intros c Hin Heq. apply not_true_iff_false in Hc. apply Hc.
    apply existsb_exists. exists c. split; [by apply list_elem_of_In|].
    by apply String.eqb_eq.
Qed.

(** The ids an update leaves in the table: every id but, when the update
    moves it, the one it was directed at. *)
Lemma updated_ids_keep (rows : list Patient.t) id updates x :
  x ∈ Patient.id <$> rows →
  x ≠ id ∨ default id (PartialPatient.id updates) = id →
  x ∈ Patient.id <$>
        ((λ p, if String.eqb (Patient.id p) id
               then PartialPatient.apply updates p else p) <$> rows).
Proof.
  intros (p & -> & Hp)%list_elem_of_fmap Hkeep.
  apply list_elem_of_fmap.
  exists (if String.eqb (Patient.id p) id
          then PartialPatient.apply updates p else p).
  split; [|apply list_elem_of_fmap; by exists p].
  destruct (String.eqb_spec (Patient.id p) id) as [Heq|Hne]; [|done].
  destruct Hkeep as [Hne|Hsame]; [done|].
  unfold PartialPatient.apply. simpl. rewrite Heq.
  by destruct (PartialPatient.id updates); simpl in *.
Qed.

Lemma updatePatient_consistent db id updates o db' :
  consistent db → updatePatient db id updates = Ok (o, db') → consistent db'.
Proof.
  intros Hdb [[_ ->]|(-> & Hpk & Huniq & Hfk & Hkeep)]%updatePatient_ok;
    [done|].
  destruct Hdb. simpl in Hpk, Huniq.
  assert (Hfree : default id (PartialPatient.id updates) = id
                  ∨ (∀ r, r ∈ healthRecords db → HealthRecord.patientId r ≠ id)
                    ∧ (∀ c, c ∈ diseaseCases db → DiseaseCase.patientId c ≠ id)).
  { destruct Hkeep as [?|?%patient_referenced_false]; [by left|by right]. }
  constructor; simpl; try done.
  - apply Forall_fmap, Forall_forall. intros p Hp. simpl.
    destruct (String.eqb_spec (Patient.id p) id) as [Heq|Hne].
    + by apply Hfk.
    + eapply Forall_forall in patients_registered_by_fk0; [|exact Hp]. done.
  - apply Forall_forall. intros r Hr.
    eapply Forall_forall in health_records_fk0 as [Hin Hu]; [|exact Hr].
    split; [|done]. apply updated_ids_keep; [done|].
    destruct Hfree as [?|[Hrecords _]]; [by right|left; by apply Hrecords].
  - apply Forall_forall. intros c Hc.
    eapply Forall_forall in disease_cases_fk0 as (Hin & Hd & Hu); [|exact Hc].
    split; [|done]. apply updated_ids_keep; [done|].
    destruct Hfree as [?|[_ Hcases]]; [by right|left; by apply Hcases].
Qed.

Lemma check_all_ok {A} (check : A → Result unit) (rows : list A) :
  check_all check rows = Ok () ↔ ∀ a, a ∈ rows → check a = Ok ().
Proof.
  induction rows as [|a rows IH]; simpl.
  - split; [by intros _ a ?%elem_of_nil|done].
  - destruct (check a) as [[]|e] eqn:Ha; simpl.
    + rewrite IH. split.
      * intros H x [->|Hx]%elem_of_cons; [done|by apply H].
      * intros H x Hx. apply H. by apply list_elem_of_further.
    + split; [done|]. intros H.
      specialize (H a (list_elem_of_here _ _)). congruence.
Qed.

(** What a successful [updateHealthAlert] has written and checked. *)
Lemma updateHealthAlert_ok db id updates o db' :
  updateHealthAlert db id updates = Ok (o, db') →
  (o = None ∧ db' = db
   ∧ List.filter (λ a, String.eqb (HealthAlert.id a) id) (healthAlerts db) = [])
  ∨ (db' = with_healthAlerts db
             ((λ a, if String.eqb (HealthAlert.id a) id
                    then PartialHealthAlert.apply updates a else a)
                <$> healthAlerts db)
     ∧ o = first_row (PartialHealthAlert.apply updates
                        <$> List.filter
                              (λ a, String.eqb (HealthAlert.id a) id)
                              (healthAlerts db))
     ∧ NoDup (HealthAlert.id <$> healthAlerts db')
     ∧ ∀ a, a ∈ healthAlerts db → HealthAlert.id a = id →
            check_healthAlert db (PartialHealthAlert.apply updates a) = Ok ()).
Proof.
  unfold updateHealthAlert.
  destruct (PartialHealthAlert.is_empty updates); [done|].
  destruct (negb _); [done|].
  destruct (List.filter _ (healthAlerts db)) as [|q qs] eqn:Hmatched;
    [intros [= <- <-]; by left|].
  rewrite <- Hmatched. rewrite Hmatched at 1. simpl fmap at 1. cbv iota.
  destruct (has_duplicate _) eqn:Hpk; [done|].
  destruct (check_all _ _) as [[]|e] eqn:Hchecks; [|done]. simpl.
  intros [= <- <-]. right. split; [done|]. split; [done|].
  split; [by apply has_duplicate_NoDup|].
  intros a Ha Hid. rewrite check_all_ok in Hchecks. apply Hchecks.
  apply list_elem_of_fmap. exists a. split; [done|].
  apply list_elem_of_In, filter_In. split; [by apply list_elem_of_In|].
  by apply String.eqb_eq.
Qed.

Lemma updateHealthAlert_consistent db id updates o db' :
  consistent db → updateHealthAlert db id updates = Ok (o, db') →
  consistent db'.
Proof.
  intros Hdb [(_ & -> & _)|(-> & _ & Hpk & Hfk)]%updateHealthAlert_ok; [done|].
  destruct Hdb. simpl in Hpk. constructor; simpl; try done.
  apply Forall_fmap, Forall_forall. intros a Ha. simpl.
  destruct (String.eqb_spec (HealthAlert.id a) id) as [Heq|Hne].
  - by apply check_healthAlert_ok, Hfk.
  - eapply Forall_forall in health_alerts_fk0; [|exact Ha]. done.
Qed.

Lemma consistent_empty : consistent empty_db.
Proof. constructor; simpl; by constructor. Qed.

Lemma run_consistent db m db' :
  consistent db → run db m = Ok db' → consistent db'.
Proof.
  intros Hdb. destruct m; simpl; unfold committed.
  - destruct (createUser _ _ _) as [[x db'']|] eqn:H; [|done].
    intros [= <-]. by eapply createUser_consistent.
  - destruct (createPatient _ _ _) as [[x db'']|] eqn:H; [|done].
    intros [= <-]. by eapply createPatient_consistent.
  - destruct (updatePatient _ _ _) as [[x db'']|] eqn:H; [|done].
    intros [= <-]. by eapply updatePatient_consistent.
  - destruct (createHealthRecord _ _ _) as [[x db'']|] eqn:H; [|done].
    intros [= <-]. by eapply createHealthRecord_consistent.
  - destruct (createDisease _ _ _) as [[x db'']|] eqn:H; [|done].
    intros [= <-]. by eapply createDisease_consistent.
  - destruct (createDiseaseCase _ _ _) as [[x db'']|] eqn:H; [|done].
    intros [= <-]. by eapply createDiseaseCase_consistent.
  - destruct (createHealthAlert _ _ _) as [[x db'']|] eqn:H; [|done].
    intros [= <-]. by eapply createHealthAlert_consistent.
  - destruct (updateHealthAlert _ _ _) as [[x db'']|] eqn:H; [|done].
    intros [= <-]. by eapply updateHealthAlert_consistent.
Qed.

(** Every store the storage layer can build from the empty one satisfies
    the primary keys, the UNIQUE columns and the foreign keys of the
    schema. *)
Theorem reachable_consistent db : reachable db → consistent db.
Proof.
  induction 1 as [|db m db' _ IH Hrun]; [apply consistent_empty|].
  by eapply run_consistent.
Qed.

Lemma run_all_reachable db ms db' :
  reachable db → run_all db ms = Ok db' → reachable db'.
Proof.
  revert db. induction ms as [|m ms IH]; intros db Hdb; simpl.
  - by intros [= <-].
  - destruct (run db m) as [db1|] eqn:Hrun; [|done]. simpl.
    apply IH. by eapply reachable_run.
Qed.

Lemma ward_db_reachable : reachable ward_db.
Proof.
  apply (run_all_reachable empty_db ward_calls); [apply reachable_empty|].
  vm_compute. reflexivity.
Qed.

Lemma run_all_consistent db ms db' :
  consistent db → run_all db ms = Ok db' → consistent db'.
Proof.
  revert db. induction ms as [|m ms IH]; intros db Hdb; simpl.
  - by intros [= <-].
  - destruct (run db m) as [db1|] eqn:Hrun; [|done]. simpl.
    apply IH. by eapply run_consistent.
Qed.

Lemma ward_db_consistent : consistent ward_db.
Proof.
  apply (run_all_consistent empty_db ward_calls); [apply consistent_empty|].
  vm_compute. reflexivity.
Qed.

Lemma camp_db_consistent : consistent camp_db.
Proof.
  apply (run_all_consistent empty_db camp_calls); [apply consistent_empty|].
  vm_compute. reflexivity.
Qed.

Lemma reachable_consistent_witness : consistent ward_db.
Proof. exact (reachable_consistent ward_db ward_db_reachable). Defined.

(** ** Joins over a store that satisfies its constraints *)

Section join_on_key.
Context {A B : Type} (fk : A → string) (key : B → string).

Lemma filter_on_unique (right : list B) a b :
  NoDup (key <$> right) → b ∈ right → key b = fk a →
  List.filter (λ b, String.eqb (fk a) (key b)) right = [b].
Proof.
  intros Hnd Hb Hkey. rewrite <- (filter_key_unique key right b Hnd Hb).
  apply List.filter_ext. intros x. rewrite Hkey. apply String.eqb_sym.
Qed.

(** When the right key is unique and every left row refers to a right
    row, the left join has exactly one row for each left row, and that
    row carries the right row referred to. *)
Lemma leftJoin_referenced (left : list A) (right : list B) :
  NoDup (key <$> right) →
  Forall (λ a, fk a ∈ key <$> right) left →
  (leftJoin (λ a b, String.eqb (fk a) (key b)) left right).*1 = left
  ∧ Forall (λ j, ∃ b, j.2 = Some b ∧ b ∈ right ∧ key b = fk j.1)
      (leftJoin (λ a b, String.eqb (fk a) (key b)) left right).
Proof.
  intros Hnd. induction 1 as [|a left Ha Hleft [IH1 IH2]]; [by split|].
  apply list_elem_of_fmap in Ha as (b & Hkey & Hb).
  rewrite leftJoin_cons. unfold leftJoin_row.
  rewrite (filter_on_unique right a b Hnd Hb) by done.
  rewrite fmap_app. split.
  - by rewrite IH1.
  - apply Forall_app. split; [|done]. apply Forall_singleton. by exists b.
Qed.
End join_on_key.

(** In a store that satisfies its constraints the two joins of
    [getDiseaseCases] give one row for each case, with the patient and the
    disease the case refers to. *)
Lemma join_cases_referenced db :
  consistent db →
  ((join_cases db).*1).*1 = diseaseCases db
  ∧ Forall (λ j : JoinedCase, ∃ p d,
              joined_patient j = Some p ∧ joined_disease j = Some d
              ∧ p ∈ patients db ∧ d ∈ diseases db
              ∧ Patient.id p = DiseaseCase.patientId (joined_case j)
              ∧ Disease.id d = DiseaseCase.diseaseId (joined_case j))
      (join_cases db).
Proof.
  intros [].
  destruct (leftJoin_referenced DiseaseCase.patientId Patient.id
              (diseaseCases db) (patients db)) as [Hcases Hpatients];
    [done|by eapply Forall_impl; [eassumption|]; intros c (? & ? & ?)|].
  destruct (leftJoin_referenced
              (λ cp : DiseaseCase.t * option Patient.t,
                 DiseaseCase.diseaseId cp.1) Disease.id
              (leftJoin (λ c p, String.eqb (DiseaseCase.patientId c)
                                  (Patient.id p))
                 (diseaseCases db) (patients db))
              (diseases db)) as [Hjoined Hdiseases]; [done|..].
  { apply (Forall_fmap fst (λ c, DiseaseCase.diseaseId c
                                 ∈ Disease.id <$> diseases db)).
    rewrite Hcases. eapply Forall_impl; [eassumption|].
    by intros c (? & ? & ?). }
  fold (join_cases db) in Hjoined, Hdiseases. split.
  - by rewrite Hjoined, Hcases.
  - apply Forall_forall. intros [[c op] od] Hj.
    pose proof (proj1 (Forall_forall _ _) Hdiseases _ Hj)
      as (d & Hod & Hd & Hdkey). simpl in Hod, Hdkey. subst od.
    assert (Hcp : (c, op) ∈ (join_cases db).*1)
      by (apply list_elem_of_fmap; by eexists (_, _)).
    rewrite Hjoined in Hcp.
    pose proof (proj1 (Forall_forall _ _) Hpatients _ Hcp)
      as (p & Hop & Hp & Hpkey). simpl in Hop, Hpkey. subst op.
    by exists p, d.
Qed.

(** In a store that satisfies its constraints no row of [getDiseaseCases]
    lacks its patient or its disease, and every case has exactly one
    row. *)
Theorem getDiseaseCases_no_dangling db :
  consistent db →
  ∃ rows,
    getDiseaseCases db (mkDiseaseCaseFilters None None None None) = Ok rows
    ∧ DiseaseCaseRow.id <$> rows ≡ₚ DiseaseCase.id <$> diseaseCases db
    ∧ Forall (λ row, ∃ p d,
                p ∈ patients db ∧ d ∈ diseases db
                ∧ Patient.id p = DiseaseCaseRow.patientId row
                ∧ Disease.id d = DiseaseCaseRow.diseaseId row
                ∧ DiseaseCaseRow.patientName row = Some (Patient.name p)
                ∧ DiseaseCaseRow.patientDistrict row
                  = Some (Patient.district p)
                ∧ DiseaseCaseRow.diseaseName row = Some (Disease.name d))
        rows.
Proof.
  intros [Hcases Hjoined]%join_cases_referenced.
  unfold getDiseaseCases. simpl. eexists. split; [reflexivity|]. split.
  - rewrite <- list_fmap_compose, orderBy_desc_perm.
    transitivity (DiseaseCase.id <$> ((join_cases db).*1).*1).
    + by rewrite <- !list_fmap_compose.
    + by rewrite Hcases.
  - apply Forall_fmap. rewrite orderBy_desc_perm.
    eapply Forall_impl; [exact Hjoined|].
    intros [[c op] od] (p & d & Hp & Hd & ? & ? & ? & ?).
    unfold joined_patient, joined_disease, joined_case in *.
    simpl in *. subst. by exists p, d.
Qed.

Lemma getDiseaseCases_no_dangling_witness :
  ∃ rows,
    getDiseaseCases ward_db (mkDiseaseCaseFilters None None None None)
      = Ok rows
    ∧ DiseaseCaseRow.id <$> rows ≡ₚ DiseaseCase.id <$> diseaseCases ward_db
    ∧ Forall (λ row, ∃ p d,
                p ∈ patients ward_db ∧ d ∈ diseases ward_db
                ∧ Patient.id p = DiseaseCaseRow.patientId row
                ∧ Disease.id d = DiseaseCaseRow.diseaseId row
                ∧ DiseaseCaseRow.patientName row = Some (Patient.name p)
                ∧ DiseaseCaseRow.patientDistrict row
                  = Some (Patient.district p)
                ∧ DiseaseCaseRow.diseaseName row = Some (Disease.name d))
        rows.
Proof.
  apply (getDiseaseCases_no_dangling ward_db). exact ward_db_consistent.
Defined.

(** ** A row that has been created is found again *)

Section lookup_after_insert.
Context {A : Type} (key : A → string).

Lemma lookup_snoc_fresh (rows : list A) r :
  key r ∉ (key <$> rows) →
  first_row (List.filter (λ x, String.eqb (key x) (key r)) (rows ++ [r]))
  = Some r.
Proof.
  intros Hfresh. rewrite List.filter_app.
  replace (List.filter _ rows) with (@nil A).
  - simpl. by rewrite String.eqb_refl.
  - symmetry. apply filter_nil_iff. intros x Hx. apply String.eqb_neq.
    intros Heq. apply Hfresh. rewrite <- Heq. apply list_elem_of_fmap.
    by exists x.
Qed.

Lemma lookup_snoc_other (rows : list A) r k :
  k ≠ key r →
  List.filter (λ x, String.eqb (key x) k) (rows ++ [r])
  = List.filter (λ x, String.eqb (key x) k) rows.
Proof.
  intros Hne. rewrite List.filter_app. simpl.
  destruct (String.eqb_spec (key r) k) as [Heq|_]; [by subst|].
  apply app_nil_r.
Qed.
End lookup_after_insert.

(** The user [createUser] resolves to is the one [getUser] finds under its
    id and [getUserByUsername] under its name, with the role given or
    [health_worker]; the lookups of the other ids and names are as
    before. *)
Theorem createUser_then_lookup db d data u db' :
  createUser db d data = Ok (u, db') →
  getUser db' (User.id u) = Ok (Some u)
  ∧ getUserByUsername db' (InsertUser.username data) = Ok (Some u)
  ∧ User.role u = default "health_worker" (InsertUser.role data)
  ∧ (∀ id, id ≠ User.id u → getUser db' id = getUser db id)
  ∧ (∀ username, username ≠ InsertUser.username data →
       getUserByUsername db' username = getUserByUsername db username).
Proof.
  intros (Hu & Hid & Hname & ->)%createUser_ok.
  unfold getUser, getUserByUsername. simpl.
  assert (Husername : User.username u = InsertUser.username data)
    by by rewrite Hu.
  rewrite <- Husername. repeat split.
  - by rewrite (lookup_snoc_fresh User.id).
  - by rewrite (lookup_snoc_fresh User.username).
  - by rewrite Hu.
  - intros id Hne. by rewrite (lookup_snoc_other User.id).
  - intros username Hne. by rewrite (lookup_snoc_other User.username).
Qed.

Lemma createUser_then_lookup_witness :
  getUser (with_users empty_db [meera_row]) (User.id meera_row)
  = Ok (Some meera_row)
  ∧ getUserByUsername (with_users empty_db [meera_row])
      (InsertUser.username meera) = Ok (Some meera_row)
  ∧ User.role meera_row = default "health_worker" (InsertUser.role meera)
  ∧ (∀ id, id ≠ User.id meera_row →
       getUser (with_users empty_db [meera_row]) id = getUser empty_db id)
  ∧ (∀ username, username ≠ InsertUser.username meera →
       getUserByUsername (with_users empty_db [meera_row]) username
       = getUserByUsername empty_db username).
Proof.
  apply (createUser_then_lookup empty_db (mkDefaults "w1" 10) meera).
  reflexivity.
Defined.

(** Whenever [POST /api/patients] answers 201 with a patient,
    [GET /api/patients/:id] for the id of that patient answers 200 with the
    same patient, the count of patients is one more than before, and the
    answers for the other ids are as before. *)
Theorem post_patient_then_get db d req_body p db' :
  post_patient db d req_body = (mkResponse 201 (BodyPatient p), db') →
  get_patient db' (Patient.id p) = mkResponse 200 (BodyPatient p)
  ∧ getPatientsCount db' = Ok (S (length (patients db)))
  ∧ (∀ id, id ≠ Patient.id p → get_patient db' id = get_patient db id).
Proof.
  unfold post_patient, post_route.
  destruct (insertPatientSchema_parse req_body) as [data|errors]; [|done].
  destruct (createPatient db d data) as [[created db'']|e] eqn:Hcreate;
    [|done].
  intros [= -> ->].
  apply createPatient_ok in Hcreate as (_ & Hid & _ & _ & ->).
  unfold get_patient, getPatientById, getPatientsCount. simpl.
  repeat split.
  - by rewrite (lookup_snoc_fresh Patient.id).
  - rewrite length_app. simpl. f_equal. lia.
  - intros id Hne. by rewrite (lookup_snoc_other Patient.id).
Qed.

Lemma post_patient_then_get_witness :
  get_patient (with_patients empty_db [asha_row]) (Patient.id asha_row)
  = mkResponse 200 (BodyPatient asha_row)
  ∧ getPatientsCount (with_patients empty_db [asha_row])
    = Ok (S (length (patients empty_db)))
  ∧ (∀ id, id ≠ Patient.id asha_row →
       get_patient (with_patients empty_db [asha_row]) id
       = get_patient empty_db id).
Proof.
  apply (post_patient_then_get empty_db (mkDefaults "u1" 100) asha).
  vm_compute. reflexivity.
Defined.

(** The record [createHealthRecord] resolves to is the one
    [GET /api/health-records/:id] answers with under its id; it refers to a
    patient of the store, needs no follow-up unless the payload says so,
    and the answers for the other ids are as before. *)
Theorem createHealthRecord_then_get db d data r db' :
  createHealthRecord db d data = Ok (r, db') →
  getHealthRecordById db' (HealthRecord.id r) = Ok (Some r)
  ∧ get_health_record db' (HealthRecord.id r) = mkAnswer 200 (SentValue r)
  ∧ HealthRecord.patientId r ∈ Patient.id <$> patients db'
  ∧ HealthRecord.followupRequired r
    = default (Some false) (InsertHealthRecord.followupRequired data)
  ∧ (∀ id, id ≠ HealthRecord.id r →
       get_health_record db' id = get_health_record db id).
Proof.
  intros (Hr & Hid & Hp & _ & ->)%createHealthRecord_ok.
  unfold get_health_record, getHealthRecordById. simpl.
  rewrite (lookup_snoc_fresh HealthRecord.id) by done.
  repeat split; [done|by rewrite Hr|].
  intros id Hne. by rewrite (lookup_snoc_other HealthRecord.id).
Qed.

Lemma createHealthRecord_then_get_witness :
  getHealthRecordById
    (with_healthRecords (with_patients (with_users empty_db [meera_row]) [asha_row]) [checkup_row])
    (HealthRecord.id checkup_row) = Ok (Some checkup_row)
  ∧ get_health_record
      (with_healthRecords (with_patients (with_users empty_db [meera_row]) [asha_row]) [checkup_row])
      (HealthRecord.id checkup_row) = mkAnswer 200 (SentValue checkup_row)
  ∧ HealthRecord.patientId checkup_row
    ∈ Patient.id <$>
        patients
          (with_healthRecords (with_patients (with_users empty_db [meera_row]) [asha_row])
             [checkup_row])
  ∧ HealthRecord.followupRequired checkup_row
    = default (Some false) (InsertHealthRecord.followupRequired checkup)
  ∧ (∀ id, id ≠ HealthRecord.id checkup_row →
       get_health_record
         (with_healthRecords (with_patients (with_users empty_db [meera_row]) [asha_row])
            [checkup_row]) id
       = get_health_record (with_patients (with_users empty_db [meera_row]) [asha_row]) id).
Proof.
  apply (createHealthRecord_then_get (with_patients (with_users empty_db [meera_row]) [asha_row])
           (mkDefaults "h1" 300) checkup).
  reflexivity.
Defined.

(** ** The dashboard *)

Lemma getPatients_unfiltered db :
  getPatients db (mkPatientFilters None None None None None)
  = Ok (orderBy_desc Patient.registeredAt (patients db)).
Proof. reflexivity. Qed.

(** In a store that satisfies its constraints the four numbers of the
    dashboard are the lengths of the lists the list endpoints answer with
    when no filter is given (active alerts: with [activeOnly]). *)
Theorem getDashboardStats_counts_lists (date_ordinal : string → Z) db :
  consistent db →
  ∃ stats ps rs cs alerts,
    getDashboardStats db = Ok stats
    ∧ get_dashboard_stats db = mkAnswer 200 (SentValue stats)
    ∧ getPatients db (mkPatientFilters None None None None None) = Ok ps
    ∧ getHealthRecords date_ordinal db None = Ok rs
    ∧ getDiseaseCases db (mkDiseaseCaseFilters None None None None) = Ok cs
    ∧ getHealthAlerts db (Some true) = Ok alerts
    ∧ totalPatients stats = length ps
    ∧ totalScreenings stats = length rs
    ∧ totalDiseaseCases stats = length cs
    ∧ activeAlerts stats = length alerts.
Proof.
  intros [Hcases _]%join_cases_referenced.
  do 5 eexists. unfold get_dashboard_stats, getDashboardStats.
  rewrite getPatients_unfiltered.
  unfold getHealthRecords, getDiseaseCases, getHealthAlerts. simpl.
  repeat (split; [reflexivity|]).
  rewrite !length_fmap, !orderBy_desc_perm.
  repeat split. by rewrite <- Hcases, !length_fmap.
Qed.

Lemma getDashboardStats_counts_lists_witness :
  ∃ stats ps rs cs alerts,
    getDashboardStats ward_db = Ok stats
    ∧ get_dashboard_stats ward_db = mkAnswer 200 (SentValue stats)
    ∧ getPatients ward_db (mkPatientFilters None None None None None) = Ok ps
    ∧ getHealthRecords (λ _, 0%Z) ward_db None = Ok rs
    ∧ getDiseaseCases ward_db (mkDiseaseCaseFilters None None None None)
      = Ok cs
    ∧ getHealthAlerts ward_db (Some true) = Ok alerts
    ∧ totalPatients stats = length ps
    ∧ totalScreenings stats = length rs
    ∧ totalDiseaseCases stats = length cs
    ∧ activeAlerts stats = length alerts.
Proof.
  apply (getDashboardStats_counts_lists (λ _, 0%Z) ward_db).
  exact ward_db_consistent.
Defined.

(** ** No call removes a row *)

Lemma committed_ok {A} (r : Result (A * DB)) db' :
  committed r = Ok db' → ∃ a, r = Ok (a, db').
Proof. destruct r as [[a db'']|e]; [|done]. intros [= <-]. by exists a. Qed.

(** A call of the storage layer that succeeds leaves in every table at
    least the number of rows it found, and at most one more. *)
Theorem run_never_deletes db m db' :
  run db m = Ok db' →
  (length (users db) ≤ length (users db') ≤ S (length (users db)))%nat
  ∧ (length (patients db) ≤ length (patients db')
     ≤ S (length (patients db)))%nat
  ∧ (length (healthRecords db) ≤ length (healthRecords db')
     ≤ S (length (healthRecords db)))%nat
  ∧ (length (diseases db) ≤ length (diseases db')
     ≤ S (length (diseases db)))%nat
  ∧ (length (diseaseCases db) ≤ length (diseaseCases db')
     ≤ S (length (diseaseCases db)))%nat
  ∧ (length (healthAlerts db) ≤ length (healthAlerts db')
     ≤ S (length (healthAlerts db)))%nat.
Proof.
  destruct m; simpl; intros [x Hrun]%committed_ok.
  - apply createUser_ok in Hrun as (_ & _ & _ & ->). simpl.
    rewrite length_app. simpl. lia.
  - apply createPatient_ok in Hrun as (_ & _ & _ & _ & ->). simpl.
    rewrite length_app. simpl. lia.
  - apply updatePatient_ok in Hrun as [[_ ->]|(-> & _)]; simpl;
      rewrite ?length_fmap; lia.
  - apply createHealthRecord_ok in Hrun as (_ & _ & _ & _ & ->). simpl.
    rewrite length_app. simpl. lia.
  - apply createDisease_ok in Hrun as (_ & _ & _ & ->). simpl.
    rewrite length_app. simpl. lia.
  - apply createDiseaseCase_ok in Hrun as (_ & _ & _ & _ & _ & ->). simpl.
    rewrite length_app. simpl. lia.
  - apply createHealthAlert_ok in Hrun as (_ & _ & _ & _ & ->). simpl.
    rewrite length_app. simpl. lia.
  - apply updateHealthAlert_ok in Hrun as [(_ & -> & _)|(-> & _)]; simpl;
      rewrite ?length_fmap; lia.
Qed.

Lemma run_never_deletes_witness :
  (length (users empty_db) ≤ length (users (with_users empty_db [meera_row]))
   ≤ S (length (users empty_db)))%nat
  ∧ (length (patients empty_db)
     ≤ length (patients (with_users empty_db [meera_row]))
     ≤ S (length (patients empty_db)))%nat
  ∧ (length (healthRecords empty_db)
     ≤ length (healthRecords (with_users empty_db [meera_row]))
     ≤ S (length (healthRecords empty_db)))%nat
  ∧ (length (diseases empty_db)
     ≤ length (diseases (with_users empty_db [meera_row]))
     ≤ S (length (diseases empty_db)))%nat
  ∧ (length (diseaseCases empty_db)
     ≤ length (diseaseCases (with_users empty_db [meera_row]))
     ≤ S (length (diseaseCases empty_db)))%nat
  ∧ (length (healthAlerts empty_db)
     ≤ length (healthAlerts (with_users empty_db [meera_row]))
     ≤ S (length (healthAlerts empty_db)))%nat.
Proof.
  apply (run_never_deletes empty_db (CreateUser (mkDefaults "w1" 10) meera)).
  reflexivity.
Defined.

(** ** Pages of [getPatients] *)



(** A patient registered later than every patient of the store heads the
    list [getPatients] answers with, whatever positive limit is given: the
    list of recent patients begins with the patient just created. *)
Theorem createPatient_listed_first db d data p db' limit :
  createPatient db d data = Ok (p, db') →
  Forall (λ q, (Patient.registeredAt q < now d)%Z) (patients db) →
  (0 < limit)%Z →
  ∃ rest,
    getPatients db' (mkPatientFilters None None None (Some limit) None)
    = Ok (p :: rest).
Proof.
  intros (Hp & _ & _ & _ & ->)%createPatient_ok Hearlier Hlimit.
  unfold getPatients. simpl. unfold limit_, truthy_number.
  destruct (Z.eqb_spec limit 0) as [?|_]; [lia|].
  destruct (Z.ltb_spec limit 0) as [?|_]; [lia|].
  pose proof (orderBy_desc_sorted Patient.registeredAt (patients db ++ [p]))
    as Hsorted.
  pose proof (orderBy_desc_perm Patient.registeredAt (patients db ++ [p]))
    as Hperm.
  destruct (orderBy_desc Patient.registeredAt (patients db ++ [p]))
    as [|h sorted].
  { apply Permutation_nil_l in Hperm. by destruct (patients db). }
  assert (Hh : h = p).
  { assert (Hin : h ∈ patients db ++ [p])
      by (rewrite <- Hperm; apply list_elem_of_here).
    apply elem_of_app in Hin as [Hold|Hnew%list_elem_of_singleton]; [|done].
    assert (Hlt : (Patient.registeredAt h < now d)%Z)
      by exact (proj1 (Forall_forall _ _) Hearlier h Hold).
    assert (Hpin : p ∈ h :: sorted).
    { rewrite Hperm. apply elem_of_app. right. apply list_elem_of_here. }
    apply elem_of_cons in Hpin as [->|Htail]; [done|].
    apply StronglySorted_inv in Hsorted as [_ Hle].
    pose proof (proj1 (Forall_forall _ _) Hle p Htail) as Hdesc.
    unfold desc_by in Hdesc. rewrite Hp in Hdesc. simpl in Hdesc. lia. }
  subst h. destruct (Z.to_nat limit) as [|n] eqn:Hn; [lia|].
  by eexists.
Qed.

Lemma createPatient_listed_first_witness :
  ∃ rest,
    getPatients
      (with_patients clinic_db
         (patients clinic_db
          ++ [patient_row (mkDefaults "u3" 250) asha_data "MW000003"]))
      (mkPatientFilters None None None (Some 5%Z) None)
    = Ok (patient_row (mkDefaults "u3" 250) asha_data "MW000003" :: rest).
Proof.
  apply (createPatient_listed_first clinic_db (mkDefaults "u3" 250) asha_data
           (patient_row (mkDefaults "u3" 250) asha_data "MW000003")
           (with_patients clinic_db
              (patients clinic_db
               ++ [patient_row (mkDefaults "u3" 250) asha_data "MW000003"]))
           5);
    [reflexivity|by_evaluation|lia].
Defined.

(** ** [updateHealthAlert] *)

(** As for patients, an update of an id that no alert has resolves to
    [undefined] and leaves the store as it was, and
    [PUT /api/health-alerts/:id] answers 200 with no body.  The update
    gives some field, an affected count (if any) in the range of its
    column, and no [createdAt]. *)
Theorem updateHealthAlert_missing db id updates :
  id ∉ (HealthAlert.id <$> healthAlerts db) →
  PartialHealthAlert.is_empty updates = false →
  accepted_alert_update updates →
  updateHealthAlert db id updates = Ok (None, db)
  ∧ put_health_alert db id updates = (mkAnswer 200 SentUndefined, db).
Proof.
  intros Hid Hupdates [Hcount Hat].
  assert (Hcall : updateHealthAlert db id updates = Ok (None, db)).
  { unfold updateHealthAlert. rewrite Hupdates, Hcount. cbn [negb].
    replace (List.filter _ (healthAlerts db)) with (@nil HealthAlert.t);
      [done|].
    symmetry. apply filter_nil_iff. intros x Hx. apply String.eqb_neq.
    intros Heq. apply Hid. rewrite <- Heq. apply list_elem_of_fmap.
    by exists x. }
  split; [done|]. unfold put_health_alert. by rewrite Hat, Hcall.
Qed.

Lemma updateHealthAlert_missing_witness :
  updateHealthAlert camp_db "a9" deactivate = Ok (None, camp_db)
  ∧ put_health_alert camp_db "a9" deactivate
    = (mkAnswer 200 SentUndefined, camp_db).
Proof.
  apply (updateHealthAlert_missing camp_db "a9" deactivate);
    [by_evaluation|reflexivity|by split].
Defined.

Lemma is_empty_isActive updates flag :
  PartialHealthAlert.isActive updates = Some flag →
  PartialHealthAlert.is_empty updates = false.
Proof.
  destruct updates as [[] [] [] [] [] [] [] [] [] []]; simpl; congruence.
Qed.

(** An update that touches neither the key nor the references of an alert
    of a store satisfying its constraints, and whose affected count is in
    the range of its column, succeeds on it. *)
Lemma updateHealthAlert_existing db a updates :
  consistent db → a ∈ healthAlerts db →
  PartialHealthAlert.is_empty updates = false →
  from_option (from_option int4 true) true
    (PartialHealthAlert.affectedCount updates) = true →
  PartialHealthAlert.id updates = None →
  PartialHealthAlert.diseaseId updates = None →
  PartialHealthAlert.createdBy updates = None →
  updateHealthAlert db (HealthAlert.id a) updates
  = Ok (Some (PartialHealthAlert.apply updates a),
        with_healthAlerts db
          ((λ x, if String.eqb (HealthAlert.id x) (HealthAlert.id a)
                 then PartialHealthAlert.apply updates x else x)
             <$> healthAlerts db)).
Proof.
  intros Hdb Ha Hupdates Hcount Hid Hdisease Hby. unfold updateHealthAlert.
  rewrite Hupdates, Hcount. cbn [negb].
  rewrite (filter_key_unique HealthAlert.id (healthAlerts db) a
             (health_alerts_pkey db Hdb) Ha).
  simpl fmap at 1. cbv iota.
  assert (Hids : HealthAlert.id <$>
                   ((λ x, if String.eqb (HealthAlert.id x) (HealthAlert.id a)
                          then PartialHealthAlert.apply updates x else x)
                      <$> healthAlerts db)
                 = HealthAlert.id <$> healthAlerts db).
  { rewrite <- list_fmap_compose. apply list_fmap_ext. intros i x _. simpl.
    destruct (String.eqb _ _); [|done]. simpl. by rewrite Hid. }
  rewrite Hids.
  replace (has_duplicate _) with false
    by (symmetry; apply has_duplicate_NoDup, (health_alerts_pkey db Hdb)).
  replace (check_all _ _) with (Ok ()); [done|].
  symmetry. apply check_all_ok. intros x ->%list_elem_of_singleton.
  apply check_healthAlert_ok. simpl. rewrite Hdisease, Hby. simpl.
  exact (proj1 (Forall_forall _ _) (health_alerts_fk db Hdb) a Ha).
Qed.

(** Withdrawing an alert: an update that sets [isActive] to false, gives
    neither the id, nor the references, nor [createdAt], and an affected
    count (if any) in the range of its column, is answered with the
    updated alert; afterwards the active alerts are those that were
    active, without the one withdrawn, while the list of all alerts keeps
    its length and holds the withdrawn alert. *)
Theorem updateHealthAlert_withdraws db a updates :
  consistent db → a ∈ healthAlerts db →
  PartialHealthAlert.id updates = None →
  PartialHealthAlert.diseaseId updates = None →
  PartialHealthAlert.createdBy updates = None →
  accepted_alert_update updates →
  PartialHealthAlert.isActive updates = Some (Some false) →
  ∃ db' active everything,
    put_health_alert db (HealthAlert.id a) updates
    = (mkAnswer 200 (SentValue (PartialHealthAlert.apply updates a)), db')
    ∧ getHealthAlerts db' (Some true) = Ok active
    ∧ (∀ x, x ∈ active ↔
            x ∈ healthAlerts db ∧ HealthAlert.isActive x = Some true
            ∧ HealthAlert.id x ≠ HealthAlert.id a)
    ∧ getHealthAlerts db' None = Ok everything
    ∧ PartialHealthAlert.apply updates a ∈ everything
    ∧ length everything = length (healthAlerts db).
Proof.
  intros Hdb Ha Hid Hdisease Hby [Hcount Hat] Hactive.
  pose proof (updateHealthAlert_existing db a updates Hdb Ha
                (is_empty_isActive _ _ Hactive) Hcount Hid Hdisease Hby)
    as Hcall.
  do 3 eexists. unfold put_health_alert. rewrite Hat, Hcall.
  split; [reflexivity|]. unfold getHealthAlerts. simpl.
  split; [reflexivity|]. split; [|split; [reflexivity|split]].
  - intros x. rewrite orderBy_desc_perm, list_elem_of_In, filter_In,
      <- list_elem_of_In, bool_decide_eq_true, list_elem_of_fmap.
    split.
    + intros [(y & -> & Hy) Hx].
      destruct (String.eqb_spec (HealthAlert.id y) (HealthAlert.id a))
        as [Heq|Hne].
      * simpl in Hx. by rewrite Hactive in Hx.
      * done.
    + intros (Hx & Hx' & Hne). split; [|done]. exists x.
      by destruct (String.eqb_spec (HealthAlert.id x) (HealthAlert.id a)).
  - rewrite orderBy_desc_perm. apply list_elem_of_fmap. exists a.
    by rewrite String.eqb_refl.
  - by rewrite orderBy_desc_perm, length_fmap.
Qed.

Lemma updateHealthAlert_withdraws_witness :
  ∃ db' active everything,
    put_health_alert camp_db "a1" deactivate
    = (mkAnswer 200
         (SentValue
            (PartialHealthAlert.apply deactivate
               (HealthAlert.mk "a1" "Dengue" "Cases rising" SevHigh
                  (Some "Kerala") (Some "d1") (Some 12%Z) (Some true) 700
                  None))), db')
    ∧ getHealthAlerts db' (Some true) = Ok active
    ∧ (∀ x, x ∈ active ↔
            x ∈ healthAlerts camp_db ∧ HealthAlert.isActive x = Some true
            ∧ HealthAlert.id x ≠ "a1")
    ∧ getHealthAlerts db' None = Ok everything
    ∧ PartialHealthAlert.apply deactivate
        (HealthAlert.mk "a1" "Dengue" "Cases rising" SevHigh
           (Some "Kerala") (Some "d1") (Some 12%Z) (Some true) 700 None)
      ∈ everything
    ∧ length everything = length (healthAlerts camp_db).
Proof.
  apply (updateHealthAlert_withdraws camp_db
           (HealthAlert.mk "a1" "Dengue" "Cases rising" SevHigh
              (Some "Kerala") (Some "d1") (Some 12%Z) (Some true) 700 None)
           deactivate);
    [exact camp_db_consistent|vm_compute; apply list_elem_of_here
    |reflexivity|reflexivity|reflexivity|by split|reflexivity].
Defined.

(** ** [getHealthRecords] *)

(** A patient id that is given selects the records of exactly that
    patient (an equality, not a pattern); no id, or the empty one, selects
    all records; in both cases latest checkup first. *)
Theorem getHealthRecords_of_patient (date_ordinal : string → Z) db :
  (∀ patientId, patientId ≠ "" →
     ∃ rs, getHealthRecords date_ordinal db (Some patientId) = Ok rs
       ∧ rs ≡ₚ List.filter
                 (λ r, bool_decide (HealthRecord.patientId r = patientId))
                 (healthRecords db)
       ∧ StronglySorted
           (desc_by (λ r, date_ordinal (HealthRecord.checkupDate r))) rs)
  ∧ (∃ rs, getHealthRecords date_ordinal db None = Ok rs
       ∧ getHealthRecords date_ordinal db (Some "") = Ok rs
       ∧ rs ≡ₚ healthRecords db
       ∧ StronglySorted
           (desc_by (λ r, date_ordinal (HealthRecord.checkupDate r))) rs).
Proof.
  split.
  - intros patientId Hne. eexists. split; [reflexivity|].
    split; [|apply orderBy_desc_sorted].
    rewrite orderBy_desc_perm. unfold truthy_string.
    destruct (String.eqb_spec patientId "") as [?|_]; [done|].
    erewrite List.filter_ext; [reflexivity|]. intros r. simpl.
    destruct (String.eqb_spec (HealthRecord.patientId r) patientId).
    + by rewrite bool_decide_eq_true_2.
    + by rewrite bool_decide_eq_false_2.
  - eexists. split; [reflexivity|]. split; [reflexivity|].
    split; [apply orderBy_desc_perm|apply orderBy_desc_sorted].
Qed.

(** ** The statistics count every case once *)

Lemma getDiseaseStats_groups db :
  NoDup (Disease.id <$> diseases db) →
  ∃ stats,
    getDiseaseStats db = Ok stats
    ∧ stats ≡ₚ (λ d, mkDiseaseStat (Disease.name d) (cases_of db d))
                 <$> diseases db.
Proof.
  intros Hnd. unfold getDiseaseStats. eexists. split; [reflexivity|].
  rewrite orderBy_desc_perm. unfold groupBy.
  rewrite <- list_fmap_compose.
  rewrite (group_keys (diseaseCases db) (diseases db) Hnd).
  rewrite <- list_fmap_compose.
  erewrite Forall_fmap_ext_1; [reflexivity|]. apply Forall_forall.
  intros d Hd. simpl. f_equal.
  etrans; [exact (counted_present (diseaseCases db) d (diseases db) Hnd Hd)|].
  unfold cases_of. f_equal. apply List.filter_ext. intros c.
  apply String.eqb_sym.
Qed.

Lemma sum_list_with_fmap {A B} (f : B → nat) (g : A → B) (l : list A) :
  sum_list_with f (g <$> l) = sum_list_with (f ∘ g) l.
Proof. induction l as [|a l IH]; [done|]. simpl. f_equal. exact IH. Qed.

Section referring.
Context {A B : Type} (fk : A → string) (key : B → string).

(** A key that is unique is the key of one row. *)
Lemma sum_key_unique (rows : list B) k :
  NoDup (key <$> rows) → k ∈ key <$> rows →
  sum_list_with (λ b, if String.eqb k (key b) then 1 else 0) rows = 1.
Proof.
  induction rows as [|b rows IH]; [by intros _ ?%elem_of_nil|].
  rewrite fmap_cons, NoDup_cons, elem_of_cons. intros [Hb Hnd] Hin. simpl.
  destruct (String.eqb_spec k (key b)) as [->|Hne].
  - f_equal. clear IH Hin. induction rows as [|b' rows IH]; [done|].
    rewrite fmap_cons, not_elem_of_cons in Hb. destruct Hb as [Hne Hb].
    apply NoDup_cons in Hnd as [_ Hnd]. simpl.
    destruct (String.eqb_spec (key b) (key b')); [done|]. by apply IH.
  - destruct Hin as [?|Hin]; [done|]. by apply IH.
Qed.

(** When every row refers to a row of a table with a unique key, the
    numbers of rows referring to each row of that table add up to the
    number of rows. *)
Lemma sum_referring (refs : list A) (rows : list B) :
  NoDup (key <$> rows) →
  Forall (λ a, fk a ∈ key <$> rows) refs →
  sum_list_with
    (λ b, length (List.filter (λ a, String.eqb (fk a) (key b)) refs)) rows
  = length refs.
Proof.
  intros Hnd. induction 1 as [|a refs Ha _ IH].
  - simpl. induction rows as [|b rows IH]; [done|]. simpl.
    apply IH. by apply NoDup_cons in Hnd as [_ ?].
  - transitivity
      (sum_list_with (λ b, if String.eqb (fk a) (key b) then 1 else 0) rows
       + sum_list_with
           (λ b, length (List.filter (λ a, String.eqb (fk a) (key b)) refs))
           rows).
    + clear. induction rows as [|b rows IH]; [done|].
      cbn [sum_list_with]. rewrite IH. simpl.
      destruct (String.eqb (fk a) (key b)); simpl; lia.
    + by rewrite IH, (sum_key_unique rows (fk a) Hnd Ha).
Qed.
End referring.

(** In a store that satisfies its constraints [getDiseaseStats] has one
    entry for each disease, and the counts of the entries add up to the
    number of disease cases: every case is counted, and counted once. *)
Theorem getDiseaseStats_counts_every_case db :
  consistent db →
  ∃ stats,
    getDiseaseStats db = Ok stats
    ∧ get_disease_stats db = mkAnswer 200 (SentValue stats)
    ∧ length stats = length (diseases db)
    ∧ sum_list_with stat_count stats = length (diseaseCases db).
Proof.
  intros [].
  destruct (getDiseaseStats_groups db) as (stats & Hcall & Hperm); [done|].
  exists stats. unfold get_disease_stats. rewrite Hcall.
  split; [done|]. split; [done|]. rewrite Hperm. split.
  - by rewrite length_fmap.
  - rewrite sum_list_with_fmap.
    apply (sum_referring DiseaseCase.diseaseId Disease.id); [done|].
    eapply Forall_impl; [eassumption|]. by intros c (? & ? & ?).
Qed.

Lemma getDiseaseStats_counts_every_case_witness :
  ∃ stats,
    getDiseaseStats ward_db = Ok stats
    ∧ get_disease_stats ward_db = mkAnswer 200 (SentValue stats)
    ∧ length stats = length (diseases ward_db)
    ∧ sum_list_with stat_count stats = length (diseaseCases ward_db).
Proof.
  apply (getDiseaseStats_counts_every_case ward_db).
  exact ward_db_consistent.
Defined.

(** ** The client *)

Lemma find_key_unique {A} (key : A → string) (rows : list A) r :
  NoDup (key <$> rows) → r ∈ rows →
  List.find (λ x, String.eqb (key x) (key r)) rows = Some r.
Proof.
  induction rows as [|a rows IH]; [by intros _ ?%elem_of_nil|].
  rewrite fmap_cons, NoDup_cons, elem_of_cons. intros [Ha Hnd] Hin. simpl.
  destruct (String.eqb_spec (key a) (key r)) as [Heq|Hne].
  - destruct Hin as [->|Hin]; [done|]. destruct Ha. rewrite Heq.
    apply list_elem_of_fmap. by exists r.
  - destruct Hin as [->|Hin]; [done|]. by apply IH.
Qed.

(** In a store that satisfies its constraints, the page of health records
    finds the patient of every record in the list of patients it has
    fetched, and it is the patient the server finds under that id. *)
Theorem getPatientInfo_finds_patient db r :
  consistent db → r ∈ healthRecords db →
  ∃ ps p,
    getPatients db (mkPatientFilters None None None None None) = Ok ps
    ∧ getPatientInfo (Some ps) (HealthRecord.patientId r) = Some p
    ∧ getPatientById db (HealthRecord.patientId r) = Ok (Some p)
    ∧ p ∈ patients db.
Proof.
  intros Hdb Hr.
  pose proof (patients_pkey db Hdb) as Hpk.
  destruct (proj1 (Forall_forall _ _) (health_records_fk db Hdb) r Hr)
    as [(p & Hkey & Hp)%list_elem_of_fmap _].
  exists (orderBy_desc Patient.registeredAt (patients db)), p.
  split; [apply getPatients_unfiltered|]. rewrite Hkey.
  unfold getPatientInfo, getPatientById. simpl. split; [|split; [|done]].
  - apply find_key_unique.
    + by rewrite orderBy_desc_perm.
    + by rewrite orderBy_desc_perm.
  - by rewrite (filter_key_unique Patient.id).
Qed.

Lemma getPatientInfo_finds_patient_witness :
  ∃ ps p,
    getPatients ward_db (mkPatientFilters None None None None None) = Ok ps
    ∧ getPatientInfo (Some ps) (HealthRecord.patientId checkup_row) = Some p
    ∧ getPatientById ward_db (HealthRecord.patientId checkup_row)
      = Ok (Some p)
    ∧ p ∈ patients ward_db.
Proof.
  apply (getPatientInfo_finds_patient ward_db checkup_row);
    [exact ward_db_consistent|vm_compute; apply list_elem_of_here].
Defined.

(** Toggling a district flips whether it is selected and leaves the
    selection of every other district as it was; a selection without
    repetitions stays without repetitions. *)
Theorem handleDistrictToggle_flips district prev :
  (district ∈ handleDistrictToggle district prev ↔ district ∉ prev)
  ∧ (∀ d, d ≠ district →
       (d ∈ handleDistrictToggle district prev ↔ d ∈ prev))
  ∧ (NoDup prev → NoDup (handleDistrictToggle district prev)).
Proof.
  unfold handleDistrictToggle.
  assert (Hfilter : ∀ d,
            d ∈ List.filter (λ d, negb (String.eqb d district)) prev
            ↔ d ∈ prev ∧ d ≠ district).
  { intros d. rewrite list_elem_of_In, filter_In, <- list_elem_of_In,
      negb_true_iff. by rewrite String.eqb_neq. }
  case_bool_decide as Hin; repeat split.
  - by intros [_ ?]%Hfilter.
  - done.
  - by intros [? _]%Hfilter.
  - intros Hd. by apply Hfilter.
  - intros Hnd. apply NoDup_ListNoDup, List.NoDup_filter.
    by apply NoDup_ListNoDup.
  - done.
  - intros _. apply elem_of_app. right. apply list_elem_of_here.
  - intros [?|?%list_elem_of_singleton]%elem_of_app; done.
  - intros Hd. apply elem_of_app. by left.
  - intros Hnd. by apply NoDup_snoc_fresh.
Qed.

(** ** What has been created is listed *)

(** In a store that satisfies its constraints, a disease case that
    [createDiseaseCase] has stored is listed by [getDiseaseCases] with the
    name and the district of its patient and the name of its disease; its
    status is the one given or [active], its severity the one given or
    [mild]. *)
Theorem createDiseaseCase_listed db d data c db' :
  consistent db →
  createDiseaseCase db d data = Ok (c, db') →
  ∃ rows row p x,
    getDiseaseCases db' (mkDiseaseCaseFilters None None None None) = Ok rows
    ∧ row ∈ rows
    ∧ DiseaseCaseRow.id row = DiseaseCase.id c
    ∧ p ∈ patients db ∧ Patient.id p = InsertDiseaseCase.patientId data
    ∧ x ∈ diseases db ∧ Disease.id x = InsertDiseaseCase.diseaseId data
    ∧ DiseaseCaseRow.patientName row = Some (Patient.name p)
    ∧ DiseaseCaseRow.patientDistrict row = Some (Patient.district p)
    ∧ DiseaseCaseRow.diseaseName row = Some (Disease.name x)
    ∧ DiseaseCaseRow.status row
      = default "active" (InsertDiseaseCase.status data)
    ∧ DiseaseCaseRow.severity row
      = default "mild" (InsertDiseaseCase.severity data).
Proof.
  intros Hdb Hcreate.
  pose proof (createDiseaseCase_consistent _ _ _ _ _ Hdb Hcreate) as Hdb'.
  apply createDiseaseCase_ok in Hcreate as (Hc & _ & _ & _ & _ & ->).
  apply join_cases_referenced in Hdb' as [Hcases Hjoined].
  assert (Hin : c ∈ ((join_cases
                        (with_diseaseCases db (diseaseCases db ++ [c]))).*1).*1).
  { rewrite Hcases. simpl. apply elem_of_app. right. apply list_elem_of_here. }
  apply list_elem_of_fmap in Hin as (cp & Hcp & Hin).
  apply list_elem_of_fmap in Hin as (j & Hcj & Hj).
  assert (Hjc : joined_case j = c)
    by (unfold joined_case; by rewrite Hcp, Hcj).
  pose proof (proj1 (Forall_forall _ _) Hjoined j Hj)
    as (p & x & Hp & Hx & Hpin & Hxin & Hpid & Hxid).
  rewrite Hjc, Hc in Hpid, Hxid. simpl in Hpin, Hxin, Hpid, Hxid.
  exists (select_case
            <$> orderBy_desc (λ j, DiseaseCase.reportedAt (joined_case j))
                  (join_cases (with_diseaseCases db (diseaseCases db ++ [c])))),
    (select_case j), p, x.
  split; [reflexivity|]. split.
  { apply list_elem_of_fmap. exists j. by rewrite orderBy_desc_perm. }
  unfold select_case. rewrite Hp, Hx, Hjc, Hc. done.
Qed.

Lemma createDiseaseCase_listed_witness :
  ∃ rows row p x,
    getDiseaseCases
      (with_diseaseCases ward_db
         (diseaseCases ward_db
          ++ [DiseaseCase.mk "c2" "u1" "d1" "2024-02-01" "active" "severe"
                None 500 None]))
      (mkDiseaseCaseFilters None None None None) = Ok rows
    ∧ row ∈ rows
    ∧ DiseaseCaseRow.id row
      = DiseaseCase.id
          (DiseaseCase.mk "c2" "u1" "d1" "2024-02-01" "active" "severe"
             None 500 None)
    ∧ p ∈ patients ward_db
    ∧ Patient.id p
      = InsertDiseaseCase.patientId
          (InsertDiseaseCase.mk "u1" "d1" "2024-02-01" None (Some "severe")
             None None)
    ∧ x ∈ diseases ward_db
    ∧ Disease.id x
      = InsertDiseaseCase.diseaseId
          (InsertDiseaseCase.mk "u1" "d1" "2024-02-01" None (Some "severe")
             None None)
    ∧ DiseaseCaseRow.patientName row = Some (Patient.name p)
    ∧ DiseaseCaseRow.patientDistrict row = Some (Patient.district p)
    ∧ DiseaseCaseRow.diseaseName row = Some (Disease.name x)
    ∧ DiseaseCaseRow.status row
      = default "active"
          (InsertDiseaseCase.status
             (InsertDiseaseCase.mk "u1" "d1" "2024-02-01" None
                (Some "severe") None None))
    ∧ DiseaseCaseRow.severity row
      = default "mild"
          (InsertDiseaseCase.severity
             (InsertDiseaseCase.mk "u1" "d1" "2024-02-01" None
                (Some "severe") None None)).
Proof.
  apply (createDiseaseCase_listed ward_db (mkDefaults "c2" 500)
           (InsertDiseaseCase.mk "u1" "d1" "2024-02-01" None (Some "severe")
              None None));
    [exact ward_db_consistent|vm_compute; reflexivity].
Defined.

(** A disease that [createDisease] has stored in a store satisfying its
    constraints is in the statistics at once, with no case counted. *)
Theorem createDisease_counted_zero db d data x db' :
  consistent db →
  createDisease db d data = Ok (x, db') →
  ∃ stats,
    getDiseaseStats db' = Ok stats
    ∧ mkDiseaseStat (InsertDisease.name data) 0 ∈ stats.
Proof.
  intros Hdb Hcreate.
  pose proof (createDisease_consistent _ _ _ _ _ Hdb Hcreate) as Hdb'.
  destruct (getDiseaseStats_groups db' (diseases_pkey db' Hdb'))
    as (stats & Hcall & Hperm).
  exists stats. split; [done|]. rewrite Hperm.
  apply createDisease_ok in Hcreate as (Hx & Hid & _ & ->).
  apply list_elem_of_fmap. exists x. split.
  - f_equal; [by rewrite Hx|]. symmetry. unfold cases_of. simpl.
    apply length_zero_iff_nil, filter_nil_iff. intros c Hc.
    apply String.eqb_neq. intros Heq. apply Hid. rewrite <- Heq.
    by destruct (proj1 (Forall_forall _ _) (disease_cases_fk db Hdb) c Hc)
      as (_ & ? & _).
  - simpl. apply elem_of_app. right. apply list_elem_of_here.
Qed.

Lemma createDisease_counted_zero_witness :
  ∃ stats,
    getDiseaseStats
      (with_diseases ward_db
         (diseases ward_db
          ++ [Disease.mk "d2" "Malaria" Infectious None None (Some false)
                (Some false)])) = Ok stats
    ∧ mkDiseaseStat
        (InsertDisease.name
           (InsertDisease.mk "Malaria" Infectious None None None None)) 0
      ∈ stats.
Proof.
  apply (createDisease_counted_zero ward_db (mkDefaults "d2" 160)
           (InsertDisease.mk "Malaria" Infectious None None None None)
           (Disease.mk "d2" "Malaria" Infectious None None (Some false)
              (Some false)));
    [exact ward_db_consistent|vm_compute; reflexivity].
Defined.

(** An alert created without [isActive], or with [isActive] true, is
    active: it is among the alerts [getHealthAlerts] answers with when
    only the active ones are asked for, and the dashboard counts one
    active alert more than before. *)
Theorem createHealthAlert_active db d data a db' :
  createHealthAlert db d data = Ok (a, db') →
  InsertHealthAlert.isActive data = None
  ∨ InsertHealthAlert.isActive data = Some (Some true) →
  ∃ alerts stats stats',
    getHealthAlerts db' (Some true) = Ok alerts ∧ a ∈ alerts
    ∧ getDashboardStats db = Ok stats
    ∧ getDashboardStats db' = Ok stats'
    ∧ activeAlerts stats' = S (activeAlerts stats).
Proof.
  intros (Ha & _ & _ & _ & ->)%createHealthAlert_ok Hactive.
  assert (Hon : HealthAlert.isActive a = Some true).
  { rewrite Ha. simpl. by destruct Hactive as [-> | ->]. }
  do 3 eexists. unfold getHealthAlerts, getDashboardStats. simpl.
  split; [reflexivity|]. split; [|split; [reflexivity|split; [reflexivity|]]].
  - rewrite orderBy_desc_perm, List.filter_app. apply elem_of_app. right.
    simpl. rewrite bool_decide_eq_true_2 by done. apply list_elem_of_here.
  - simpl. rewrite List.filter_app, length_app. simpl.
    rewrite bool_decide_eq_true_2 by done. simpl. lia.
Qed.

Lemma createHealthAlert_active_witness :
  ∃ alerts stats stats',
    getHealthAlerts
      (with_healthAlerts ward_db
         (healthAlerts ward_db
          ++ [HealthAlert.mk "a2" "Heat" "Heat wave" SevLow None None
                (Some 0%Z) (Some true) 800 None])) (Some true) = Ok alerts
    ∧ HealthAlert.mk "a2" "Heat" "Heat wave" SevLow None None (Some 0%Z)
        (Some true) 800 None ∈ alerts
    ∧ getDashboardStats ward_db = Ok stats
    ∧ getDashboardStats
        (with_healthAlerts ward_db
           (healthAlerts ward_db
            ++ [HealthAlert.mk "a2" "Heat" "Heat wave" SevLow None None
                  (Some 0%Z) (Some true) 800 None])) = Ok stats'
    ∧ activeAlerts stats' = S (activeAlerts stats).
Proof.
  apply (createHealthAlert_active ward_db (mkDefaults "a2" 800)
           (InsertHealthAlert.mk "Heat" "Heat wave" SevLow None None None
              None None));
    [vm_compute; reflexivity|by left].
Defined.
